(** * Falkenbergs Kallbad booking dashboard: ingestion, normalization, aggregation

    A shallow embedding of [dashboard.py].  Raw records are JSON values as the
    Directus API returns them, a pandas [DataFrame] is a list of column names
    together with a list of row dictionaries, user-visible messages
    ([st.error], [st.warning]) are collected in a log, and a Python exception
    is the [None] of an [option].

    Numbers: the seat counts and identifiers of this schema are JSON integers
    and are modelled as [Z]; a pandas [Timestamp] is its count of nanoseconds
    since the epoch; the utilization percentages, which the code computes in
    float64, are computed here in exact rational arithmetic ([Q]). *)

From Stdlib Require Import ZArith QArith Qround List String Ascii Bool Lia.
From Stdlib Require Import Sorting.Sorted Sorting.Permutation.
From Stdlib Require Import DecimalString.
Import ListNotations.

Set Warnings "-register-all".
Open Scope string_scope.
Open Scope Z_scope.

(* ===================================================================== *)
(** * Part I. Definitions                                                 *)
(* ===================================================================== *)

(** ** JSON values and pandas cells *)

(** [VNull] stands for Python [None] and for the pandas missing values
    [NaN] and [NaT]; [VTime] is a pandas [Timestamp] (nanoseconds since the
    epoch), which only appears after [pd.to_datetime]. *)
Inductive value : Type :=
| VNull
| VBool (b : bool)
| VNum (n : Z)
| VStr (s : string)
| VTime (t : Z)
| VDict (fields : list (string * value))
| VList (items : list value).

(** A row of a table, and a JSON object: a Python [dict]. *)
Definition record : Type := list (string * value).

Fixpoint lookup (k : string) (r : record) : option value :=
  match r with
  | [] => None
  | (k', v) :: r' => if String.eqb k k' then Some v else lookup k r'
  end.

(** [isinstance(x, dict)] *)
Definition is_dict (x : value) : bool :=
  match x with VDict _ => true | _ => false end.

(** [k in x] for a value already known to be a dict. *)
Definition has_key (k : string) (x : value) : bool :=
  match x with
  | VDict f => match lookup k f with Some _ => true | None => false end
  | _ => false
  end.

(** [x.get(k)] when [x] is a dict, [None] otherwise. *)
Definition dict_get (k : string) (x : value) : value :=
  match x with
  | VDict f => match lookup k f with Some v => v | None => VNull end
  | _ => VNull
  end.

(** [x.get(k, d)] when [x] is a dict, [d] otherwise. *)
Definition dict_get_default (k : string) (d : value) (x : value) : value :=
  match x with
  | VDict f => match lookup k f with Some v => v | None => d end
  | _ => d
  end.

(** [pd.isnull] / [pd.notna] on a cell. *)
Definition isnull (x : value) : bool :=
  match x with VNull => true | _ => false end.

(** ** DataFrames *)

Record DataFrame : Type := mkDF {
  columns : list string;
  rows : list record
}.

Definition has_column (c : string) (df : DataFrame) : bool :=
  existsb (String.eqb c) (columns df).

Definition add_column (c : string) (cols : list string) : list string :=
  if existsb (String.eqb c) cols then cols else (cols ++ [c])%list.

(** [pd.DataFrame(data)] for a list of JSON objects: the columns are the
    union of the keys, in order of first appearance. *)
Definition pd_DataFrame (data : list record) : DataFrame :=
  {| columns := fold_left
                  (fun cols r => fold_left (fun cs k => add_column k cs) (map fst r) cols)
                  data [];
     rows := data |}.

(** [df.empty]: no rows or no columns. *)
Definition empty (df : DataFrame) : bool :=
  match rows df, columns df with
  | [], _ => true
  | _, [] => true
  | _, _ => false
  end.

(** The cell of row [r] in column [c]; a key the row lacks reads as NaN. *)
Definition cell (r : record) (c : string) : value :=
  match lookup c r with Some v => v | None => VNull end.

(** [df[c]] as a list of cells. *)
Definition column (c : string) (df : DataFrame) : list value :=
  map (fun r => cell r c) (rows df).

(** [df[c].iloc[0]]; [None] is Python's IndexError on a table without rows. *)
Definition iloc0 (c : string) (df : DataFrame) : option value :=
  match rows df with
  | [] => None
  | r :: _ => Some (cell r c)
  end.

Fixpoint set_field (c : string) (v : value) (r : record) : record :=
  match r with
  | [] => [(c, v)]
  | (k, x) :: r' =>
      if String.eqb c k then (k, v) :: r' else (k, x) :: set_field c v r'
  end.

(** [df[c] = ...] where the new cell of each row is computed from that row
    (an element-wise [apply], a copy of another column, or a scalar). *)
Definition assign (c : string) (f : record -> value) (df : DataFrame) : DataFrame :=
  {| columns := add_column c (columns df);
     rows := map (fun r => set_field c (f r) r) (rows df) |}.

(** [df[mask]] for a mask computed row by row. *)
Definition select (keep : record -> bool) (df : DataFrame) : DataFrame :=
  {| columns := columns df; rows := filter keep (rows df) |}.

(** ** User-visible messages *)

Inductive message : Type :=
| st_error (text : string)
| st_warning (text : string)
| st_info (text : string).

(** ** Remote collection fetcher *)

(** The query parameters sent to Directus. *)
Record query : Type := mkQuery {
  limit : Z;
  fields : string;
  filter_condition : option value
}.

(** What [requests.get] followed by [response.json()["data"]] can do: raise
    (no connection, timeout, ...), or return a response with a status code
    whose body either decodes to a list of records or makes the decoding
    raise.  Every exception carries its [str(e)]. *)
Inductive http_result : Type :=
| TransportError (text : string)
| Response (status : Z) (reason : string) (body : string + list record).

Definition network : Type := string -> query -> http_result.

Definition join_fields (fs : list string) : string := String.concat "," fs.

Definition query_params (collection_name : string) : query :=
  if String.eqb collection_name "bookings" then
    {| limit := -1;
       fields := join_fields ["*"; "user.email"; "user.id"; "slot.start_time";
                              "slot.end_time"; "slot.description";
                              "slot.available_seats"; "slot.id"];
       filter_condition :=
         Some (VDict [("slot", VDict [("end_time", VDict [("_lte", VStr "$NOW")])])]) |}
  else if String.eqb collection_name "coupons" then
    {| limit := -1;
       fields := join_fields ["*"; "user.email"; "user.id"];
       filter_condition := None |}
  else if String.eqb collection_name "slots" then
    {| limit := -1;
       fields := join_fields ["*"; "bookings.user.email"; "bookings.id";
                              "bookings.booked_seats"];
       filter_condition := Some (VDict [("end_time", VDict [("_lte", VStr "$NOW")])]) |}
  else
    {| limit := -1; fields := "*"; filter_condition := None |}.

(** [response.raise_for_status()]: requests raises [HTTPError] for the
    client- and server-error codes, 400 to 599. *)
Definition raise_for_status (status : Z) : bool :=
  (400 <=? status) && (status <? 600).

Definition fetch_failed (collection_name text : string) : message :=
  st_error ("Failed to fetch " ++ collection_name ++ " data: " ++ text).

Definition fetch_from_directus (http : network) (collection_name : string)
  : DataFrame * list message :=
  match http collection_name (query_params collection_name) with
  | TransportError text =>
      (pd_DataFrame [], [fetch_failed collection_name text])
  | Response status reason body =>
      if raise_for_status status
      then (pd_DataFrame [], [fetch_failed collection_name reason])
      else match body with
           | inl text => (pd_DataFrame [], [fetch_failed collection_name text])
           | inr data => (pd_DataFrame data, [])
           end
  end.

(** ** Field normalizer: user e-mail *)

(** Lines 89-106 of [load_bookings_data] and lines 129-146 of
    [load_coupons_data] are the same statements on differently named tables;
    [resolve_user_email] is that block.  It returns the table and
    [user_email_found]; [None] is the IndexError of [iloc[0]]. *)
Definition extract_email (r : record) : value :=
  if is_dict (cell r "user") then dict_get "email" (cell r "user") else VNull.

Definition resolve_user_email (df : DataFrame) : option (DataFrame * bool) :=
  let found_step : option (DataFrame * bool) :=
    if has_column "user" df then
      match iloc0 "user" df with
      | None => None
      | Some first =>
          if is_dict first && has_key "email" first
          then Some (assign "user_email" extract_email df, true)
          else (* an id, or anything else: pass *)
               Some (df, false)
      end
    else if has_column "user.email" df then
      Some (assign "user_email" (fun r => cell r "user.email") df, true)
    else Some (df, false) in
  match found_step with
  | None => None
  | Some (df1, user_email_found) =>
      if negb user_email_found
      then Some (assign "user_email" (fun _ => VStr "unknown") df1, false)
      else Some (df1, true)
  end.

(** [df['user_email'] != 'frej.andreassen@gmail.com'] *)
Definition not_test_account (r : record) : bool :=
  match cell r "user_email" with
  | VStr s => negb (String.eqb s "frej.andreassen@gmail.com")
  | _ => true
  end.

(** [df['status'].isnull()] *)
Definition status_isnull (r : record) : bool := isnull (cell r "status").

Definition filter_status (df : DataFrame) : DataFrame :=
  if has_column "status" df then select status_isnull df else df.

(** How a [try] block that rebinds and mutates one table is left: at its
    end, or by an exception; either way with the table the variable is
    bound to at that moment (column assignments mutate it in place). *)
Inductive try_result : Type :=
| Completed (df : DataFrame)
| Raised (df : DataFrame).

(** [except Exception: pass], then [return df]. *)
Definition except_pass (t : try_result) : DataFrame :=
  match t with Completed df => df | Raised df => df end.

(** The body of the [try] in [load_bookings_data]; no statement after the
    e-mail resolution can raise. *)
Definition bookings_try (df : DataFrame) : try_result :=
  match resolve_user_email df with
  | None => Raised df
  | Some (df1, user_email_found) =>
      let df2 := if user_email_found then select not_test_account df1 else df1 in
      Completed (filter_status df2)
  end.

Definition normalize_bookings (df : DataFrame) : DataFrame :=
  if negb (empty df) then except_pass (bookings_try df) else df.

Definition load_bookings_data (http : network) : DataFrame * list message :=
  let '(df, log) := fetch_from_directus http "bookings" in
  (normalize_bookings df, log).

(** ** Field normalizer: coupons *)

(** [str.lower()] on the ASCII letters.  The staff fragments are made of
    ASCII letters, and no other character lower-cases to one of theirs. *)
Definition lower_ascii (c : ascii) : ascii :=
  let n := nat_of_ascii c in
  if (65 <=? n)%nat && (n <=? 90)%nat then ascii_of_nat (n + 32) else c.

Fixpoint lower (s : string) : string :=
  match s with
  | EmptyString => EmptyString
  | String c s' => String (lower_ascii c) (lower s')
  end.

(** [sub in s] *)
Fixpoint contains (sub s : string) : bool :=
  String.prefix sub s ||
  match s with
  | EmptyString => false
  | String _ s' => contains sub s'
  end.

Definition excluded_users : list string :=
  ["frej"; "andre"; "oscar"; "charl"; "jenny"].

(** One element of [df['user_email'].str.lower().str.contains('|'.join(
    excluded_users))]: a regular-expression search for an alternation of
    literal words.  A cell that is not a string gives NaN ([None] here). *)
Definition str_lower_contains (pats : list string) (x : value) : option bool :=
  match x with
  | VStr s => Some (existsb (fun p => contains p (lower s)) pats)
  | _ => None
  end.

Definition is_staff (r : record) : bool :=
  match str_lower_contains excluded_users (cell r "user_email") with
  | Some b => b
  | None => false
  end.

(** The e-mails form an object column, whose mask holds NaN where the cell
    is not a string.  [~mask] raises TypeError as soon as the mask holds a
    NaN, and [.str] raises AttributeError on a column without any string:
    the filter only goes through when every e-mail is a string. *)
Definition mask_invertible (df : DataFrame) : bool :=
  forallb (fun r => match str_lower_contains excluded_users (cell r "user_email") with
                    | Some _ => true
                    | None => false
                    end) (rows df).

Definition coupons_try (coupons_df : DataFrame) : try_result :=
  match resolve_user_email coupons_df with
  | None => Raised coupons_df
  | Some (df1, user_email_found) =>
      if user_email_found then
        if mask_invertible df1
        then Completed (select (fun r => negb (is_staff r)) df1)
        else Raised df1
      else Completed df1
  end.

Definition normalize_coupons (coupons_df : DataFrame) : DataFrame :=
  if negb (empty coupons_df) then except_pass (coupons_try coupons_df) else coupons_df.

Definition load_coupons_data (http : network) : DataFrame * list message :=
  let '(coupons_df, log) := fetch_from_directus http "coupons" in
  (normalize_coupons coupons_df, log).

Definition load_slots_data (http : network) : DataFrame * list message :=
  fetch_from_directus http "slots".

(** ** Timestamps *)

Definition ns_per_hour : Z := 3600 * 1000000000.
Definition ns_per_day : Z := 24 * ns_per_hour.

(** [pd.Timedelta(hours=1)] *)
Definition Timedelta_hours (h : Z) : Z := h * ns_per_hour.

(** Proleptic Gregorian date (year, month, day) of a day number counted from
    1970-01-01, as [Timestamp.year] and [Timestamp.month] read it. *)
Definition civil_from_days (z : Z) : Z * Z * Z :=
  let z := z + 719468 in
  let era := z / 146097 in
  let doe := z - era * 146097 in
  let yoe := (doe - doe / 1460 + doe / 36524 - doe / 146096) / 365 in
  let y := yoe + era * 400 in
  let doy := doe - (365 * yoe + yoe / 4 - yoe / 100) in
  let mp := (5 * doy + 2) / 153 in
  let d := doy - (153 * mp + 2) / 5 + 1 in
  let m := if mp <? 10 then mp + 3 else mp - 9 in
  (if m <=? 2 then y + 1 else y, m, d).

(** The inverse: the day number of a civil date. *)
Definition days_from_civil (y m d : Z) : Z :=
  let y := if m <=? 2 then y - 1 else y in
  let era := y / 400 in
  let yoe := y - era * 400 in
  let doy := (153 * (if 2 <? m then m - 3 else m + 9) + 2) / 5 + d - 1 in
  let doe := yoe * 365 + yoe / 4 - yoe / 100 + doy in
  era * 146097 + doe - 719468.

(** [.dt.year], [.dt.month], [.dt.hour] of a Timestamp. *)
Definition dt_year (t : Z) : Z := fst (fst (civil_from_days (t / ns_per_day))).
Definition dt_month (t : Z) : Z := snd (fst (civil_from_days (t / ns_per_day))).
Definition dt_hour (t : Z) : Z := (t mod ns_per_day) / ns_per_hour.

(** [pd.to_datetime('2024-01-01')] *)
Definition placeholder_date : Z := days_from_civil 2024 1 1 * ns_per_day.

(** A reader of the timestamps Directus emits, [YYYY-MM-DDTHH:MM:SS]: the
    instance of the pandas string parser used for concrete runs. *)
Definition digit_of (c : ascii) : option Z :=
  let n := nat_of_ascii c in
  if (48 <=? n)%nat && (n <=? 57)%nat then Some (Z.of_nat (n - 48)) else None.

Fixpoint digits_from (acc : Z) (n : nat) (s : string) : option (Z * string) :=
  match n with
  | O => Some (acc, s)
  | S n' =>
      match s with
      | EmptyString => None
      | String c s' =>
          match digit_of c with
          | Some d => digits_from (10 * acc + d) n' s'
          | None => None
          end
      end
  end.

Definition expect (c : ascii) (s : string) : option string :=
  match s with
  | String c' s' => if Ascii.eqb c c' then Some s' else None
  | EmptyString => None
  end.

Definition iso8601 (s : string) : option Z :=
  match digits_from 0 4 s with
  | Some (y, s) =>
    match expect "-" s with
    | Some s =>
      match digits_from 0 2 s with
      | Some (m, s) =>
        match expect "-" s with
        | Some s =>
          match digits_from 0 2 s with
          | Some (d, s) =>
            match expect "T" s with
            | Some s =>
              match digits_from 0 2 s with
              | Some (hh, s) =>
                match expect ":" s with
                | Some s =>
                  match digits_from 0 2 s with
                  | Some (mm, s) =>
                    match expect ":" s with
                    | Some s =>
                      match digits_from 0 2 s with
                      | Some (ss, EmptyString) =>
                          Some (days_from_civil y m d * ns_per_day
                                + (hh * 3600 + mm * 60 + ss) * 1000000000)
                      | _ => None
                      end
                    | None => None
                    end
                  | None => None
                  end
                | None => None
                end
              | None => None
              end
            | None => None
            end
          | None => None
          end
        | None => None
        end
      | None => None
      end
    | None => None
    end
  | None => None
  end.

(** Raising computations inside a [try]: sequencing. *)
Definition bind {A B : Type} (x : option A) (f : A -> option B) : option B :=
  match x with Some a => f a | None => None end.

Notation "x <- e ;; k" := (bind e (fun x => k))
  (at level 61, e at next level, right associativity).

Fixpoint mapM {A B : Type} (f : A -> option B) (l : list A) : option (list B) :=
  match l with
  | [] => Some []
  | a :: l' => b <- f a ;; bs <- mapM f l' ;; Some (b :: bs)
  end.

(** [df[c] = ...] where computing a cell may raise: nothing is assigned
    unless every cell is computed. *)
Definition assign_raising (c : string) (f : record -> option value) (df : DataFrame)
  : option DataFrame :=
  rs <- mapM (fun r => v <- f r ;; Some (set_field c v r)) (rows df) ;;
  Some {| columns := add_column c (columns df); rows := rs |}.

(** ** Aggregate tables *)

(** A row of [monthly_bookings]. *)
Module MonthlyBookings.
Record row : Type := mk {
  year : Z;
  month : Z;
  booked_seats : Z;
  month_order : Z
}.
End MonthlyBookings.

(** A row of [monthly_slots]. *)
Module MonthlySlots.
Record row : Type := mk {
  year : Z;
  month : Z;
  total_capacity : Z;
  used_seats : Z;
  unused_seats : Z;
  utilization_rate : Q;
  month_order : Z
}.
End MonthlySlots.

(** The single-valued metrics of the summary section. *)
Record Summary : Type := mkSummary {
  total_bookings : Z;
  total_booked_seats : Z;
  total_capacity : Z;
  total_used_seats : Z;
  total_utilization : Q;
  full_sauna_bookings : Z;
  seats_in_full_bookings : Z
}.

(** ** Logging computations that may raise *)

(** The messages shown so far, and the result unless an exception was
    raised. *)
Definition M (A : Type) : Type := list message * option A.

Definition ret {A : Type} (a : A) : M A := ([], Some a).
Definition tell (m : message) : M unit := ([m], Some tt).
Definition lift {A : Type} (x : option A) : M A := ([], x).

Definition bindM {A B : Type} (m : M A) (f : A -> M B) : M B :=
  match m with
  | (log, None) => (log, None)
  | (log, Some a) => let '(log', b) := f a in ((log ++ log')%list, b)
  end.

Notation "x <~ e ;; k" := (bindM e (fun x => k))
  (at level 61, e at next level, right associativity).

Section Parsers.

(** The pandas readers of date strings and of numeric strings, which are
    not part of this repository: [None] when pandas raises on the string. *)
Variable parse_datetime : string -> option Z.
Variable parse_number : string -> option Z.

(** [pd.to_datetime(x)] on one value: null gives NaT, an integer counts
    nanoseconds, a string goes to the parser; a boolean is a TypeError, and
    a value that is itself a JSON array or object is taken to raise too. *)
Definition to_datetime (x : value) : option value :=
  match x with
  | VNull => Some VNull
  | VTime t => Some (VTime t)
  | VNum n => Some (VTime n)
  | VStr s => t <- parse_datetime s ;; Some (VTime t)
  | VBool _ | VDict _ | VList _ => None
  end.

(** [pd.to_datetime(x, errors='coerce')] *)
Definition to_datetime_coerce (x : value) : value :=
  match to_datetime x with Some v => v | None => VNull end.

(** [pd.to_numeric(x, errors='coerce')] on one cell; a cell that is neither
    a number nor a string is taken to coerce to NaN as well. *)
Definition to_numeric_coerce (x : value) : value :=
  match x with
  | VNum n => VNum n
  | VBool b => VNum (Z.b2z b)
  | VStr s => match parse_number s with Some n => VNum n | None => VNull end
  | VNull | VTime _ | VDict _ | VList _ => VNull
  end.

(** [x + pd.Timedelta(hours=1)] on a Timestamp column. *)
Definition plus_one_hour (x : value) : option value :=
  match x with
  | VTime t => Some (VTime (t + Timedelta_hours 1))
  | VNull => Some VNull
  | _ => None
  end.

(** *** Slot fields of a booking (lines 196-269) *)

Definition len (df : DataFrame) : Z := Z.of_nat (List.length (rows df)).

(** [x.get(k) if isinstance(x, dict) else None] on the [slot] cell. *)
Definition slot_get (k : string) (r : record) : value :=
  if is_dict (cell r "slot") then dict_get k (cell r "slot") else VNull.

(** [x.get('description', '') if isinstance(x, dict) else ''] *)
Definition slot_description_of (r : record) : value :=
  dict_get_default "description" (VStr "") (cell r "slot").

(** [pd.to_datetime(x[k]) if isinstance(x, dict) and k in x else None] *)
Definition slot_parse (k : string) (r : record) : option value :=
  if is_dict (cell r "slot") && has_key k (cell r "slot")
  then to_datetime (dict_get k (cell r "slot"))
  else Some VNull.

(** Strategy 1: the embedded object, read when the first row's [slot] has
    both keys. *)
Definition slot_embedded (df : DataFrame) : DataFrame * bool :=
  if has_column "slot" df && (0 <? len df) then
    match iloc0 "slot" df with
    | Some slot_sample =>
        if is_dict slot_sample then
          if has_key "start_time" slot_sample && has_key "end_time" slot_sample
          then (assign "slot_description" slot_description_of
                 (assign "slot_end_time" (slot_get "end_time")
                   (assign "slot_start_time" (slot_get "start_time") df)), true)
          else (df, false)
        else (* an id: only [slot_fields] is computed, and never read *)
             (df, false)
    | None => (df, false)
    end
  else (df, false).

(** Strategy 2: the flat dotted columns. *)
Definition slot_dotted (st : DataFrame * bool) : DataFrame * bool :=
  let '(df, slot_fields_found) := st in
  if negb slot_fields_found && has_column "slot.start_time" df
     && has_column "slot.end_time" df
  then (assign "slot_description"
          (if has_column "slot.description" df
           then (fun r => cell r "slot.description")
           else (fun _ => VStr ""))
          (assign "slot_end_time" (fun r => cell r "slot.end_time")
            (assign "slot_start_time" (fun r => cell r "slot.start_time") df)),
        true)
  else st.

(** Strategy 3: the embedded object again, each time parsed on its own.
    The inner [try] swallows a parse error, leaving the columns assigned
    before it; [None] is the IndexError of [iloc[0]], which is raised
    outside that inner [try]. *)
Definition slot_strict (st : DataFrame * bool) : option (DataFrame * bool) :=
  let '(df, slot_fields_found) := st in
  if negb slot_fields_found && has_column "slot" df then
    first <- iloc0 "slot" df ;;
    if is_dict first then
      match assign_raising "slot_start_time" (slot_parse "start_time") df with
      | None => Some (df, false)
      | Some df1 =>
          match assign_raising "slot_end_time" (slot_parse "end_time") df1 with
          | None => Some (df1, false)
          | Some df2 => Some (assign "slot_description" slot_description_of df2, true)
          end
      end
    else Some st
  else Some st.

(** Strategy 4: bare top-level columns. *)
Definition slot_direct (st : DataFrame * bool) : DataFrame * bool :=
  let '(df, slot_fields_found) := st in
  if negb slot_fields_found
     && forallb (fun field => has_column field df) ["start_time"; "end_time"]
  then (assign "slot_description"
          (if has_column "description" df
           then (fun r => cell r "description")
           else (fun _ => VStr ""))
          (assign "slot_end_time" (fun r => cell r "end_time")
            (assign "slot_start_time" (fun r => cell r "start_time") df)),
        true)
  else st.

Definition slot_warning : message :=
  st_warning "Could not find slot fields in the data. Will attempt to continue with limited functionality.".

(** Terminal fallback: placeholder columns. *)
Definition slot_placeholder (df : DataFrame) : option DataFrame :=
  df2 <-
    (if has_column "date_created" df then
       df1 <- assign_raising "slot_start_time"
                (fun r => to_datetime (cell r "date_created")) df ;;
       assign_raising "slot_end_time"
         (fun r => t <- to_datetime (cell r "date_created") ;; plus_one_hour t) df1
     else
       Some (assign "slot_end_time"
               (fun _ => VTime (placeholder_date + Timedelta_hours 1))
               (assign "slot_start_time" (fun _ => VTime placeholder_date) df))) ;;
  Some (assign "slot_description" (fun _ => VStr "Unknown") df2).

(** The [except] of the slot block: placeholder data to avoid crashing. *)
Definition slot_error_placeholder (df : DataFrame) : DataFrame :=
  assign "slot_description" (fun _ => VStr "Error")
    (assign "slot_end_time" (fun _ => VTime (placeholder_date + Timedelta_hours 1))
      (assign "slot_start_time" (fun _ => VTime placeholder_date) df)).

(** The state after strategies 1 to 4; [None] when one of them raised. *)
Definition slot_strategies (df : DataFrame) : option (DataFrame * bool) :=
  st <- slot_strict (slot_dotted (slot_embedded df)) ;;
  Some (slot_direct st).

Definition resolve_slot_fields (df : DataFrame) : DataFrame * list message :=
  match slot_strategies df with
  | None => (slot_error_placeholder df, [])
  | Some (df1, slot_fields_found) =>
      if negb slot_fields_found then
        match slot_placeholder df1 with
        | Some df2 => (df2, [slot_warning])
        | None => (slot_error_placeholder df1, [slot_warning])
        end
      else (df1, [])
  end.

(** *** Feature deriver (lines 271-307) *)

(** Round half to even, as numpy and Python round: the integer nearest to
    [n / d] for [d > 0]. *)
Definition round_half_even (n d : Z) : Z :=
  let q := n / d in
  let r := n mod d in
  if 2 * r <? d then q
  else if d <? 2 * r then q + 1
  else if Z.even q then q else q + 1.

Definition np_round (x : Q) : Z := round_half_even (Qnum x) (Zpos (Qden x)).

(** [round(x, 2)] *)
Definition round2 (x : Q) : Q := np_round (x * 100) # 100.

(** A [.dt] field of a datetime cell; NaT gives NaN. *)
Definition dt_field (f : Z -> Z) (x : value) : value :=
  match x with VTime t => VNum (f t) | _ => VNull end.

(** [(end - start).dt.total_seconds() / 3600], then [.round()]. *)
Definition slot_length_hours (end_time start_time : Z) : Q :=
  (end_time - start_time) # Z.to_pos ns_per_hour.

Definition slot_length (r : record) : option Z :=
  match cell r "slot_end_time", cell r "slot_start_time" with
  | VTime e, VTime s => Some (np_round (slot_length_hours e s))
  | _, _ => None
  end.

(** [f"{int(x)}"] *)
Definition str_int (x : Z) : string := NilZero.string_of_int (Z.to_int x).

(** The lambda of line 307 on a rounded length; NaN ([None]) fails both
    comparisons. *)
Definition slot_length_category (x : option Z) : string :=
  match x with
  | Some x =>
      if x <=? 1 then str_int x ++ " timme"
      else if x <=? 2 then str_int x ++ " timmar"
      else "3+ timmar"
  | None => "3+ timmar"
  end.

Definition num_cell (x : option Z) : value :=
  match x with Some n => VNum n | None => VNull end.

Definition float_cell (x : value) : option Z :=
  match x with VNum n => Some n | _ => None end.

Definition payment_method (x : value) : value :=
  if negb (isnull x) then VStr "Periodkort/klippkort" else VStr "Swish".

Definition coupon_warning : message :=
  st_warning "Could not find coupon field in the data".

(** Lines 193-307 for the bookings table.  The ISO week and the weekday
    name, which nothing below reads, are left out. *)
Definition process_bookings (df : DataFrame) : M DataFrame :=
  df <~ lift (if has_column "date_created" df
              then assign_raising "date_created"
                     (fun r => to_datetime (cell r "date_created")) df
              else Some df) ;;
  df <~ (let '(df', log) := resolve_slot_fields df in (log, Some df')) ;;
  df <~ lift (assign_raising "slot_start_time"
                (fun r => to_datetime (cell r "slot_start_time")) df) ;;
  df <~ lift (assign_raising "slot_end_time"
                (fun r => to_datetime (cell r "slot_end_time")) df) ;;
  let df := assign "month" (fun r => dt_field dt_month (cell r "slot_start_time")) df in
  let df := assign "year" (fun r => dt_field dt_year (cell r "slot_start_time")) df in
  let df := assign "hour_of_day" (fun r => dt_field dt_hour (cell r "slot_start_time")) df in
  df <~ (if has_column "coupon" df
         then ret (assign "payment_method" (fun r => payment_method (cell r "coupon")) df)
         else _ <~ tell coupon_warning ;;
              ret (assign "payment_method" (fun _ => VStr "Unknown") df)) ;;
  let df := assign "slot_length" (fun r => num_cell (slot_length r)) df in
  ret (assign "slot_length_category"
         (fun r => VStr (slot_length_category (float_cell (cell r "slot_length")))) df).

(** Lines 310-313. *)
Definition process_coupons (coupons_df : DataFrame) : M DataFrame :=
  if has_column "start_date" coupons_df then
    df <~ lift (assign_raising "start_date"
                  (fun r => to_datetime (cell r "start_date")) coupons_df) ;;
    let df := assign "month" (fun r => dt_field dt_month (cell r "start_date")) df in
    ret (assign "year" (fun r => dt_field dt_year (cell r "start_date")) df)
  else ret coupons_df.

(** *** Slots table (lines 315-327) *)

Definition capacity_warning : message :=
  st_warning "Could not find available_seats in slots data".

(** [10 - x] on a cell of a numeric column; NaN stays NaN. *)
Definition ten_minus (x : value) : option value :=
  match x with
  | VNum a => Some (VNum (10 - a))
  | VBool b => Some (VNum (10 - Z.b2z b))
  | VNull => Some VNull
  | VStr _ | VTime _ | VDict _ | VList _ => None
  end.

Definition process_slots (slots_df : DataFrame) : M DataFrame :=
  slots_df <~
    (if has_column "start_time" slots_df then
       df <~ lift (assign_raising "start_time"
                     (fun r => to_datetime (cell r "start_time")) slots_df) ;;
       let df := assign "month" (fun r => dt_field dt_month (cell r "start_time")) df in
       ret (assign "year" (fun r => dt_field dt_year (cell r "start_time")) df)
     else ret slots_df) ;;
  (* Each slot has 10 seats capacity *)
  let slots_df := assign "total_capacity" (fun _ => VNum 10) slots_df in
  if has_column "available_seats" slots_df then
    lift (assign_raising "used_seats"
            (fun r => ten_minus (cell r "available_seats")) slots_df)
  else
    _ <~ tell capacity_warning ;;
    ret (assign "used_seats" (fun _ => VNum 0) slots_df).

(** *** Summary metrics (lines 329-366) *)

(** [Series.sum()]: missing values are skipped. *)
Fixpoint sum_cells (xs : list value) : option Z :=
  match xs with
  | [] => Some 0
  | x :: xs' =>
      s <- sum_cells xs' ;;
      match x with
      | VNum n => Some (n + s)
      | VBool b => Some (Z.b2z b + s)
      | VNull => Some s
      | VStr _ | VTime _ | VDict _ | VList _ => None
      end
  end.

(** [a / b]; [None] is the division fault. *)
Definition true_div (a b : Z) : option Q :=
  if b =? 0 then None else Some (inject_Z a / inject_Z b)%Q.

(** [df['slot_start_time'].max()]; [strftime] raises on NaT. *)
Fixpoint series_max (xs : list value) : option Z :=
  match xs with
  | [] => None
  | x :: xs' =>
      match x, series_max xs' with
      | VTime t, Some m => Some (Z.max t m)
      | VTime t, None => Some t
      | _, m => m
      end
  end.

Definition pad2 (n : Z) : string :=
  if n <? 10 then "0" ++ str_int n else str_int n.

(** [strftime('%Y-%m-%d')] *)
Definition strftime_ymd (t : Z) : string :=
  let '(y, m, d) := civil_from_days (t / ns_per_day) in
  str_int y ++ "-" ++ pad2 m ++ "-" ++ pad2 d.

Definition booked_seats_warning : message :=
  st_warning "Could not find booked_seats in bookings data".

Definition is_ten (x : value) : bool :=
  match x with VNum n => n =? 10 | _ => false end.

Definition summary (df slots_df : DataFrame) : M Summary :=
  latest <~ lift (series_max (column "slot_start_time" df)) ;;
  _ <~ tell (st_info ("Analys uppdaterad till: " ++ strftime_ymd latest)) ;;
  let total_bookings := len df in
  total_booked_seats <~
    (if has_column "booked_seats" df
     then lift (sum_cells (column "booked_seats" df))
     else _ <~ tell booked_seats_warning ;; ret total_bookings) ;;
  total_capacity <~ lift (sum_cells (column "total_capacity" slots_df)) ;;
  total_used_seats <~ lift (sum_cells (column "used_seats" slots_df)) ;;
  total_utilization <~
    (if 0 <? total_capacity
     then q <~ lift (true_div total_used_seats total_capacity) ;;
          ret (round2 (q * 100))
     else ret 0%Q) ;;
  let full_sauna_bookings :=
    if has_column "booked_seats" df
    then Z.of_nat (List.length (filter (fun r => is_ten (cell r "booked_seats")) (rows df)))
    else 0 in
  ret {| total_bookings := total_bookings;
         total_booked_seats := total_booked_seats;
         total_capacity := total_capacity;
         total_used_seats := total_used_seats;
         total_utilization := total_utilization;
         full_sauna_bookings := full_sauna_bookings;
         seats_in_full_bookings := full_sauna_bookings * 10 |}.

(** *** Grouping by (year, month) *)

Definition key : Type := Z * Z.

(** The group a row belongs to; [groupby] drops a row with a missing key. *)
Definition group_key (r : record) : option key :=
  match cell r "year", cell r "month" with
  | VNum y, VNum m => Some (y, m)
  | _, _ => None
  end.

Definition key_eqb (a b : key) : bool :=
  (fst a =? fst b) && (snd a =? snd b).

Definition key_ltb (a b : key) : bool :=
  (fst a <? fst b) || ((fst a =? fst b) && (snd a <? snd b)).

Fixpoint insert_key (k : key) (ks : list key) : list key :=
  match ks with
  | [] => [k]
  | k' :: ks' =>
      if key_eqb k k' then ks
      else if key_ltb k k' then k :: ks
      else k' :: insert_key k ks'
  end.

(** The group keys of [groupby(['year', 'month'])], sorted and distinct. *)
Definition group_keys (rs : list record) : list key :=
  fold_right (fun r ks => match group_key r with
                          | Some k => insert_key k ks
                          | None => ks
                          end) [] rs.

Definition in_group (k : key) (r : record) : bool :=
  match group_key r with
  | Some k' => key_eqb k k'
  | None => false
  end.

Definition group (k : key) (rs : list record) : list record :=
  filter (in_group k) rs.

(** The analysis start boundary: December 2024. *)
Definition from_december_2024 (year month : Z) : bool :=
  (2024 <? year) || ((year =? 2024) && (12 <=? month)).

(** [sort_values]: a stable insertion sort on an integer key. *)
Fixpoint insert_by {A : Type} (k : A -> Z) (x : A) (l : list A) : list A :=
  match l with
  | [] => [x]
  | y :: l' => if k x <=? k y then x :: l else y :: insert_by k x l'
  end.

Definition sort_values {A : Type} (k : A -> Z) (l : list A) : list A :=
  fold_right (insert_by k) [] l.

(** *** Bookings per month (lines 388-417) *)

(** The value of one group: the seat sum, or the size of the group. *)
Definition seats_or_size (df : DataFrame) (k : key) : option Z :=
  if has_column "booked_seats" df
  then sum_cells (map (fun r => cell r "booked_seats") (group k (rows df)))
  else Some (Z.of_nat (List.length (group k (rows df)))).

Definition monthly_bookings_grouped (df : DataFrame) : option (list MonthlyBookings.row) :=
  mapM (fun k =>
          v <- seats_or_size df k ;;
          Some {| MonthlyBookings.year := fst k;
                  MonthlyBookings.month := snd k;
                  MonthlyBookings.booked_seats := v;
                  MonthlyBookings.month_order := fst k * 12 + snd k |})
       (group_keys (rows df)).

Definition monthly_bookings (df : DataFrame) : option (list MonthlyBookings.row) :=
  grouped <- monthly_bookings_grouped df ;;
  Some (sort_values MonthlyBookings.month_order
          (filter (fun row => from_december_2024 (MonthlyBookings.year row)
                                                 (MonthlyBookings.month row))
                  grouped)).

(** *** Utilization (lines 519-591, 625-633) *)

Definition fillna (d : Z) (x : value) : value :=
  match x with VNull => VNum d | _ => x end.

(** [count_booked_seats] *)
Definition count_booked_seats (bookings : value) : Z :=
  match bookings with
  | VList items =>
      fold_left
        (fun total booking =>
           if is_dict booking && has_key "booked_seats" booking then
             match dict_get "booked_seats" booking with
             | VNum n => total + n
             | VBool b => total + Z.b2z b
             | _ => total
             end
           else total)
        items 0
  | _ => 0
  end.

(** Lines 521-553: the columns made numeric. *)
Definition prepare_slots (slots_df : DataFrame) : DataFrame :=
  let df :=
    if negb (has_column "year" slots_df) || negb (has_column "month" slots_df) then
      if has_column "start_time" slots_df then
        let df := assign "start_time"
                    (fun r => to_datetime_coerce (cell r "start_time")) slots_df in
        let df := assign "year" (fun r => dt_field dt_year (cell r "start_time")) df in
        assign "month" (fun r => dt_field dt_month (cell r "start_time")) df
      else
        assign "month" (fun _ => VNum 1) (assign "year" (fun _ => VNum 2024) slots_df)
    else slots_df in
  let df := assign "year" (fun r => fillna 2024 (to_numeric_coerce (cell r "year"))) df in
  let df := assign "month" (fun r => fillna 1 (to_numeric_coerce (cell r "month"))) df in
  let df := assign "total_capacity"
              (fun r => fillna 10 (to_numeric_coerce (cell r "total_capacity"))) df in
  let df := assign "used_seats"
              (fun r => fillna 0 (to_numeric_coerce (cell r "used_seats"))) df in
  if has_column "bookings" df && negb (has_column "used_seats" df)
  then assign "used_seats" (fun r => VNum (count_booked_seats (cell r "bookings"))) df
  else df.

(** The lambda of lines 565-569. *)
Definition utilization_rate (used_seats total_capacity : Z) : option Q :=
  if 0 <? total_capacity
  then q <- true_div used_seats total_capacity ;; Some (round2 (q * 100))
  else Some 0%Q.

Definition monthly_slots_grouped (df : DataFrame) : option (list MonthlySlots.row) :=
  mapM (fun k =>
          capacity <- sum_cells (map (fun r => cell r "total_capacity") (group k (rows df))) ;;
          used <- sum_cells (map (fun r => cell r "used_seats") (group k (rows df))) ;;
          rate <- utilization_rate used capacity ;;
          Some {| MonthlySlots.year := fst k;
                  MonthlySlots.month := snd k;
                  MonthlySlots.total_capacity := capacity;
                  MonthlySlots.used_seats := used;
                  MonthlySlots.unused_seats := capacity - used;
                  MonthlySlots.utilization_rate := rate;
                  MonthlySlots.month_order := fst k * 12 + snd k |})
       (group_keys (rows df)).

(** The table substituted when the utilization block raises. *)
Definition fallback_row (y m used unused : Z) : MonthlySlots.row :=
  {| MonthlySlots.year := y;
     MonthlySlots.month := m;
     MonthlySlots.total_capacity := 100;
     MonthlySlots.used_seats := used;
     MonthlySlots.unused_seats := unused;
     MonthlySlots.utilization_rate := inject_Z used;
     MonthlySlots.month_order := y * 12 + m |}.

Definition fallback_monthly_slots : list MonthlySlots.row :=
  [fallback_row 2024 12 50 50; fallback_row 2025 1 60 40].

Definition utilization_error : message :=
  st_error "Error in utilization calculations".

(** Lines 519-591: the prepared slots table and [monthly_slots]. *)
Definition monthly_slots (slots_df : DataFrame)
  : DataFrame * list MonthlySlots.row * list message :=
  let df := prepare_slots slots_df in
  let '(grouped, log) :=
    match monthly_slots_grouped df with
    | Some t => (t, [])
    | None => (fallback_monthly_slots, [utilization_error])
    end in
  (df,
   sort_values MonthlySlots.month_order
     (filter (fun row => from_december_2024 (MonthlySlots.year row)
                                            (MonthlySlots.month row))
             grouped),
   log).

(** Lines 628-633. *)
Definition overall_utilization_rate (slots_df : DataFrame) : option Q :=
  total_capacity <- sum_cells (column "total_capacity" slots_df) ;;
  total_used_seats <- sum_cells (column "used_seats" slots_df) ;;
  if 0 <? total_capacity
  then q <- true_div total_used_seats total_capacity ;; Some (q * 100)%Q
  else Some 0%Q.

(** *** The script *)

Record Dashboard : Type := mkDashboard {
  bookings : DataFrame;
  coupons : DataFrame;
  slots : DataFrame;
  metrics : Summary;
  bookings_per_month : list MonthlyBookings.row;
  slots_per_month : list MonthlySlots.row;
  overall_utilization : Q
}.

(** How a run ends: [st.stop()] before any processing, the outer
    [except], or the whole page. *)
Inductive outcome : Type :=
| Stopped (log : list message)
| Failed (log : list message)
| Rendered (log : list message) (page : Dashboard).

Definition token_missing : message :=
  st_error "Directus API token not found. Please set the DIRECTUS_API_TOKEN in .streamlit/secrets.toml file.".

Definition failed_to_load : message :=
  st_error "Failed to load data from Directus. Please check your API credentials and connection.".

(** The text of the exception, which follows, is not modelled. *)
Definition processing_error : message :=
  st_error "An error occurred while processing the data".

(** Lines 191-645: the outer [try], without the charts and without the
    weekly, hourly, daily and per-type tables, which feed only charts. *)
Definition process (df coupons_df slots_df : DataFrame) : M Dashboard :=
  df <~ process_bookings df ;;
  coupons_df <~ process_coupons coupons_df ;;
  slots_df <~ process_slots slots_df ;;
  metrics <~ summary df slots_df ;;
  per_month <~ lift (monthly_bookings df) ;;
  let '(slots_df, per_month_slots, log) := monthly_slots slots_df in
  overall <~ (log, overall_utilization_rate slots_df) ;;
  ret {| bookings := df;
         coupons := coupons_df;
         slots := slots_df;
         metrics := metrics;
         bookings_per_month := per_month;
         slots_per_month := per_month_slots;
         overall_utilization := overall |}.

Definition token_set (token : option string) : bool :=
  match token with
  | None => false
  | Some EmptyString => false
  | Some _ => true
  end.

Definition main (token : option string) (http : network) : outcome :=
  if negb (token_set token) then Stopped [token_missing]
  else
    let '(df, log1) := load_bookings_data http in
    let '(coupons_df, log2) := load_coupons_data http in
    let '(slots_df, log3) := load_slots_data http in
    let log := (log1 ++ log2 ++ log3)%list in
    if empty df || empty coupons_df || empty slots_df
    then Stopped (log ++ [failed_to_load])%list
    else
      match process df coupons_df slots_df with
      | (log', Some page) => Rendered (log ++ log')%list page
      | (log', None) => Failed (log ++ log' ++ [processing_error])%list
      end.

End Parsers.

(** ** Vocabulary of the properties, and sample tables *)

(** The fetches in which an exception is raised inside the [try]. *)
Definition fetch_raises (http : network) (collection_name : string) : Prop :=
  match http collection_name (query_params collection_name) with
  | TransportError _ => True
  | Response status _ body =>
      400 <= status < 600 \/ exists text, body = inl text
  end.

(** A server that answers the coupons and slots queries and refuses the
    bookings query. *)
Definition bookings_down : network :=
  fun collection_name _ =>
    if String.eqb collection_name "bookings"
    then Response 503 "503 Server Error: Service Unavailable" (inl "")
    else Response 200 "OK" (inr [[("id", VNum 1)]]).

(** A server answering 300 Multiple Choices with a well-formed body. *)
Definition multiple_choices : network :=
  fun _ _ => Response 300 "Multiple Choices" (inr [[("id", VNum 1)]]).

(** Whether the first observed [user] is an object with an [email] member. *)
Definition first_user_has_email (df : DataFrame) : bool :=
  match iloc0 "user" df with
  | Some first => is_dict first && has_key "email" first
  | None => false
  end.

Definition all_unknown (df : DataFrame) : list value :=
  map (fun _ => VStr "unknown") (rows df).

(** The resolution order in the words of the specification: the embedded
    object first, else the flat column whenever it exists, else the
    sentinel. *)
Definition spec_user_email (df : DataFrame) : list value :=
  if has_column "user" df && first_user_has_email df
  then map extract_email (rows df)
  else if has_column "user.email" df then column "user.email" df
  else all_unknown df.

(** A table whose [user] column holds bare ids next to a flat e-mail column. *)
Definition users_by_id : DataFrame :=
  pd_DataFrame [[("user", VNum 7); ("user.email", VStr "bastu@example.se")]].


Definition staff_and_member_coupons : DataFrame :=
  pd_DataFrame
    [[("user", VDict [("email", VStr "Andre@falkenbergskallbad.se")]);
      ("type", VStr "period")];
     [("user", VDict [("email", VStr "bastu@example.se")]); ("type", VStr "klipp")]].

(** Records of the operator's test account and of a staff member, fetched
    without the user relation expanded. *)
Definition unexpanded_users : DataFrame :=
  pd_DataFrame [[("id", VNum 1); ("user", VNum 3)];
                [("id", VNum 2); ("user", VNum 4)]].



Definition length_labels : list string := ["1 timme"; "2 timmar"; "3+ timmar"].

(** The position of a label among the three buckets, 0 for any other text. *)
Definition bucket_rank (label : string) : nat :=
  if String.eqb label "1 timme" then 1
  else if String.eqb label "2 timmar" then 2
  else if String.eqb label "3+ timmar" then 3
  else 0.

(** A booking of a twenty-minute slot. *)
Definition short_slot_booking : DataFrame :=
  pd_DataFrame
    [[("booked_seats", VNum 2);
      ("slot", VDict [("start_time", VStr "2025-01-10T10:00:00");
                      ("end_time", VStr "2025-01-10T10:20:00")]);
      ("coupon", VNull)]].

(** A cell of a datetime column: a Timestamp or NaT. *)
Definition is_datetime (x : value) : Prop :=
  match x with VTime _ | VNull => True | _ => False end.

(** The end of the placeholder slot, from its start. *)
Definition one_hour_later (x : value) : value :=
  match x with VTime t => VTime (t + Timedelta_hours 1) | _ => VNull end.

(** What the terminal fallback assigns. *)
Definition placeholder_table (df : DataFrame) : DataFrame :=
  assign "slot_description" (fun _ => VStr "Unknown")
    (if has_column "date_created" df then
       assign "slot_end_time" (fun r => one_hour_later (cell r "date_created"))
         (assign "slot_start_time" (fun r => cell r "date_created") df)
     else
       assign "slot_end_time" (fun _ => VTime (placeholder_date + Timedelta_hours 1))
         (assign "slot_start_time" (fun _ => VTime placeholder_date) df)).

(** Bookings fetched without any slot information, as they are once line
    194 has read [date_created]. *)
Definition bookings_without_slot : DataFrame :=
  pd_DataFrame
    [[("booked_seats", VNum 2); ("date_created", VTime 1736503200000000000)];
     [("booked_seats", VNum 1); ("date_created", VNull)]].

(** Two bookings, the second of a slot that was deleted since; and one
    booking whose slot ends before it starts. *)
Definition booking_of_deleted_slot : DataFrame :=
  pd_DataFrame
    [[("booked_seats", VNum 2); ("coupon", VNull);
      ("slot", VDict [("start_time", VStr "2025-01-10T10:00:00");
                      ("end_time", VStr "2025-01-10T12:00:00")])];
     [("booked_seats", VNum 1); ("coupon", VNull); ("slot", VNull)]].

Definition booking_of_reversed_slot : DataFrame :=
  pd_DataFrame
    [[("booked_seats", VNum 2); ("coupon", VNull);
      ("slot", VDict [("start_time", VStr "2025-01-10T12:00:00");
                      ("end_time", VStr "2025-01-10T10:00:00")])]].

Definition key_lt (a b : key) : Prop := key_ltb a b = true.

(** The order of [sort_values]. *)
Definition by_key {A : Type} (k : A -> Z) (x y : A) : Prop := k x <= k y.

Definition booking_key (row : MonthlyBookings.row) : key :=
  (MonthlyBookings.year row, MonthlyBookings.month row).

Definition slots_key (row : MonthlySlots.row) : key :=
  (MonthlySlots.year row, MonthlySlots.month row).

(** November 2024 or earlier. *)
Definition before_december_2024 (k : key) : Prop :=
  fst k < 2024 \/ (fst k = 2024 /\ snd k <= 11).

(** A cell of a numeric column: a number, a boolean or NaN. *)
Definition is_numeric (x : value) : Prop :=
  match x with VNum _ | VBool _ | VNull => True | _ => False end.

(** What [groupby(...).sum()] yields for the group [k]. *)
Definition booking_row_of (df : DataFrame) (k : key) (row : MonthlyBookings.row) : Prop :=
  booking_key row = k
  /\ seats_or_size df k = Some (MonthlyBookings.booked_seats row)
  /\ MonthlyBookings.month_order row = fst k * 12 + snd k.

Definition zsum (l : list Z) : Z := fold_right Z.add 0 l.


(** What [groupby(...).agg(...)] and lines 561-569 yield for the group [k]. *)
Definition slots_row_of (df : DataFrame) (k : key) (row : MonthlySlots.row) : Prop :=
  slots_key row = k
  /\ sum_cells (map (fun r => cell r "total_capacity") (group k (rows df)))
     = Some (MonthlySlots.total_capacity row)
  /\ sum_cells (map (fun r => cell r "used_seats") (group k (rows df)))
     = Some (MonthlySlots.used_seats row)
  /\ MonthlySlots.unused_seats row
     = MonthlySlots.total_capacity row - MonthlySlots.used_seats row
  /\ utilization_rate (MonthlySlots.used_seats row) (MonthlySlots.total_capacity row)
     = Some (MonthlySlots.utilization_rate row)
  /\ MonthlySlots.month_order row = fst k * 12 + snd k.


(** Three slots of January 2025: one full, one half booked, one unused; and
    a month whose only slot is unused. *)
Definition january_slots : DataFrame :=
  pd_DataFrame
    [[("start_time", VStr "2025-01-10T10:00:00"); ("available_seats", VNum 0)];
     [("start_time", VStr "2025-01-11T10:00:00"); ("available_seats", VNum 5)];
     [("start_time", VStr "2025-01-12T10:00:00"); ("available_seats", VNum 10)]].


(** A slot fetched with its bookings embedded and no [available_seats]. *)
Definition slot_with_embedded_bookings : DataFrame :=
  pd_DataFrame
    [[("start_time", VStr "2025-01-10T10:00:00");
      ("bookings", VList [VDict [("id", VNum 1); ("booked_seats", VNum 3)];
                          VDict [("id", VNum 2); ("booked_seats", VNum 2)]])]].

(** Enriched bookings of November and December 2024 and January 2025. *)
Definition bookings_around_the_boundary : DataFrame :=
  pd_DataFrame
    [[("year", VNum 2025); ("month", VNum 1); ("booked_seats", VNum 2)];
     [("year", VNum 2024); ("month", VNum 11); ("booked_seats", VNum 3)];
     [("year", VNum 2024); ("month", VNum 12); ("booked_seats", VNum 4)];
     [("year", VNum 2025); ("month", VNum 1); ("booked_seats", VNum 10)]].

Section Dates.

Variable parse_datetime : string -> option Z.

(** Lines 316-319: the slots table with its dates read. *)
Definition slots_with_dates (slots_df : DataFrame) : option DataFrame :=
  if has_column "start_time" slots_df then
    df <- assign_raising "start_time"
            (fun r => to_datetime parse_datetime (cell r "start_time")) slots_df ;;
    Some (assign "year" (fun r => dt_field dt_year (cell r "start_time"))
            (assign "month" (fun r => dt_field dt_month (cell r "start_time")) df))
  else Some slots_df.

(** The table of line 521-529: with a year and a month in every row. *)
Definition dated_slots (slots_df : DataFrame) : DataFrame :=
  if negb (has_column "year" slots_df) || negb (has_column "month" slots_df) then
    if has_column "start_time" slots_df then
      assign "month" (fun r => dt_field dt_month (cell r "start_time"))
        (assign "year" (fun r => dt_field dt_year (cell r "start_time"))
          (assign "start_time"
             (fun r => to_datetime_coerce parse_datetime (cell r "start_time"))
             slots_df))
    else
      assign "month" (fun _ => VNum 1) (assign "year" (fun _ => VNum 2024) slots_df)
  else slots_df.

End Dates.

(** ** Further sample tables and measures *)

(** Two bookings, one of them cancelled. *)
Definition bookings_with_status : DataFrame :=
  pd_DataFrame
    [[("user", VDict [("email", VStr "bastu@example.se")]); ("status", VNull)];
     [("user", VDict [("email", VStr "kallbad@example.se")]);
      ("status", VStr "cancelled")]].

(** Two bookings of the operator, under two spellings of the address. *)
Definition bookings_of_operator : DataFrame :=
  pd_DataFrame
    [[("user", VDict [("email", VStr "frej.andreassen@gmail.com")])];
     [("user", VDict [("email", VStr "Frej.Andreassen@gmail.com")])]].

(** The three columns the slot block of lines 196-269 writes. *)
Definition slot_column (c : string) : bool :=
  String.eqb c "slot_start_time" || String.eqb c "slot_end_time"
  || String.eqb c "slot_description".

(** A row after the slot block, beside the row before it. *)
Definition keeps_other_cells (r r' : record) : Prop :=
  forall c, slot_column c = false -> cell r' c = cell r c.

(** A table after the slot block, beside the table before it: the same
    rows, in the same order, and the same columns, the three slot columns
    apart. *)
Definition slot_update (df df' : DataFrame) : Prop :=
  Forall2 keeps_other_cells (rows df) (rows df')
  /\ forall c, slot_column c = false -> has_column c df' = has_column c df.

Definition has_slot_columns (df : DataFrame) : bool :=
  has_column "slot_start_time" df && has_column "slot_end_time" df
  && has_column "slot_description" df.

(** Bookings with the slot expanded and flat slot columns beside it. *)
Definition bookings_with_both_shapes : DataFrame :=
  pd_DataFrame
    [[("id", VNum 1);
      ("slot", VDict [("start_time", VStr "2025-01-10T10:00:00");
                      ("end_time", VStr "2025-01-10T12:00:00")]);
      ("slot.start_time", VStr "2025-02-01T08:00:00");
      ("slot.end_time", VStr "2025-02-01T09:00:00")]].





(** Lines 358-361. *)
Definition full_sauna_count (df : DataFrame) : Z :=
  if has_column "booked_seats" df
  then Z.of_nat (List.length (filter (fun r => is_ten (cell r "booked_seats")) (rows df)))
  else 0.




(** What one embedded booking adds in [count_booked_seats]. *)
Definition counted_seats (booking : value) : Z :=
  if is_dict booking && has_key "booked_seats" booking then
    match dict_get "booked_seats" booking with
    | VNum n => n
    | VBool b => Z.b2z b
    | _ => 0
    end
  else 0.


(** The payment labels of lines 300-303. *)
Definition payment_labels : list value :=
  [VStr "Periodkort/klippkort"; VStr "Swish"; VStr "Unknown"].

(** The chronological order of two rows of [monthly_bookings]. *)
Definition earlier_month (x y : MonthlyBookings.row) : Prop :=
  key_lt (booking_key x) (booking_key y).

(** Raw bookings: one with its slot, one whose slot is gone. *)
Definition raw_bookings : DataFrame :=
  pd_DataFrame
    [[("booked_seats", VNum 2); ("coupon", VNum 5);
      ("slot", VDict [("start_time", VStr "2025-01-10T10:00:00");
                      ("end_time", VStr "2025-01-10T12:00:00")])];
     [("booked_seats", VNum 1); ("coupon", VNull); ("slot", VNull)]].

(** A month cell of an enriched table: missing, or a calendar month. *)
Definition calendar_month (x : value) : Prop :=
  x = VNull \/ exists m, x = VNum m /\ 1 <= m <= 12.

(** An hour cell of an enriched table: missing, or an hour of the day. *)
Definition hour_of_the_day (x : value) : Prop :=
  x = VNull \/ exists h, x = VNum h /\ 0 <= h <= 23.

(** Slots of which one has no seat information. *)
Definition slots_with_a_gap : DataFrame :=
  pd_DataFrame
    [[("start_time", VStr "2025-01-10T10:00:00"); ("available_seats", VNum 4)];
     [("start_time", VNull); ("available_seats", VNull)]].

(** [st.error] messages, as opposed to warnings and notes. *)
Definition is_error (m : message) : bool :=
  match m with st_error _ => true | _ => false end.

(** A server with one booking, one coupon and one slot. *)
Definition small_server : network :=
  fun collection_name _ =>
    if String.eqb collection_name "bookings" then
      Response 200 "OK"
        (inr [[("booked_seats", VNum 10); ("coupon", VNull); ("status", VNull);
               ("slot", VDict [("start_time", VStr "2025-01-10T10:00:00");
                               ("end_time", VStr "2025-01-10T12:00:00")])]])
    else if String.eqb collection_name "coupons" then
      Response 200 "OK" (inr [[("type", VStr "period"); ("user", VNum 3)]])
    else
      Response 200 "OK"
        (inr [[("start_time", VStr "2025-01-10T10:00:00");
               ("available_seats", VNum 0)]]).

(* ===================================================================== *)
(** * Part II. Properties                                                 *)
(* ===================================================================== *)

(** ** Cells and columns after an assignment *)

Lemma lookup_set_field (c c' : string) (v : value) (r : record) :
  lookup c' (set_field c v r) = if String.eqb c' c then Some v else lookup c' r.
Proof.
  induction r as [|[k x] r IH]; simpl.
  - destruct (String.eqb c' c); reflexivity.
  - destruct (String.eqb c k) eqn:Eck; simpl.
    + apply String.eqb_eq in Eck. subst k.
      destruct (String.eqb c' c); reflexivity.
    + rewrite IH. destruct (String.eqb c' k) eqn:Ek; [|reflexivity].
      apply String.eqb_eq in Ek. subst k.
      destruct (String.eqb c' c) eqn:Ecc; [|reflexivity].
      apply String.eqb_eq in Ecc. subst c'.
      rewrite String.eqb_refl in Eck. discriminate.
Qed.

Lemma cell_set_field (c c' : string) (v : value) (r : record) :
  cell (set_field c v r) c' = if String.eqb c' c then v else cell r c'.
Proof.
  unfold cell. rewrite lookup_set_field.
  destruct (String.eqb c' c); reflexivity.
Qed.

Lemma rows_assign (c : string) (f : record -> value) (df : DataFrame) :
  rows (assign c f df) = map (fun r => set_field c (f r) r) (rows df).
Proof. reflexivity. Qed.

Lemma column_assign (c : string) (f : record -> value) (df : DataFrame) :
  column c (assign c f df) = map f (rows df).
Proof.
  unfold column. rewrite rows_assign, map_map.
  apply map_ext. intro r. rewrite cell_set_field, String.eqb_refl. reflexivity.
Qed.

Lemma has_column_add (c c' : string) (cols : list string) :
  existsb (String.eqb c') (add_column c cols)
  = String.eqb c' c || existsb (String.eqb c') cols.
Proof.
  unfold add_column. destruct (existsb (String.eqb c) cols) eqn:E.
  - destruct (String.eqb c' c) eqn:Ec; [|reflexivity].
    apply String.eqb_eq in Ec. subst c'. rewrite E. reflexivity.
  - rewrite existsb_app. simpl. rewrite orb_false_r. apply orb_comm.
Qed.

Lemma has_column_assign (c c' : string) (f : record -> value) (df : DataFrame) :
  has_column c' (assign c f df) = String.eqb c' c || has_column c' df.
Proof. apply has_column_add. Qed.

Lemma empty_false_rows (df : DataFrame) : empty df = false -> rows df <> [].
Proof. unfold empty. destruct (rows df); [discriminate | discriminate]. Qed.

Lemma empty_pd_DataFrame_nil : empty (pd_DataFrame []) = true.
Proof. reflexivity. Qed.

(** ** Fetching *)

Lemma fetch_raises_empty (http : network) (collection_name : string) :
  fetch_raises http collection_name ->
  exists text,
    fetch_from_directus http collection_name
    = (pd_DataFrame [], [fetch_failed collection_name text]).
Proof.
  unfold fetch_raises, fetch_from_directus.
  destruct (http collection_name (query_params collection_name))
    as [text | status reason body].
  - intros _. exists text. reflexivity.
  - unfold raise_for_status.
    destruct (400 <=? status) eqn:Elo; destruct (status <? 600) eqn:Ehi; simpl;
      try (intros [Hst | [text ->]];
           [apply Z.leb_gt in Elo || apply Z.ltb_ge in Ehi; lia
           | exists text; reflexivity]).
    intros _. exists reason. reflexivity.
Qed.

Lemma normalize_bookings_empty (df : DataFrame) :
  empty df = true -> normalize_bookings df = df.
Proof. unfold normalize_bookings. intros ->. reflexivity. Qed.

Lemma normalize_coupons_empty (df : DataFrame) :
  empty df = true -> normalize_coupons df = df.
Proof. unfold normalize_coupons. intros ->. reflexivity. Qed.

Section Script.

Variable parse_datetime : string -> option Z.
Variable parse_number : string -> option Z.

Lemma main_stops_on_empty (token : option string) (http : network) :
  token_set token = true ->
  empty (fst (fetch_from_directus http "bookings")) = true
  \/ empty (fst (fetch_from_directus http "coupons")) = true
  \/ empty (fst (fetch_from_directus http "slots")) = true ->
  exists log,
    main parse_datetime parse_number token http
    = Stopped (log ++ [failed_to_load])%list.
Proof.
  intros Htok Hempty. unfold main. rewrite Htok. simpl negb. cbv iota.
  unfold load_bookings_data, load_coupons_data, load_slots_data.
  destruct (fetch_from_directus http "bookings") as [df log1] eqn:Eb.
  destruct (fetch_from_directus http "coupons") as [cdf log2] eqn:Ec.
  destruct (fetch_from_directus http "slots") as [sdf log3] eqn:Es.
  simpl in Hempty.
  assert (He : empty (normalize_bookings df) || empty (normalize_coupons cdf)
               || empty sdf = true).
  { destruct Hempty as [H | [H | H]].
    - rewrite (normalize_bookings_empty _ H), H. reflexivity.
    - rewrite (normalize_coupons_empty _ H), H. apply orb_true_iff. left.
      apply orb_true_r.
    - rewrite H. apply orb_true_r. }
  rewrite He. eexists. reflexivity.
Qed.

(** C7 (as amended).  A fetch in which [requests.get] raises, or the
    status is a 4xx or 5xx code (the codes [raise_for_status] rejects), or
    the body does not decode to a list of records, shows a "Failed to
    fetch" error and returns the empty table; and when one of the three
    fetched tables is empty the run stops on the "Failed to load" error:
    its outcome is [Stopped], which carries no metric at all. *)
Theorem fetch_failure_is_caught_and_halts
    (token : option string) (http : network) (collection_name : string) :
  (fetch_raises http collection_name ->
   exists text,
     fetch_from_directus http collection_name
     = (pd_DataFrame [], [fetch_failed collection_name text])
     /\ empty (fst (fetch_from_directus http collection_name)) = true)
  /\
  (token_set token = true ->
   empty (fst (fetch_from_directus http "bookings")) = true
   \/ empty (fst (fetch_from_directus http "coupons")) = true
   \/ empty (fst (fetch_from_directus http "slots")) = true ->
   exists log,
     main parse_datetime parse_number token http
     = Stopped (log ++ [failed_to_load])%list).
Proof.
  split.
  - intro H. destruct (fetch_raises_empty _ _ H) as [text E].
    exists text. rewrite E. split; reflexivity.
  - apply main_stops_on_empty.
Qed.

End Script.

Lemma fetch_failure_is_caught_and_halts_witness :
  (exists text,
     fetch_from_directus bookings_down "bookings"
     = (pd_DataFrame [], [fetch_failed "bookings" text])
     /\ empty (fst (fetch_from_directus bookings_down "bookings")) = true)
  /\
  (exists log,
     main iso8601 (fun _ => None) (Some "token") bookings_down
     = Stopped (log ++ [failed_to_load])%list).
Proof.
  destruct (fetch_failure_is_caught_and_halts iso8601 (fun _ => None)
              (Some "token") bookings_down "bookings") as [Hfetch Hmain].
  split.
  - apply Hfetch. simpl. left. lia.
  - apply Hmain; [reflexivity | left; reflexivity].
Defined.

(** C7, as stated, fails: a response outside 2xx that [raise_for_status]
    lets through is not caught; nothing is shown and its records are
    returned. *)
Lemma non_2xx_response_can_pass :
  ~ (200 <= 300 < 300)
  /\ fetch_from_directus multiple_choices "bookings"
     = (pd_DataFrame [[("id", VNum 1)]], [])
  /\ empty (fst (fetch_from_directus multiple_choices "bookings")) = false.
Proof. split; [lia | split; reflexivity]. Qed.

(** ** User e-mail resolution *)

Lemma resolve_user_email_cases (df : DataFrame) :
  rows df <> [] ->
  exists df',
    resolve_user_email df
    = Some (df', if has_column "user" df then first_user_has_email df
                 else has_column "user.email" df)
    /\ column "user_email" df'
       = (if has_column "user" df
          then if first_user_has_email df
               then map extract_email (rows df)
               else all_unknown df
          else if has_column "user.email" df
               then column "user.email" df
               else all_unknown df).
Proof.
  intro Hrows. unfold resolve_user_email, first_user_has_email, iloc0.
  destruct (rows df) as [|r0 rs] eqn:Er; [contradiction|].
  destruct (has_column "user" df).
  - destruct (is_dict (cell r0 "user") && has_key "email" (cell r0 "user")); simpl.
    + eexists. split; [reflexivity|]. rewrite column_assign, Er. reflexivity.
    + eexists. split; [reflexivity|]. rewrite column_assign.
      unfold all_unknown. rewrite Er. reflexivity.
  - destruct (has_column "user.email" df); simpl.
    + eexists. split; [reflexivity|]. rewrite column_assign.
      unfold column. rewrite Er. reflexivity.
    + eexists. split; [reflexivity|]. rewrite column_assign.
      unfold all_unknown. rewrite Er. reflexivity.
Qed.

Lemma filter_incl {A : Type} (f : A -> bool) (l : list A) : incl (filter f l) l.
Proof. intros x Hx. apply filter_In in Hx. tauto. Qed.

Lemma filter_status_incl (df : DataFrame) : incl (rows (filter_status df)) (rows df).
Proof.
  unfold filter_status. destruct (has_column "status" df).
  - apply filter_incl.
  - apply incl_refl.
Qed.

Lemma normalize_bookings_incl (df df' : DataFrame) (found : bool) :
  empty df = false ->
  resolve_user_email df = Some (df', found) ->
  incl (rows (normalize_bookings df)) (rows df').
Proof.
  intros He Hr. unfold normalize_bookings, bookings_try. rewrite He, Hr. simpl.
  eapply incl_tran; [apply filter_status_incl|].
  destruct found; [apply filter_incl | apply incl_refl].
Qed.

Lemma normalize_coupons_incl (df df' : DataFrame) (found : bool) :
  empty df = false ->
  resolve_user_email df = Some (df', found) ->
  incl (rows (normalize_coupons df)) (rows df').
Proof.
  intros He Hr. unfold normalize_coupons, coupons_try. rewrite He, Hr. simpl.
  destruct found; [|apply incl_refl].
  destruct (mask_invertible df'); simpl; [apply filter_incl | apply incl_refl].
Qed.

(** C4 (as amended).  On a non-empty table, in bookings and in coupons alike,
    the resolution never raises and follows this order: when a [user] column
    exists, the e-mails are read element-wise from the embedded objects
    (null where the value is not an object) if the first value is an object
    with an [email] member, and are the sentinel "unknown" otherwise, whether
    or not a flat [user.email] column exists; only when there is no [user]
    column is the flat [user.email] column used; without either, the
    sentinel.  The rows of both normalized tables carry these e-mails. *)
Theorem user_email_resolution_order (df : DataFrame) :
  empty df = false ->
  exists df' found,
    resolve_user_email df = Some (df', found)
    /\ (has_column "user" df = true -> first_user_has_email df = true ->
        found = true /\ column "user_email" df' = map extract_email (rows df))
    /\ (has_column "user" df = true -> first_user_has_email df = false ->
        found = false /\ column "user_email" df' = all_unknown df)
    /\ (has_column "user" df = false -> has_column "user.email" df = true ->
        found = true /\ column "user_email" df' = column "user.email" df)
    /\ (has_column "user" df = false -> has_column "user.email" df = false ->
        found = false /\ column "user_email" df' = all_unknown df)
    /\ incl (rows (normalize_bookings df)) (rows df')
    /\ incl (rows (normalize_coupons df)) (rows df').
Proof.
  intro He.
  destruct (resolve_user_email_cases df (empty_false_rows df He)) as [df' [Hr Hc]].
  exists df'. eexists. split; [exact Hr|].
  split; [|split; [|split; [|split; [|split]]]].
  - intros Hu Hf. rewrite Hu, Hf in *. split; [reflexivity | exact Hc].
  - intros Hu Hf. rewrite Hu, Hf in *. split; [reflexivity | exact Hc].
  - intros Hu Hf. rewrite Hu, Hf in *. split; [reflexivity | exact Hc].
  - intros Hu Hf. rewrite Hu, Hf in *. split; [reflexivity | exact Hc].
  - eapply normalize_bookings_incl; eassumption.
  - eapply normalize_coupons_incl; eassumption.
Qed.

Lemma user_email_resolution_order_witness :
  exists df' found,
    resolve_user_email users_by_id = Some (df', found)
    /\ found = false
    /\ column "user_email" df' = [VStr "unknown"].
Proof.
  destruct (user_email_resolution_order users_by_id eq_refl)
    as [df' [found [Hr [_ [H2 _]]]]].
  exists df', found. split; [exact Hr|].
  destruct (H2 eq_refl eq_refl) as [Hf Hc]. split; [exact Hf | exact Hc].
Defined.

(** C4, as stated, fails: with a [user] column of ids the flat [user.email]
    column is not consulted, and every e-mail is the sentinel. *)
Lemma flat_email_ignored_beside_user_ids :
  has_column "user" users_by_id = true
  /\ first_user_has_email users_by_id = false
  /\ has_column "user.email" users_by_id = true
  /\ spec_user_email users_by_id = [VStr "bastu@example.se"]
  /\ option_map (fun p => column "user_email" (fst p)) (resolve_user_email users_by_id)
     = Some [VStr "unknown"]
  /\ column "user_email" (normalize_bookings users_by_id) = [VStr "unknown"]
  /\ column "user_email" (normalize_coupons users_by_id) = [VStr "unknown"].
Proof. repeat split; reflexivity. Qed.

(** ** Exclusion filters *)

Lemma in_column (c : string) (df : DataFrame) (r : record) :
  In r (rows df) -> In (cell r c) (column c df).
Proof. intro H. unfold column. apply (in_map (fun r => cell r c)). exact H. Qed.

Lemma unresolved_is_unknown (df df' : DataFrame) :
  resolve_user_email df = Some (df', false) ->
  df' = assign "user_email" (fun _ => VStr "unknown") df.
Proof.
  unfold resolve_user_email.
  destruct (has_column "user" df).
  - destruct (iloc0 "user" df) as [first|]; [|discriminate].
    destruct (is_dict first && has_key "email" first); simpl; congruence.
  - destruct (has_column "user.email" df); simpl; congruence.
Qed.

Lemma unknown_cells (df : DataFrame) (r : record) :
  In r (rows (assign "user_email" (fun _ => VStr "unknown") df)) ->
  cell r "user_email" = VStr "unknown".
Proof.
  rewrite rows_assign. intro H. apply in_map_iff in H. destruct H as [r0 [<- _]].
  rewrite cell_set_field. reflexivity.
Qed.







Lemma map_length_eq {A B : Type} (f : A -> B) (l : list A) :
  List.length (map f l) = List.length l.
Proof. induction l; simpl; congruence. Qed.

(** C9.  In the degraded mode, where no e-mail was resolved and every
    [user_email] is "unknown", neither e-mail filter runs: the coupons table
    is the input with the sentinel column and nothing removed, and the
    bookings table is that same table with only the status filter applied,
    so every record reaches the aggregates unless its status excludes it. *)
Theorem email_filters_skipped_when_unresolved (df df' : DataFrame) :
  empty df = false ->
  resolve_user_email df = Some (df', false) ->
  df' = assign "user_email" (fun _ => VStr "unknown") df
  /\ (forall r, In r (rows df') -> cell r "user_email" = VStr "unknown")
  /\ normalize_coupons df = df'
  /\ normalize_bookings df = filter_status df'
  /\ List.length (rows (normalize_coupons df)) = List.length (rows df)
  /\ (has_column "status" df = false ->
      List.length (rows (normalize_bookings df)) = List.length (rows df)).
Proof.
  intros He Hr. pose proof (unresolved_is_unknown _ _ Hr) as Hdf.
  assert (Hc : normalize_coupons df = df').
  { unfold normalize_coupons, coupons_try. rewrite He, Hr. reflexivity. }
  assert (Hb : normalize_bookings df = filter_status df').
  { unfold normalize_bookings, bookings_try. rewrite He, Hr. reflexivity. }
  split; [exact Hdf|]. split.
  { intros r Hin. rewrite Hdf in Hin. apply (unknown_cells df r Hin). }
  split; [exact Hc|]. split; [exact Hb|]. split.
  - rewrite Hc, Hdf, rows_assign. apply map_length_eq.
  - intro Hs. rewrite Hb. unfold filter_status.
    rewrite Hdf, has_column_assign, Hs. simpl.
    apply map_length_eq.
Qed.

Lemma email_filters_skipped_when_unresolved_witness :
  normalize_coupons unexpanded_users
  = assign "user_email" (fun _ => VStr "unknown") unexpanded_users
  /\ List.length (rows (normalize_bookings unexpanded_users)) = 2%nat.
Proof.
  destruct (email_filters_skipped_when_unresolved unexpanded_users
              (assign "user_email" (fun _ => VStr "unknown") unexpanded_users)
              eq_refl eq_refl) as [_ [_ [Hc [_ [_ Hlen]]]]].
  split; [exact Hc | exact (Hlen eq_refl)].
Defined.

(** ** Determinism *)



(** ** Slot length categories *)

Lemma str_int_nonpos (n : Z) :
  n <= 0 -> str_int n = "0" \/ exists s, str_int n = String "-" s.
Proof.
  destruct n as [|p|p]; intro H.
  - left. reflexivity.
  - lia.
  - right. unfold str_int. simpl. eexists. reflexivity.
Qed.

Lemma category_below_one (n : Z) :
  n <= 0 ->
  slot_length_category (Some n) = str_int n ++ " timme"
  /\ bucket_rank (slot_length_category (Some n)) = 0%nat
  /\ ~ In (slot_length_category (Some n)) length_labels.
Proof.
  intro H. unfold slot_length_category.
  destruct (n <=? 1) eqn:E; [|apply Z.leb_gt in E; lia].
  split; [reflexivity|].
  destruct (str_int_nonpos n H) as [-> | [s ->]].
  - split; [reflexivity|]. simpl. intros [F | [F | [F | []]]]; discriminate.
  - split; [reflexivity|]. simpl. intros [F | [F | [F | []]]]; discriminate.
Qed.

Lemma category_from_one (n : Z) :
  1 <= n ->
  slot_length_category (Some n)
  = (if n =? 1 then "1 timme" else if n =? 2 then "2 timmar" else "3+ timmar").
Proof.
  intro H. unfold slot_length_category.
  destruct (n =? 1) eqn:E1.
  - apply Z.eqb_eq in E1. subst n. reflexivity.
  - apply Z.eqb_neq in E1. destruct (n <=? 1) eqn:L1; [apply Z.leb_le in L1; lia|].
    destruct (n =? 2) eqn:E2.
    + apply Z.eqb_eq in E2. subst n. reflexivity.
    + apply Z.eqb_neq in E2.
      destruct (n <=? 2) eqn:L2; [apply Z.leb_le in L2; lia | reflexivity].
Qed.

Lemma rank_from_one (n : Z) :
  1 <= n ->
  bucket_rank (slot_length_category (Some n))
  = (if n =? 1 then 1%nat else if n =? 2 then 2%nat else 3%nat).
Proof.
  intro H. rewrite (category_from_one n H).
  destruct (n =? 1); [reflexivity|]. destruct (n =? 2); reflexivity.
Qed.

(** C3 (as amended).  The category is a function of the rounded slot length
    alone.  A rounded length of 1 gives "1 timme", 2 gives "2 timmar", any
    greater one and an undefined one give "3+ timmar"; so from one hour
    upwards the category is one of the three buckets.  A rounded length [n]
    of 0 or less gives the label "<n> timme", which is none of the three.
    The mapping is monotone in the rounded length. *)
Theorem slot_length_category_buckets :
  (forall n, 1 <= n -> In (slot_length_category (Some n)) length_labels)
  /\ In (slot_length_category None) length_labels
  /\ slot_length_category (Some 1) = "1 timme"
  /\ slot_length_category (Some 2) = "2 timmar"
  /\ (forall n, 2 < n -> slot_length_category (Some n) = "3+ timmar")
  /\ slot_length_category None = "3+ timmar"
  /\ (forall n, n <= 0 ->
        slot_length_category (Some n) = str_int n ++ " timme"
        /\ ~ In (slot_length_category (Some n)) length_labels)
  /\ (forall a b, a <= b ->
        Nat.le (bucket_rank (slot_length_category (Some a)))
               (bucket_rank (slot_length_category (Some b)))).
Proof.
  split; [|split; [|split; [|split; [|split; [|split; [|split]]]]]].
  - intros n H. rewrite (category_from_one n H).
    destruct (n =? 1); [simpl; tauto|]. destruct (n =? 2); simpl; tauto.
  - simpl. tauto.
  - reflexivity.
  - reflexivity.
  - intros n H. rewrite (category_from_one n) by lia.
    destruct (n =? 1) eqn:E1; [apply Z.eqb_eq in E1; lia|].
    destruct (n =? 2) eqn:E2; [apply Z.eqb_eq in E2; lia | reflexivity].
  - reflexivity.
  - intros n H. destruct (category_below_one n H) as [H1 [_ H3]]. split; assumption.
  - intros a b Hab. destruct (Z_le_gt_dec a 0) as [Ha | Ha].
    + destruct (category_below_one a Ha) as [_ [-> _]]. apply Nat.le_0_l.
    + rewrite (rank_from_one a), (rank_from_one b) by lia.
      destruct (a =? 1) eqn:A1; destruct (b =? 1) eqn:B1;
        destruct (a =? 2) eqn:A2; destruct (b =? 2) eqn:B2;
        repeat match goal with
               | H : (_ =? _) = true |- _ => apply Z.eqb_eq in H
               | H : (_ =? _) = false |- _ => apply Z.eqb_neq in H
               end; try lia.
Qed.

Lemma slot_length_category_buckets_witness :
  In (slot_length_category (Some 5)) length_labels
  /\ slot_length_category (Some 7) = "3+ timmar"
  /\ ~ In (slot_length_category (Some (-1))) length_labels
  /\ Nat.le (bucket_rank (slot_length_category (Some 1)))
            (bucket_rank (slot_length_category (Some 4))).
Proof.
  destruct slot_length_category_buckets
    as [H1 [_ [_ [_ [H3 [_ [H0 Hmono]]]]]]].
  split; [apply H1; lia|].
  split; [apply H3; lia|].
  split; [apply (H0 (-1)); lia|].
  apply Hmono. lia.
Defined.

(** C3, as stated, fails: a slot shorter than half an hour rounds to 0 hours
    and is labelled "0 timme", outside the three buckets. *)
Lemma short_slot_gets_a_fourth_label :
  option_map (fun df => (column "slot_length" df, column "slot_length_category" df))
    (snd (process_bookings iso8601 short_slot_booking))
  = Some ([VNum 0], [VStr "0 timme"])
  /\ slot_length_category (Some 0) = "0 timme"
  /\ ~ In "0 timme" length_labels.
Proof.
  split; [vm_compute; reflexivity|]. split; [reflexivity|].
  simpl. intros [F | [F | [F | []]]]; discriminate.
Qed.

(** ** Assignments that may raise *)

Lemma mapM_total {A B : Type} (f : A -> option B) (g : A -> B) (l : list A) :
  (forall a, In a l -> f a = Some (g a)) -> mapM f l = Some (map g l).
Proof.
  induction l as [|a l IH]; intro H; simpl; [reflexivity|].
  rewrite (H a (or_introl eq_refl)). simpl.
  rewrite IH; [reflexivity|]. intros x Hx. apply H. right. exact Hx.
Qed.

Lemma mapM_Forall2 {A B : Type} (f : A -> option B) (l : list A) (l' : list B) :
  mapM f l = Some l' -> Forall2 (fun a b => f a = Some b) l l'.
Proof.
  revert l'. induction l as [|a l IH]; intros l' H; simpl in H.
  - injection H as <-. constructor.
  - destruct (f a) as [b|] eqn:Ea; [|discriminate]. simpl in H.
    destruct (mapM f l) as [bs|]; [|discriminate]. simpl in H.
    injection H as <-. constructor; [exact Ea | apply IH; reflexivity].
Qed.

Lemma assign_raising_total (c : string) (f : record -> option value)
    (g : record -> value) (df : DataFrame) :
  (forall r, In r (rows df) -> f r = Some (g r)) ->
  assign_raising c f df = Some (assign c g df).
Proof.
  intro H. unfold assign_raising.
  rewrite (mapM_total _ (fun r => set_field c (g r) r)).
  - reflexivity.
  - intros r Hr. rewrite (H r Hr). reflexivity.
Qed.

Lemma in_rows_assign (c : string) (g : record -> value) (df : DataFrame) (r : record) :
  In r (rows (assign c g df)) ->
  exists r0, In r0 (rows df) /\ r = set_field c (g r0) r0.
Proof.
  rewrite rows_assign. intro H. apply in_map_iff in H.
  destruct H as [r0 [<- Hin]]. exists r0. split; [exact Hin | reflexivity].
Qed.

(** ** The placeholder slot *)

Section Placeholder.

Variable parse_datetime : string -> option Z.

Lemma to_datetime_fixes_datetimes (x : value) :
  is_datetime x -> to_datetime parse_datetime x = Some x.
Proof. destruct x; simpl; intro H; (reflexivity || contradiction). Qed.

Lemma plus_one_hour_datetime (x : value) :
  is_datetime x ->
  bind (to_datetime parse_datetime x) plus_one_hour = Some (one_hour_later x).
Proof. destruct x; simpl; intro H; (reflexivity || contradiction). Qed.

Lemma slot_placeholder_total (df : DataFrame) :
  (forall r, In r (rows df) -> is_datetime (cell r "date_created")) ->
  slot_placeholder parse_datetime df = Some (placeholder_table df).
Proof.
  intro Hdc. unfold slot_placeholder, placeholder_table.
  destruct (has_column "date_created" df); [|reflexivity].
  rewrite (assign_raising_total _ _ (fun r => cell r "date_created")).
  - simpl bind.
    rewrite (assign_raising_total _ _ (fun r => one_hour_later (cell r "date_created"))).
    + reflexivity.
    + intros r Hr. apply in_rows_assign in Hr. destruct Hr as [r0 [Hin ->]].
      apply plus_one_hour_datetime. rewrite cell_set_field. simpl.
      apply Hdc. exact Hin.
  - intros r Hr. apply to_datetime_fixes_datetimes. apply Hdc. exact Hr.
Qed.

Lemma placeholder_table_cells (df : DataFrame) (r : record) :
  In r (rows (placeholder_table df)) ->
  cell r "slot_description" = VStr "Unknown"
  /\ cell r "slot_start_time"
     = (if has_column "date_created" df then cell r "date_created"
        else VTime placeholder_date)
  /\ cell r "slot_end_time" = one_hour_later (cell r "slot_start_time").
Proof.
  unfold placeholder_table. intro H.
  apply in_rows_assign in H. destruct H as [r2 [H ->]].
  destruct (has_column "date_created" df);
    apply in_rows_assign in H; destruct H as [r1 [H ->]];
    apply in_rows_assign in H; destruct H as [r0 [H ->]];
    rewrite !cell_set_field; simpl; repeat split; reflexivity.
Qed.

(** Without a [slot] column, a pair of dotted columns or a pair of bare
    columns, no strategy applies. *)
Lemma no_slot_information_no_strategy (df : DataFrame) :
  has_column "slot" df = false ->
  has_column "slot.start_time" df && has_column "slot.end_time" df = false ->
  has_column "start_time" df && has_column "end_time" df = false ->
  slot_strategies parse_datetime df = Some (df, false).
Proof.
  intros Hslot Hdot Hbare.
  unfold slot_strategies, slot_embedded, slot_dotted, slot_strict, slot_direct.
  rewrite Hslot. simpl. rewrite Hdot. simpl. rewrite Hslot. simpl.
  rewrite andb_true_r, Hbare. reflexivity.
Qed.

(** C5 (as amended).  When none of the four strategies finds the slot
    fields, a warning is shown and a placeholder slot is substituted in
    every record: its description is "Unknown"; its start is the record's
    [date_created] when that column exists (null where [date_created] is
    null), else the fixed date 2024-01-01; its end is one hour after its
    start (null when the start is null), so wherever both are set the end
    is not before the start.  (Times found by a strategy are taken from
    the data as they are: they may be null, and nothing orders them.) *)
Theorem placeholder_slot_is_one_hour (df df1 : DataFrame) :
  slot_strategies parse_datetime df = Some (df1, false) ->
  (forall r, In r (rows df1) -> is_datetime (cell r "date_created")) ->
  exists df2,
    resolve_slot_fields parse_datetime df = (df2, [slot_warning])
    /\ List.length (rows df2) = List.length (rows df1)
    /\ forall r, In r (rows df2) ->
         cell r "slot_description" = VStr "Unknown"
         /\ cell r "slot_start_time"
            = (if has_column "date_created" df1 then cell r "date_created"
               else VTime placeholder_date)
         /\ cell r "slot_end_time" = one_hour_later (cell r "slot_start_time")
         /\ (cell r "slot_start_time" = VNull -> cell r "slot_end_time" = VNull)
         /\ (forall s e,
               cell r "slot_start_time" = VTime s ->
               cell r "slot_end_time" = VTime e ->
               e = s + ns_per_hour /\ s <= e).
Proof.
  intros Hs Hdc. exists (placeholder_table df1).
  unfold resolve_slot_fields. rewrite Hs. simpl negb. cbv iota.
  rewrite (slot_placeholder_total df1 Hdc).
  split; [reflexivity|]. split.
  { unfold placeholder_table.
    destruct (has_column "date_created" df1);
      rewrite !rows_assign, !map_length_eq; reflexivity. }
  intros r Hr. destruct (placeholder_table_cells df1 r Hr) as [Hd [Hst He]].
  split; [exact Hd|]. split; [exact Hst|]. split; [exact He|]. split.
  - intro Hn. rewrite He, Hn. reflexivity.
  - intros s e Hs' He'. rewrite He, Hs' in He'. simpl in He'.
    injection He' as <-. unfold Timedelta_hours, ns_per_hour. lia.
Qed.

End Placeholder.

Lemma placeholder_slot_is_one_hour_witness :
  exists df2,
    resolve_slot_fields iso8601 bookings_without_slot = (df2, [slot_warning])
    /\ column "slot_start_time" df2 = [VTime 1736503200000000000; VNull]
    /\ column "slot_end_time" df2 = [VTime 1736506800000000000; VNull].
Proof.
  destruct (placeholder_slot_is_one_hour iso8601 bookings_without_slot
              bookings_without_slot eq_refl) as [df2 [Hr _]].
  - intros r Hin. simpl in Hin. destruct Hin as [<- | [<- | []]]; exact I.
  - exists df2. split; [exact Hr|].
    vm_compute in Hr. injection Hr as <-. split; reflexivity.
Defined.

(** C5, as stated, fails: a strategy that succeeds on the first record
    leaves the times of a record without slot null, with no warning; and
    resolved times are not ordered. *)
Lemma resolved_slot_times_can_be_null_or_reversed :
  (fst (process_bookings iso8601 booking_of_deleted_slot) = []
   /\ option_map (fun df => (column "slot_start_time" df, column "slot_end_time" df))
        (snd (process_bookings iso8601 booking_of_deleted_slot))
      = Some ([VTime 1736503200000000000; VNull],
              [VTime 1736510400000000000; VNull]))
  /\ option_map (fun df => (column "slot_start_time" df, column "slot_end_time" df))
       (snd (process_bookings iso8601 booking_of_reversed_slot))
     = Some ([VTime 1736510400000000000], [VTime 1736503200000000000])
  /\ ~ (1736510400000000000 <= 1736503200000000000).
Proof.
  split; [split; vm_compute; reflexivity|].
  split; [vm_compute; reflexivity | lia].
Qed.

(** ** Grouping and sorting *)

Lemma key_eqb_eq (a b : key) : key_eqb a b = true <-> a = b.
Proof.
  destruct a as [y m], b as [y' m']. unfold key_eqb. simpl.
  rewrite andb_true_iff, !Z.eqb_eq. split.
  - intros [-> ->]. reflexivity.
  - intro H. injection H as -> ->. split; reflexivity.
Qed.

Lemma key_eqb_refl (a : key) : key_eqb a a = true.
Proof. apply key_eqb_eq. reflexivity. Qed.

Lemma key_ltb_spec (a b : key) :
  key_ltb a b = true <-> fst a < fst b \/ (fst a = fst b /\ snd a < snd b).
Proof.
  unfold key_ltb.
  rewrite orb_true_iff, andb_true_iff, !Z.ltb_lt, Z.eqb_eq. reflexivity.
Qed.

Lemma key_lt_trans (a b c : key) : key_lt a b -> key_lt b c -> key_lt a c.
Proof. unfold key_lt. rewrite !key_ltb_spec. lia. Qed.

Lemma key_lt_irrefl (a : key) : ~ key_lt a a.
Proof. unfold key_lt. rewrite key_ltb_spec. lia. Qed.

Lemma key_trichotomy (a b : key) :
  key_eqb a b = false -> key_ltb a b = false -> key_lt b a.
Proof.
  intros He Hl. unfold key_lt. rewrite key_ltb_spec.
  assert (Hne : a <> b) by (intro E; apply key_eqb_eq in E; congruence).
  assert (Hnl : ~ (fst a < fst b \/ (fst a = fst b /\ snd a < snd b)))
    by (rewrite <- key_ltb_spec; congruence).
  destruct a as [y m], b as [y' m']. simpl in *.
  destruct (Z.eq_dec y y') as [-> | Hy]; [|lia].
  destruct (Z.eq_dec m m') as [-> | Hm]; [congruence | lia].
Qed.

Lemma in_insert_key (x k : key) (ks : list key) :
  In x (insert_key k ks) <-> x = k \/ In x ks.
Proof.
  induction ks as [|k' ks IH]; simpl.
  - intuition congruence.
  - destruct (key_eqb k k') eqn:E.
    + apply key_eqb_eq in E. subst k'. simpl. intuition congruence.
    + destruct (key_ltb k k'); simpl; [intuition congruence|].
      rewrite IH. intuition congruence.
Qed.

Lemma insert_key_sorted (k : key) (ks : list key) :
  StronglySorted key_lt ks -> StronglySorted key_lt (insert_key k ks).
Proof.
  induction ks as [|k' ks IH]; intro Hs; simpl.
  - constructor; constructor.
  - destruct (key_eqb k k') eqn:E; [exact Hs|].
    apply StronglySorted_inv in Hs. destruct Hs as [Hs Hall].
    destruct (key_ltb k k') eqn:L.
    + constructor; [constructor; assumption|].
      constructor; [exact L|].
      eapply Forall_impl; [|exact Hall]. intros x Hx.
      eapply key_lt_trans; [exact L | exact Hx].
    + constructor; [apply IH; exact Hs|].
      apply Forall_forall. intros x Hx. apply in_insert_key in Hx.
      destruct Hx as [-> | Hx].
      * apply key_trichotomy; assumption.
      * rewrite Forall_forall in Hall. apply Hall. exact Hx.
Qed.

Lemma group_keys_sorted (rs : list record) : StronglySorted key_lt (group_keys rs).
Proof.
  induction rs as [|r rs IH]; simpl; [constructor|].
  destruct (group_key r); [apply insert_key_sorted|]; exact IH.
Qed.

Lemma sorted_keys_NoDup (ks : list key) : StronglySorted key_lt ks -> NoDup ks.
Proof.
  induction 1 as [|k ks Hs IH Hall]; constructor; [|exact IH].
  intro Hin. rewrite Forall_forall in Hall.
  exact (key_lt_irrefl k (Hall k Hin)).
Qed.

Lemma group_keys_NoDup (rs : list record) : NoDup (group_keys rs).
Proof. apply sorted_keys_NoDup, group_keys_sorted. Qed.

Lemma in_group_keys (k : key) (rs : list record) :
  In k (group_keys rs) <-> exists r, In r rs /\ group_key r = Some k.
Proof.
  induction rs as [|r rs IH]; simpl.
  - split; [contradiction | intros [r [[] _]]].
  - destruct (group_key r) as [k'|] eqn:E.
    + rewrite in_insert_key, IH. split.
      * intros [-> | [r' [Hin Hk]]]; [exists r; tauto | exists r'; tauto].
      * intros [r' [[<- | Hin] Hk]]; [left; congruence | right; exists r'; tauto].
    + rewrite IH. split.
      * intros [r' [Hin Hk]]. exists r'. tauto.
      * intros [r' [[<- | Hin] Hk]]; [congruence | exists r'; tauto].
Qed.

Lemma in_group_iff (k : key) (rs : list record) (r : record) :
  In r (group k rs) <-> In r rs /\ group_key r = Some k.
Proof.
  unfold group, in_group. rewrite filter_In.
  destruct (group_key r) as [k'|].
  - rewrite key_eqb_eq. intuition congruence.
  - intuition discriminate.
Qed.

Lemma group_nonempty (k : key) (rs : list record) :
  In k (group_keys rs) -> group k rs <> [].
Proof.
  intro H. apply in_group_keys in H. destruct H as [r [Hin Hk]].
  assert (Hg : In r (group k rs)) by (apply in_group_iff; tauto).
  intro E. rewrite E in Hg. contradiction.
Qed.

Section Sorting.

Context {A : Type} (k : A -> Z).

Lemma insert_by_perm (x : A) (l : list A) : Permutation (insert_by k x l) (x :: l).
Proof.
  induction l as [|y l IH]; simpl; [apply Permutation_refl|].
  destruct (k x <=? k y); [apply Permutation_refl|].
  eapply perm_trans; [apply perm_skip, IH | apply perm_swap].
Qed.

Lemma sort_values_perm (l : list A) : Permutation (sort_values k l) l.
Proof.
  induction l as [|x l IH]; simpl; [constructor|].
  eapply perm_trans; [apply insert_by_perm | apply perm_skip, IH].
Qed.

Lemma insert_by_sorted (x : A) (l : list A) :
  StronglySorted (by_key k) l -> StronglySorted (by_key k) (insert_by k x l).
Proof.
  induction l as [|y l IH]; intro Hs; simpl.
  - constructor; constructor.
  - apply StronglySorted_inv in Hs. destruct Hs as [Hs Hall].
    destruct (k x <=? k y) eqn:E.
    + apply Z.leb_le in E. constructor; [constructor; assumption|].
      constructor; [exact E|].
      eapply Forall_impl; [|exact Hall]. unfold by_key. intros z Hz. lia.
    + apply Z.leb_gt in E. constructor; [apply IH; exact Hs|].
      apply Forall_forall. intros z Hz.
      apply (Permutation_in _ (insert_by_perm x l)) in Hz.
      destruct Hz as [<- | Hz]; [unfold by_key; lia|].
      rewrite Forall_forall in Hall. apply Hall. exact Hz.
Qed.

Lemma sort_values_sorted (l : list A) : StronglySorted (by_key k) (sort_values k l).
Proof.
  induction l as [|x l IH]; simpl; [constructor|].
  apply insert_by_sorted. exact IH.
Qed.

Lemma in_sort_values (x : A) (l : list A) : In x (sort_values k l) <-> In x l.
Proof.
  split; apply Permutation_in;
    [apply sort_values_perm | apply Permutation_sym, sort_values_perm].
Qed.

End Sorting.

Lemma from_december_2024_spec (y m : Z) :
  from_december_2024 y m = true <-> y > 2024 \/ (y = 2024 /\ m >= 12).
Proof.
  unfold from_december_2024.
  rewrite orb_true_iff, andb_true_iff, Z.ltb_lt, Z.eqb_eq, Z.leb_le. lia.
Qed.

Lemma Forall2_in_r {A B : Type} (R : A -> B -> Prop) (l : list A) (l' : list B) (b : B) :
  Forall2 R l l' -> In b l' -> exists a, In a l /\ R a b.
Proof.
  induction 1 as [|a b' l l' Hab _ IH]; intro Hin; [contradiction|].
  destruct Hin as [<- | Hin].
  - exists a. split; [left; reflexivity | exact Hab].
  - destruct (IH Hin) as [a' [Ha' HR]]. exists a'. split; [right|]; assumption.
Qed.

Lemma Forall2_in_l {A B : Type} (R : A -> B -> Prop) (l : list A) (l' : list B) (a : A) :
  Forall2 R l l' -> In a l -> exists b, In b l' /\ R a b.
Proof.
  induction 1 as [|a' b l l' Hab _ IH]; intro Hin; [contradiction|].
  destruct Hin as [<- | Hin].
  - exists b. split; [left; reflexivity | exact Hab].
  - destruct (IH Hin) as [b' [Hb' HR]]. exists b'. split; [right|]; assumption.
Qed.

Lemma Forall2_map_eq {A B C : Type} (R : A -> B -> Prop) (f : B -> C) (g : A -> C)
    (l : list A) (l' : list B) :
  (forall a b, R a b -> f b = g a) -> Forall2 R l l' -> map f l' = map g l.
Proof.
  intros H. induction 1 as [|a b l l' Hab _ IH]; simpl; [reflexivity|].
  rewrite (H a b Hab), IH. reflexivity.
Qed.

Lemma NoDup_filter {A : Type} (f : A -> bool) (l : list A) :
  NoDup l -> NoDup (filter f l).
Proof.
  induction 1 as [|a l Hn _ IH]; simpl; [constructor|].
  destruct (f a); [|exact IH].
  constructor; [|exact IH]. intro Hin. apply filter_In in Hin. tauto.
Qed.

Lemma map_filter_comm {A B : Type} (f : A -> B) (p : B -> bool) (l : list A) :
  filter p (map f l) = map f (filter (fun a => p (f a)) l).
Proof.
  induction l as [|a l IH]; simpl; [reflexivity|].
  destruct (p (f a)); simpl; rewrite IH; reflexivity.
Qed.

(** ** Monthly tables *)

Lemma sum_cells_total (xs : list value) :
  (forall x, In x xs -> is_numeric x) -> exists s, sum_cells xs = Some s.
Proof.
  induction xs as [|x xs IH]; intro H; simpl.
  - exists 0. reflexivity.
  - destruct IH as [s ->]; [intros y Hy; apply H; right; exact Hy|].
    simpl. specialize (H x (or_introl eq_refl)).
    destruct x; simpl in H; try contradiction; eexists; reflexivity.
Qed.

Lemma mapM_some {A B : Type} (f : A -> option B) (l : list A) :
  (forall a, In a l -> exists b, f a = Some b) -> exists l', mapM f l = Some l'.
Proof.
  induction l as [|a l IH]; intro H; simpl.
  - eexists. reflexivity.
  - destruct (H a (or_introl eq_refl)) as [b ->]. simpl.
    destruct IH as [l' ->]; [intros x Hx; apply H; right; exact Hx|].
    eexists. reflexivity.
Qed.

Lemma booking_row_of_unique (df : DataFrame) (k : key) (row row' : MonthlyBookings.row) :
  booking_row_of df k row -> booking_row_of df k row' -> row = row'.
Proof.
  intros [Hk [Hv Ho]] [Hk' [Hv' Ho']].
  destruct row as [y m v o], row' as [y' m' v' o'].
  unfold booking_key in *. simpl in *. subst k.
  injection Hk' as -> ->. rewrite Hv in Hv'. injection Hv' as ->.
  subst o o'. reflexivity.
Qed.

Lemma monthly_bookings_grouped_spec (df : DataFrame) (g : list MonthlyBookings.row) :
  monthly_bookings_grouped df = Some g ->
  Forall2 (booking_row_of df) (group_keys (rows df)) g.
Proof.
  intro H. apply mapM_Forall2 in H.
  eapply Forall2_impl; [|exact H]. simpl. intros k row Hrow.
  destruct (seats_or_size df k) as [v|] eqn:Ev; [|discriminate].
  simpl in Hrow. injection Hrow as <-. unfold booking_row_of, booking_key. simpl.
  destruct k. split; [reflexivity|]. split; [exact Ev | reflexivity].
Qed.

Lemma monthly_bookings_in (df : DataFrame) (table : list MonthlyBookings.row)
    (row : MonthlyBookings.row) :
  monthly_bookings df = Some table ->
  (In row table <->
   In (booking_key row) (group_keys (rows df))
   /\ from_december_2024 (MonthlyBookings.year row) (MonthlyBookings.month row) = true
   /\ booking_row_of df (booking_key row) row).
Proof.
  unfold monthly_bookings. intro H.
  destruct (monthly_bookings_grouped df) as [g|] eqn:Eg; [|discriminate].
  simpl in H. injection H as <-.
  pose proof (monthly_bookings_grouped_spec df g Eg) as HF.
  rewrite in_sort_values, filter_In. split.
  - intros [Hin Hb]. destruct (Forall2_in_r _ _ _ _ HF Hin) as [k [Hk Hrow]].
    assert (Ek : booking_key row = k) by (destruct Hrow; assumption).
    rewrite Ek. tauto.
  - intros [Hk [Hb Hrow]]. split; [|exact Hb].
    destruct (Forall2_in_l _ _ _ _ HF Hk) as [row' [Hin Hrow']].
    rewrite (booking_row_of_unique df _ row row' Hrow Hrow'). exact Hin.
Qed.

Lemma monthly_bookings_NoDup (df : DataFrame) (table : list MonthlyBookings.row) :
  monthly_bookings df = Some table -> NoDup (map booking_key table).
Proof.
  unfold monthly_bookings. intro H.
  destruct (monthly_bookings_grouped df) as [g|] eqn:Eg; [|discriminate].
  simpl in H. injection H as <-.
  pose proof (monthly_bookings_grouped_spec df g Eg) as HF.
  eapply Permutation_NoDup.
  - apply Permutation_map, Permutation_sym, sort_values_perm.
  - assert (Hmap : map booking_key g = group_keys (rows df)).
    { rewrite <- (map_id (group_keys (rows df))).
      eapply Forall2_map_eq; [|exact HF]. intros k row [Hk _]. exact Hk. }
    set (p := fun k : key => from_december_2024 (fst k) (snd k)).
    assert (Hf : map booking_key
                   (filter (fun row => from_december_2024 (MonthlyBookings.year row)
                                                          (MonthlyBookings.month row)) g)
                 = filter p (map booking_key g)).
    { rewrite map_filter_comm. reflexivity. }
    rewrite Hf, Hmap. apply NoDup_filter, group_keys_NoDup.
Qed.



(** ** The slots table *)

Lemma assign_raising_spec (c : string) (f : record -> option value)
    (df df' : DataFrame) :
  assign_raising c f df = Some df' ->
  columns df' = add_column c (columns df)
  /\ Forall2 (fun r r' => exists v, f r = Some v /\ r' = set_field c v r)
       (rows df) (rows df').
Proof.
  unfold assign_raising. intro H.
  destruct (mapM _ (rows df)) as [rs|] eqn:E; [|discriminate].
  simpl in H. injection H as <-. simpl. split; [reflexivity|].
  apply mapM_Forall2 in E. eapply Forall2_impl; [|exact E].
  simpl. intros r r' Hr. destruct (f r) as [v|]; [|discriminate].
  simpl in Hr. injection Hr as <-. exists v. split; reflexivity.
Qed.

Lemma has_column_assign_raising (c c' : string) (f : record -> option value)
    (df df' : DataFrame) :
  assign_raising c f df = Some df' ->
  has_column c' df' = String.eqb c' c || has_column c' df.
Proof.
  intro H. apply assign_raising_spec in H. destruct H as [Hc _].
  unfold has_column. rewrite Hc. apply has_column_add.
Qed.

Lemma in_rows_assign_raising (c : string) (f : record -> option value)
    (df df' : DataFrame) (r' : record) :
  assign_raising c f df = Some df' ->
  In r' (rows df') ->
  exists r v, In r (rows df) /\ f r = Some v /\ r' = set_field c v r.
Proof.
  intros H Hin. apply assign_raising_spec in H. destruct H as [_ HF].
  destruct (Forall2_in_r _ _ _ _ HF Hin) as [r [Hr [v [Hv E]]]].
  exists r, v. tauto.
Qed.



Section Slots.

Variable parse_datetime : string -> option Z.
Variable parse_number : string -> option Z.

Lemma prepare_slots_eq (slots_df : DataFrame) :
  prepare_slots parse_datetime parse_number slots_df
  = assign "used_seats"
      (fun r => fillna 0 (to_numeric_coerce parse_number (cell r "used_seats")))
      (assign "total_capacity"
         (fun r => fillna 10 (to_numeric_coerce parse_number (cell r "total_capacity")))
         (assign "month"
            (fun r => fillna 1 (to_numeric_coerce parse_number (cell r "month")))
            (assign "year"
               (fun r => fillna 2024 (to_numeric_coerce parse_number (cell r "year")))
               (dated_slots parse_datetime slots_df)))).
Proof.
  unfold prepare_slots. cbv zeta.
  match goal with
  | |- (if ?c then _ else _) = _ => replace c with false
  end.
  - reflexivity.
  - symmetry. rewrite (has_column_assign "used_seats" "used_seats").
    simpl. apply andb_false_r.
Qed.

Lemma fillna_numeric (d : Z) (x : value) :
  exists n, fillna d (to_numeric_coerce parse_number x) = VNum n.
Proof.
  destruct x; simpl; try (eexists; reflexivity).
  destruct (parse_number s); eexists; reflexivity.
Qed.

Lemma dated_slots_cells (slots_df : DataFrame) (r : record) :
  In r (rows (dated_slots parse_datetime slots_df)) ->
  exists r0, In r0 (rows slots_df)
    /\ cell r "total_capacity" = cell r0 "total_capacity"
    /\ cell r "used_seats" = cell r0 "used_seats".
Proof.
  unfold dated_slots. intro H.
  destruct (negb (has_column "year" slots_df) || negb (has_column "month" slots_df)).
  - destruct (has_column "start_time" slots_df).
    + apply in_rows_assign in H. destruct H as [r2 [H ->]].
      apply in_rows_assign in H. destruct H as [r1 [H ->]].
      apply in_rows_assign in H. destruct H as [r0 [H ->]].
      exists r0. rewrite !cell_set_field. simpl. tauto.
    + apply in_rows_assign in H. destruct H as [r1 [H ->]].
      apply in_rows_assign in H. destruct H as [r0 [H ->]].
      exists r0. rewrite !cell_set_field. simpl. tauto.
  - exists r. tauto.
Qed.

Lemma prepare_slots_cells (slots_df : DataFrame) (r : record) :
  In r (rows (prepare_slots parse_datetime parse_number slots_df)) ->
  exists r0, In r0 (rows slots_df)
    /\ cell r "total_capacity"
       = fillna 10 (to_numeric_coerce parse_number (cell r0 "total_capacity"))
    /\ cell r "used_seats"
       = fillna 0 (to_numeric_coerce parse_number (cell r0 "used_seats"))
    /\ exists k, group_key r = Some k.
Proof.
  rewrite prepare_slots_eq. intro H.
  apply in_rows_assign in H. destruct H as [r4 [H ->]].
  apply in_rows_assign in H. destruct H as [r3 [H ->]].
  apply in_rows_assign in H. destruct H as [r2 [H ->]].
  apply in_rows_assign in H. destruct H as [r1 [H ->]].
  destruct (dated_slots_cells slots_df r1 H) as [r0 [Hin [Htc Hus]]].
  exists r0. split; [exact Hin|].
  unfold group_key. rewrite !cell_set_field. simpl.
  rewrite Htc, Hus. split; [reflexivity|]. split; [reflexivity|].
  destruct (fillna_numeric 2024 (cell r1 "year")) as [y ->].
  destruct (fillna_numeric 1 (cell r1 "month")) as [m ->].
  eexists. reflexivity.
Qed.

End Slots.

(** ** Utilization *)

Lemma utilization_rate_total (used capacity : Z) :
  exists q, utilization_rate used capacity = Some q.
Proof.
  unfold utilization_rate, true_div. destruct (0 <? capacity) eqn:E.
  - apply Z.ltb_lt in E. destruct (capacity =? 0) eqn:E0.
    + apply Z.eqb_eq in E0. lia.
    + simpl. eexists. reflexivity.
  - eexists. reflexivity.
Qed.





Lemma monthly_slots_grouped_spec (df : DataFrame) (g : list MonthlySlots.row) :
  monthly_slots_grouped df = Some g ->
  Forall2 (slots_row_of df) (group_keys (rows df)) g.
Proof.
  intro H. apply mapM_Forall2 in H.
  eapply Forall2_impl; [|exact H]. simpl. intros k row Hrow.
  destruct (sum_cells (map (fun r => cell r "total_capacity") (group k (rows df))))
    as [capacity|] eqn:Ec; [|discriminate].
  simpl in Hrow.
  destruct (sum_cells (map (fun r => cell r "used_seats") (group k (rows df))))
    as [used|] eqn:Eu; [|discriminate].
  simpl in Hrow.
  destruct (utilization_rate used capacity) as [rate|] eqn:Er; [|discriminate].
  simpl in Hrow. injection Hrow as <-. unfold slots_row_of, slots_key. simpl.
  destruct k. repeat split; assumption.
Qed.

Lemma monthly_slots_grouped_total (df : DataFrame) :
  (forall r, In r (rows df) ->
     is_numeric (cell r "total_capacity") /\ is_numeric (cell r "used_seats")) ->
  exists g, monthly_slots_grouped df = Some g.
Proof.
  intro H. unfold monthly_slots_grouped. apply mapM_some. intros k _.
  destruct (sum_cells_total (map (fun r => cell r "total_capacity") (group k (rows df))))
    as [capacity ->].
  { intros x Hx. apply in_map_iff in Hx. destruct Hx as [r [<- Hr]].
    apply in_group_iff in Hr. apply H. tauto. }
  destruct (sum_cells_total (map (fun r => cell r "used_seats") (group k (rows df))))
    as [used ->].
  { intros x Hx. apply in_map_iff in Hx. destruct Hx as [r [<- Hr]].
    apply in_group_iff in Hr. apply H. tauto. }
  simpl. destruct (utilization_rate_total used capacity) as [rate ->]. simpl.
  eexists. reflexivity.
Qed.

Section MonthlySlotsTable.

Variable parse_datetime : string -> option Z.
Variable parse_number : string -> option Z.

Lemma prepared_cells_numeric (slots_df : DataFrame) (r : record) :
  In r (rows (prepare_slots parse_datetime parse_number slots_df)) ->
  is_numeric (cell r "total_capacity") /\ is_numeric (cell r "used_seats").
Proof.
  intro H. destruct (prepare_slots_cells _ _ _ _ H) as [r0 [_ [-> [-> _]]]].
  destruct (fillna_numeric parse_number 10 (cell r0 "total_capacity")) as [a ->].
  destruct (fillna_numeric parse_number 0 (cell r0 "used_seats")) as [b ->].
  split; exact I.
Qed.

(** The utilization block never raises: the synthetic table is never
    substituted. *)
Lemma monthly_slots_eq (slots_df : DataFrame) :
  exists g,
    monthly_slots_grouped (prepare_slots parse_datetime parse_number slots_df) = Some g
    /\ monthly_slots parse_datetime parse_number slots_df
       = (prepare_slots parse_datetime parse_number slots_df,
          sort_values MonthlySlots.month_order
            (filter (fun row => from_december_2024 (MonthlySlots.year row)
                                                   (MonthlySlots.month row)) g),
          []).
Proof.
  destruct (monthly_slots_grouped_total
              (prepare_slots parse_datetime parse_number slots_df)
              (prepared_cells_numeric slots_df)) as [g Hg].
  exists g. split; [exact Hg|]. unfold monthly_slots. cbv zeta. rewrite Hg.
  reflexivity.
Qed.

End MonthlySlotsTable.


Lemma monthly_bookings_sorted (df : DataFrame) (table : list MonthlyBookings.row) :
  monthly_bookings df = Some table ->
  StronglySorted (by_key MonthlyBookings.month_order) table.
Proof.
  unfold monthly_bookings. intro H.
  destruct (monthly_bookings_grouped df) as [g|]; [|discriminate].
  simpl in H. injection H as <-. apply sort_values_sorted.
Qed.

Lemma boundary_excludes_november (k : key) :
  from_december_2024 (fst k) (snd k) = true -> ~ before_december_2024 k.
Proof. rewrite from_december_2024_spec. unfold before_december_2024. lia. Qed.


Section MonthlyAggregates.

Variable parse_datetime : string -> option Z.
Variable parse_number : string -> option Z.

Lemma monthly_slots_table (slots_df : DataFrame) :
  exists table,
    monthly_slots parse_datetime parse_number slots_df
    = (prepare_slots parse_datetime parse_number slots_df, table, [])
    /\ (forall row, In row table ->
          In (slots_key row)
             (group_keys (rows (prepare_slots parse_datetime parse_number slots_df)))
          /\ from_december_2024 (MonthlySlots.year row) (MonthlySlots.month row) = true
          /\ slots_row_of (prepare_slots parse_datetime parse_number slots_df)
               (slots_key row) row)
    /\ (forall k,
          In k (group_keys (rows (prepare_slots parse_datetime parse_number slots_df))) ->
          from_december_2024 (fst k) (snd k) = true ->
          exists row, In row table /\ slots_key row = k)
    /\ NoDup (map slots_key table)
    /\ StronglySorted (by_key MonthlySlots.month_order) table.
Proof.
  destruct (monthly_slots_eq parse_datetime parse_number slots_df) as [g [Hg Heq]].
  pose proof (monthly_slots_grouped_spec _ g Hg) as HF.
  eexists. split; [exact Heq|]. split; [|split; [|split]].
  - intros row Hin. apply in_sort_values, filter_In in Hin.
    destruct Hin as [Hin Hb].
    destruct (Forall2_in_r _ _ _ _ HF Hin) as [k [Hk Hrow]].
    assert (Ek : slots_key row = k) by (destruct Hrow; assumption).
    rewrite Ek. tauto.
  - intros k Hk Hb.
    destruct (Forall2_in_l _ _ _ _ HF Hk) as [row [Hin [Hkey _]]].
    exists row. split; [|exact Hkey].
    apply in_sort_values, filter_In. split; [exact Hin|].
    unfold slots_key in Hkey. subst k. exact Hb.
  - eapply Permutation_NoDup.
    + apply Permutation_map, Permutation_sym, sort_values_perm.
    + assert (Hmap : map slots_key g
                     = group_keys (rows (prepare_slots parse_datetime parse_number
                                           slots_df))).
      { rewrite <- (map_id (group_keys _)).
        eapply Forall2_map_eq; [|exact HF]. intros k row [Hk _]. exact Hk. }
      set (p := fun k : key => from_december_2024 (fst k) (snd k)).
      assert (Hf : map slots_key
                     (filter (fun row => from_december_2024 (MonthlySlots.year row)
                                                            (MonthlySlots.month row)) g)
                   = filter p (map slots_key g)).
      { rewrite map_filter_comm. reflexivity. }
      rewrite Hf, Hmap. apply NoDup_filter, group_keys_NoDup.
  - apply sort_values_sorted.
Qed.


End MonthlyAggregates.

Section SlotsCapacity.

Variable parse_datetime : string -> option Z.
Variable parse_number : string -> option Z.

Lemma slots_with_dates_cells (slots_df df : DataFrame) :
  slots_with_dates parse_datetime slots_df = Some df ->
  has_column "available_seats" df = has_column "available_seats" slots_df
  /\ forall r, In r (rows df) ->
       exists r0, In r0 (rows slots_df)
         /\ cell r "available_seats" = cell r0 "available_seats"
         /\ cell r "bookings" = cell r0 "bookings".
Proof.
  unfold slots_with_dates. destruct (has_column "start_time" slots_df).
  - destruct (assign_raising "start_time" _ slots_df) as [df1|] eqn:E; [|discriminate].
    simpl. intro H. injection H as <-. split.
    + rewrite !has_column_assign. simpl.
      rewrite (has_column_assign_raising _ "available_seats" _ _ _ E). reflexivity.
    + intros r Hr.
      apply in_rows_assign in Hr. destruct Hr as [r2 [Hr ->]].
      apply in_rows_assign in Hr. destruct Hr as [r1 [Hr ->]].
      destruct (in_rows_assign_raising _ _ _ _ _ E Hr) as [r0 [v [Hin [_ ->]]]].
      exists r0. rewrite !cell_set_field. simpl. tauto.
  - intro H. injection H as <-. split; [reflexivity|].
    intros r Hr. exists r. tauto.
Qed.

Lemma process_slots_eq (slots_df : DataFrame) :
  process_slots parse_datetime slots_df
  = match slots_with_dates parse_datetime slots_df with
    | None => ([], None)
    | Some df =>
        let df := assign "total_capacity" (fun _ => VNum 10) df in
        if has_column "available_seats" slots_df
        then ([], assign_raising "used_seats"
                    (fun r => ten_minus (cell r "available_seats")) df)
        else ([capacity_warning], Some (assign "used_seats" (fun _ => VNum 0) df))
    end.
Proof.
  unfold process_slots.
  destruct (slots_with_dates parse_datetime slots_df) as [df|] eqn:E.
  - pose proof (slots_with_dates_cells _ _ E) as [Hc _].
    unfold slots_with_dates in E. destruct (has_column "start_time" slots_df).
    + destruct (assign_raising "start_time" _ slots_df) as [df1|]; [|discriminate].
      simpl in E. injection E as <-. simpl.
      rewrite has_column_assign. simpl. rewrite Hc.
      destruct (has_column "available_seats" slots_df); reflexivity.
    + injection E as <-. simpl. rewrite has_column_assign. simpl.
      destruct (has_column "available_seats" slots_df); reflexivity.
  - unfold slots_with_dates in E. destruct (has_column "start_time" slots_df).
    + destruct (assign_raising "start_time" _ slots_df) as [df1|]; [discriminate|].
      reflexivity.
    + discriminate.
Qed.

(** The capacity columns after lines 321-327. *)
Lemma process_slots_cells (slots_df df : DataFrame) (log : list message) (r : record) :
  process_slots parse_datetime slots_df = (log, Some df) ->
  In r (rows df) ->
  exists r0, In r0 (rows slots_df)
    /\ cell r "total_capacity" = VNum 10
    /\ cell r "bookings" = cell r0 "bookings"
    /\ (if has_column "available_seats" slots_df
        then ten_minus (cell r0 "available_seats") = Some (cell r "used_seats")
        else cell r "used_seats" = VNum 0).
Proof.
  rewrite process_slots_eq.
  destruct (slots_with_dates parse_datetime slots_df) as [df0|] eqn:E; [|discriminate].
  destruct (slots_with_dates_cells _ _ E) as [_ Hcells]. cbv zeta.
  destruct (has_column "available_seats" slots_df).
  - intros H Hr. injection H as _ H.
    destruct (in_rows_assign_raising _ _ _ _ _ H Hr) as [r1 [v [Hr1 [Hv ->]]]].
    apply in_rows_assign in Hr1. destruct Hr1 as [r2 [Hr2 ->]].
    destruct (Hcells r2 Hr2) as [r0 [Hin [Ha Hb]]].
    exists r0. rewrite cell_set_field in Hv. simpl in Hv.
    rewrite !cell_set_field. simpl. rewrite <- Ha. tauto.
  - intros H Hr. injection H as _ <-.
    apply in_rows_assign in Hr. destruct Hr as [r1 [Hr1 ->]].
    apply in_rows_assign in Hr1. destruct Hr1 as [r2 [Hr2 ->]].
    destruct (Hcells r2 Hr2) as [r0 [Hin [Ha Hb]]].
    exists r0. rewrite !cell_set_field. simpl. tauto.
Qed.

(** The capacity columns as the utilization block reads them. *)
Lemma prepared_slot_cells (slots_df df : DataFrame) (log : list message) (r : record) :
  process_slots parse_datetime slots_df = (log, Some df) ->
  In r (rows (prepare_slots parse_datetime parse_number df)) ->
  exists r0, In r0 (rows slots_df)
    /\ cell r "total_capacity" = VNum 10
    /\ (exists k, group_key r = Some k)
    /\ (if has_column "available_seats" slots_df
        then exists v, ten_minus (cell r0 "available_seats") = Some v
                       /\ cell r "used_seats" = fillna 0 v
        else cell r "used_seats" = VNum 0).
Proof.
  intros Hp Hr.
  destruct (prepare_slots_cells _ _ _ _ Hr) as [r1 [Hr1 [Htc [Hus Hk]]]].
  destruct (process_slots_cells _ _ _ _ Hp Hr1) as [r0 [Hin [Htc1 [_ Hus1]]]].
  exists r0. split; [exact Hin|].
  rewrite Htc, Htc1, Hus. split; [reflexivity|]. split; [exact Hk|].
  destruct (has_column "available_seats" slots_df).
  - exists (cell r1 "used_seats"). split; [exact Hus1|].
    destruct (cell r0 "available_seats"); simpl in Hus1; try discriminate;
      injection Hus1 as <-; reflexivity.
  - rewrite Hus1. reflexivity.
Qed.

End SlotsCapacity.





Section UtilizationRange.

Variable parse_datetime : string -> option Z.
Variable parse_number : string -> option Z.



End UtilizationRange.



(** ** Used seats *)

Section UsedSeats.

Variable parse_datetime : string -> option Z.
Variable parse_number : string -> option Z.

(** C1 (what the code does).  With an [available_seats] column,
    [used_seats] is 10 minus [available_seats] (0 where it is null).
    Without one, [used_seats] is 0 in every row, whatever bookings are
    embedded: line 327 has already created the column, so the guard
    ['used_seats' not in slots_df.columns] of line 538 is never true and
    [count_booked_seats] is never applied. *)
Theorem used_seats_never_counts_embedded_bookings
    (slots_df df : DataFrame) (log : list message) :
  process_slots parse_datetime slots_df = (log, Some df) ->
  forall r, In r (rows (prepare_slots parse_datetime parse_number df)) ->
    cell r "total_capacity" = VNum 10
    /\ (has_column "available_seats" slots_df = false ->
        cell r "used_seats" = VNum 0)
    /\ (has_column "available_seats" slots_df = true ->
        exists r0, In r0 (rows slots_df)
          /\ forall a, cell r0 "available_seats" = VNum a ->
               cell r "used_seats" = VNum (10 - a)).
Proof.
  intros Hp r Hr.
  destruct (prepared_slot_cells _ _ _ _ _ _ Hp Hr) as [r0 [Hin [Htc [_ Hus]]]].
  split; [exact Htc|]. split.
  - intro Hc. rewrite Hc in Hus. exact Hus.
  - intro Hc. rewrite Hc in Hus. destruct Hus as [v [Hv Hus]].
    exists r0. split; [exact Hin|]. intros a Ha.
    rewrite Ha in Hv. simpl in Hv. injection Hv as <-. exact Hus.
Qed.

End UsedSeats.

Lemma used_seats_never_counts_embedded_bookings_witness :
  map count_booked_seats (column "bookings" slot_with_embedded_bookings) = [5]
  /\ exists df,
       snd (process_slots iso8601 slot_with_embedded_bookings) = Some df
       /\ List.length (rows (prepare_slots iso8601 (fun _ => None) df)) = 1%nat
       /\ forall r, In r (rows (prepare_slots iso8601 (fun _ => None) df)) ->
            cell r "used_seats" = VNum 0.
Proof.
  split; [reflexivity|].
  destruct (process_slots iso8601 slot_with_embedded_bookings) as [log [df|]] eqn:Hp;
    [|vm_compute in Hp; discriminate].
  exists df. split; [reflexivity|]. split.
  - vm_compute in Hp. injection Hp as <- <-. reflexivity.
  - intros r Hr.
    destruct (used_seats_never_counts_embedded_bookings iso8601 (fun _ => None)
                slot_with_embedded_bookings df log Hp r Hr) as [_ [H0 _]].
    apply H0. reflexivity.
Defined.

(** ** Sample months *)


(* ===================================================================== *)
(** * Part III. Further properties of the pipeline                        *)
(* ===================================================================== *)

(** ** The fetcher *)

(** X1.  A fetch ends in one of two ways: it returns every record of the
    response, in order, and shows nothing; or it shows exactly one "Failed
    to fetch" error naming the collection and returns the table without
    rows and columns.  It never returns part of the records, and never
    records together with an error. *)
Theorem fetch_all_or_nothing (http : network) (collection_name : string) :
  (exists status reason data,
     http collection_name (query_params collection_name)
     = Response status reason (inr data)
     /\ ~ (400 <= status < 600)
     /\ fetch_from_directus http collection_name = (pd_DataFrame data, [])
     /\ rows (fst (fetch_from_directus http collection_name)) = data)
  \/ (exists text,
        fetch_raises http collection_name
        /\ fetch_from_directus http collection_name
           = (pd_DataFrame [], [fetch_failed collection_name text])
        /\ empty (fst (fetch_from_directus http collection_name)) = true).
Proof.
  unfold fetch_raises, fetch_from_directus.
  destruct (http collection_name (query_params collection_name))
    as [text | status reason [text | data]].
  - right. exists text. repeat split.
  - right. unfold raise_for_status.
    destruct ((400 <=? status) && (status <? 600));
      eexists; (split; [right; exists text; reflexivity | split; reflexivity]).
  - unfold raise_for_status.
    destruct (400 <=? status) eqn:Elo; destruct (status <? 600) eqn:Ehi; simpl.
    + right. apply Z.leb_le in Elo. apply Z.ltb_lt in Ehi.
      exists reason. split; [left; lia | split; reflexivity].
    + left. apply Z.ltb_ge in Ehi. exists status, reason, data.
      split; [reflexivity|]. split; [lia | split; reflexivity].
    + left. apply Z.leb_gt in Elo. exists status, reason, data.
      split; [reflexivity|]. split; [lia | split; reflexivity].
    + left. apply Z.leb_gt in Elo. exists status, reason, data.
      split; [reflexivity|]. split; [lia | split; reflexivity].
Qed.

(** X2.  Whatever the collection, the query disables pagination
    ([limit = -1]) and asks for all top-level fields; it carries a time
    filter, [end_time <= $NOW], for bookings (on the slot) and for slots, and
    no filter for coupons or any other collection. *)
Theorem query_never_paginates (collection_name : string) :
  limit (query_params collection_name) = -1
  /\ String.prefix "*" (fields (query_params collection_name)) = true
  /\ (filter_condition (query_params collection_name) <> None
      <-> collection_name = "bookings" \/ collection_name = "slots")
  /\ (collection_name = "bookings" ->
      filter_condition (query_params collection_name)
      = Some (VDict [("slot", VDict [("end_time", VDict [("_lte", VStr "$NOW")])])]))
  /\ (collection_name = "slots" ->
      filter_condition (query_params collection_name)
      = Some (VDict [("end_time", VDict [("_lte", VStr "$NOW")])])).
Proof.
  unfold query_params.
  destruct (String.eqb_spec collection_name "bookings") as [-> | Hb].
  { repeat split; try reflexivity; try discriminate; intros; auto. }
  destruct (String.eqb_spec collection_name "coupons") as [-> | Hc].
  { repeat split; try reflexivity; try discriminate.
    - intro H. exfalso. apply H. reflexivity.
    - intros [H | H]; discriminate. }
  destruct (String.eqb_spec collection_name "slots") as [-> | Hs].
  { repeat split; try reflexivity; try discriminate; intros; auto. }
  repeat split; try reflexivity; try contradiction;
    try (intros [H | H]; contradiction).
Qed.

Lemma query_never_paginates_witness :
  filter_condition (query_params "slots")
  = Some (VDict [("end_time", VDict [("_lte", VStr "$NOW")])])
  /\ filter_condition (query_params "coupons") = None.
Proof.
  destruct (query_never_paginates "slots") as [_ [_ [_ [_ Hs]]]].
  destruct (query_never_paginates "coupons") as [_ [_ [Hc _]]].
  split; [apply Hs; reflexivity|].
  destruct (filter_condition (query_params "coupons")) eqn:E; [|reflexivity].
  assert (H : Some v <> None) by discriminate.
  apply Hc in H. destruct H; discriminate.
Defined.

(** ** The normalizer *)

Lemma resolve_user_email_assigns (df df' : DataFrame) (found : bool) :
  resolve_user_email df = Some (df', found) ->
  exists f, df' = assign "user_email" f df.
Proof.
  unfold resolve_user_email.
  destruct (has_column "user" df).
  - destruct (iloc0 "user" df) as [first|]; [|discriminate].
    destruct (is_dict first && has_key "email" first); simpl;
      intro H; injection H as <- _; eexists; reflexivity.
  - destruct (has_column "user.email" df); simpl;
      intro H; injection H as <- _; eexists; reflexivity.
Qed.

Lemma resolve_user_email_some (df : DataFrame) :
  empty df = false -> exists df' found, resolve_user_email df = Some (df', found).
Proof.
  intro He.
  destruct (resolve_user_email_cases df (empty_false_rows df He)) as [df' [Hr _]].
  eexists. eexists. exact Hr.
Qed.

Lemma cell_set_field_other (c c' : string) (v : value) (r : record) :
  c' <> c -> cell (set_field c v r) c' = cell r c'.
Proof.
  intro H. rewrite cell_set_field.
  destruct (String.eqb_spec c' c); [contradiction | reflexivity].
Qed.

(** X3.  Normalization only ever adds the [user_email] column and removes
    rows: every row of the normalized bookings table, and of the normalized
    coupons table, is a row of the fetched table with every other cell
    unchanged, and no table gains a row. *)
Theorem normalization_only_adds_user_email (df : DataFrame) :
  (forall r', In r' (rows (normalize_bookings df)) ->
     exists r, In r (rows df)
       /\ forall c, c <> "user_email" -> cell r' c = cell r c)
  /\ (forall r', In r' (rows (normalize_coupons df)) ->
        exists r, In r (rows df)
          /\ forall c, c <> "user_email" -> cell r' c = cell r c)
  /\ (List.length (rows (normalize_bookings df)) <= List.length (rows df))%nat
  /\ (List.length (rows (normalize_coupons df)) <= List.length (rows df))%nat.
Proof.
  destruct (empty df) eqn:He.
  { rewrite (normalize_bookings_empty df He), (normalize_coupons_empty df He).
    repeat split; try (intros r' Hr; exists r'; split; [exact Hr | reflexivity]);
      apply Nat.le_refl. }
  destruct (resolve_user_email_some df He) as [df' [found Hr]].
  destruct (resolve_user_email_assigns df df' found Hr) as [f Hf].
  pose proof (normalize_bookings_incl df df' found He Hr) as Hb.
  pose proof (normalize_coupons_incl df df' found He Hr) as Hc.
  assert (Hrow : forall r', In r' (rows df') ->
            exists r, In r (rows df)
              /\ forall c, c <> "user_email" -> cell r' c = cell r c).
  { intros r' Hin. rewrite Hf in Hin. apply in_rows_assign in Hin.
    destruct Hin as [r [Hin ->]]. exists r. split; [exact Hin|].
    intros c Hne. apply cell_set_field_other. exact Hne. }
  assert (Hlen : List.length (rows df') = List.length (rows df)).
  { rewrite Hf, rows_assign. apply map_length_eq. }
  split; [intros r' Hin; apply Hrow, Hb, Hin|].
  split; [intros r' Hin; apply Hrow, Hc, Hin|].
  split.
  - rewrite <- Hlen. unfold normalize_bookings, bookings_try.
    rewrite He, Hr. simpl. unfold filter_status.
    assert (Hsel : forall p d, (List.length (rows (select p d))
                                <= List.length (rows d))%nat)
      by (intros p d; apply filter_length_le).
    destruct found.
    + destruct (has_column "status" (select not_test_account df')).
      * eapply Nat.le_trans; [apply Hsel | apply Hsel].
      * apply Hsel.
    + destruct (has_column "status" df'); [apply Hsel | apply Nat.le_refl].
  - rewrite <- Hlen. unfold normalize_coupons, coupons_try.
    rewrite He, Hr. simpl. destruct found; [|apply Nat.le_refl].
    destruct (mask_invertible df'); simpl;
      [apply filter_length_le | apply Nat.le_refl].
Qed.

Lemma normalization_only_adds_user_email_witness :
  exists r, In r (rows bookings_with_status)
    /\ forall c, c <> "user_email" ->
         cell (hd [] (rows (normalize_bookings bookings_with_status))) c = cell r c.
Proof.
  destruct (normalization_only_adds_user_email bookings_with_status) as [Hb _].
  apply Hb. left. reflexivity.
Defined.

(** X4.  In a non-empty bookings table that has a [status] column, every
    normalized booking has a null status: a booking with any status is
    dropped, whether or not an e-mail was resolved. *)
Theorem normalized_bookings_have_no_status (df : DataFrame) :
  empty df = false ->
  has_column "status" df = true ->
  forall r, In r (rows (normalize_bookings df)) -> cell r "status" = VNull.
Proof.
  intros He Hs r Hin.
  destruct (resolve_user_email_some df He) as [df' [found Hr]].
  destruct (resolve_user_email_assigns df df' found Hr) as [f Hf].
  unfold normalize_bookings, bookings_try in Hin. rewrite He, Hr in Hin.
  simpl in Hin. unfold filter_status in Hin.
  assert (Hcol : has_column "status" (if found then select not_test_account df'
                                      else df') = true).
  { destruct found;
      [change (has_column "status" (select not_test_account df'))
         with (has_column "status" df')|];
      rewrite Hf, has_column_assign, Hs; reflexivity. }
  rewrite Hcol in Hin. simpl in Hin. apply filter_In in Hin.
  destruct Hin as [_ Hnull]. unfold status_isnull, isnull in Hnull.
  destruct (cell r "status"); (reflexivity || discriminate).
Qed.

Lemma normalized_bookings_have_no_status_witness :
  column "user_email" (normalize_bookings bookings_with_status)
  = [VStr "bastu@example.se"]
  /\ forall r, In r (rows (normalize_bookings bookings_with_status)) ->
       cell r "status" = VNull.
Proof.
  split; [reflexivity|].
  apply (normalized_bookings_have_no_status bookings_with_status); reflexivity.
Defined.

Lemma not_test_account_spec (r : record) :
  not_test_account r = true
  <-> cell r "user_email" <> VStr "frej.andreassen@gmail.com".
Proof.
  unfold not_test_account. destruct (cell r "user_email"); try (split; [discriminate|reflexivity]).
  destruct (String.eqb_spec s "frej.andreassen@gmail.com") as [-> | Hne]; simpl.
  - split; [discriminate | intro H; exfalso; apply H; reflexivity].
  - split; [intros _ H; injection H as ->; contradiction | reflexivity].
Qed.

(** X5.  When an e-mail column was resolved, no normalized booking carries
    the operator's test address, and the match is exact: every booking with
    any other e-mail (another spelling or case, or none) and a null status is
    kept. *)
Theorem test_account_bookings_excluded (df df' : DataFrame) :
  empty df = false ->
  resolve_user_email df = Some (df', true) ->
  (forall r, In r (rows (normalize_bookings df)) ->
     cell r "user_email" <> VStr "frej.andreassen@gmail.com")
  /\ (forall r, In r (rows df') ->
        cell r "user_email" <> VStr "frej.andreassen@gmail.com" ->
        cell r "status" = VNull ->
        In r (rows (normalize_bookings df))).
Proof.
  intros He Hr. unfold normalize_bookings, bookings_try. rewrite He, Hr. simpl.
  unfold filter_status.
  change (has_column "status" (select not_test_account df'))
    with (has_column "status" df').
  split.
  - intros r Hin. apply not_test_account_spec.
    destruct (has_column "status" df'); simpl in Hin.
    + apply filter_In in Hin. destruct Hin as [Hin _].
      apply filter_In in Hin. tauto.
    + apply filter_In in Hin. tauto.
  - intros r Hin Hne Hst. apply not_test_account_spec in Hne.
    destruct (has_column "status" df'); simpl.
    + apply filter_In. split.
      * apply filter_In. tauto.
      * unfold status_isnull. rewrite Hst. reflexivity.
    + apply filter_In. tauto.
Qed.

Lemma test_account_bookings_excluded_witness :
  (forall r, In r (rows (normalize_bookings bookings_of_operator)) ->
     cell r "user_email" <> VStr "frej.andreassen@gmail.com")
  /\ column "user_email" (normalize_bookings bookings_of_operator)
     = [VStr "Frej.Andreassen@gmail.com"].
Proof.
  destruct (resolve_user_email bookings_of_operator) as [[df' [|]]|] eqn:Hr;
    try (vm_compute in Hr; discriminate).
  destruct (test_account_bookings_excluded bookings_of_operator df' eq_refl Hr)
    as [Hout _].
  split; [exact Hout | reflexivity].
Defined.

(** X6.  The coupons filter never loses a member's coupon: whatever happens
    in the filter, every coupon whose resolved e-mail is a string without
    any staff fragment stays in the normalized table. *)
Theorem member_coupons_are_kept (df df' : DataFrame) (found : bool) :
  empty df = false ->
  resolve_user_email df = Some (df', found) ->
  forall r s,
    In r (rows df') ->
    cell r "user_email" = VStr s ->
    (forall frag, In frag excluded_users -> contains frag (lower s) = false) ->
    In r (rows (normalize_coupons df)).
Proof.
  intros He Hr r s Hin Hs Hfrag.
  unfold normalize_coupons, coupons_try. rewrite He, Hr. simpl.
  destruct found; [|exact Hin].
  destruct (mask_invertible df'); simpl; [|exact Hin].
  apply filter_In. split; [exact Hin|].
  unfold is_staff, str_lower_contains. rewrite Hs.
  destruct (existsb (fun p => contains p (lower s)) excluded_users) eqn:E;
    [|reflexivity].
  apply existsb_exists in E. destruct E as [frag [Hf Hc]].
  rewrite (Hfrag frag Hf) in Hc. discriminate.
Qed.

Lemma member_coupons_are_kept_witness :
  exists r, In r (rows (normalize_coupons staff_and_member_coupons))
            /\ cell r "user_email" = VStr "bastu@example.se".
Proof.
  destruct (resolve_user_email staff_and_member_coupons) as [[df' found]|] eqn:Hr;
    [|discriminate].
  pose proof (member_coupons_are_kept staff_and_member_coupons df' found eq_refl Hr)
    as Hkeep.
  vm_compute in Hr. injection Hr as <- <-.
  eexists. split.
  - eapply (Hkeep _ "bastu@example.se").
    + right. left. reflexivity.
    + reflexivity.
    + intros frag Hin. simpl in Hin.
      destruct Hin as [<- | [<- | [<- | [<- | [<- | []]]]]]; reflexivity.
  - reflexivity.
Defined.

(** ** The script *)

Section Runs.

Variable parse_datetime : string -> option Z.
Variable parse_number : string -> option Z.

(** X7.  Without an API token (unset or empty) the run stops on the token
    error before any request: its outcome does not depend on the server.
    And a page is rendered only with a token and three non-empty fetched
    tables, the bookings and coupons still non-empty once normalized. *)
Theorem run_needs_token_and_data (token : option string) (http : network) :
  (token_set token = false ->
   forall http', main parse_datetime parse_number token http'
                 = Stopped [token_missing])
  /\ (forall log page,
        main parse_datetime parse_number token http = Rendered log page ->
        token_set token = true
        /\ empty (fst (fetch_from_directus http "bookings")) = false
        /\ empty (fst (fetch_from_directus http "coupons")) = false
        /\ empty (fst (fetch_from_directus http "slots")) = false
        /\ empty (fst (load_bookings_data http)) = false
        /\ empty (fst (load_coupons_data http)) = false).
Proof.
  split.
  - intros Ht http'. unfold main. rewrite Ht. reflexivity.
  - intros log page. unfold main.
    destruct (token_set token); [|discriminate]. simpl negb. cbv iota.
    unfold load_bookings_data, load_coupons_data, load_slots_data.
    destruct (fetch_from_directus http "bookings") as [df log1].
    destruct (fetch_from_directus http "coupons") as [cdf log2].
    destruct (fetch_from_directus http "slots") as [sdf log3]. simpl fst.
    destruct (empty (normalize_bookings df)) eqn:Eb; [discriminate|].
    destruct (empty (normalize_coupons cdf)) eqn:Ec; [discriminate|].
    destruct (empty sdf) eqn:Es; [discriminate|].
    intros _. split; [reflexivity|].
    assert (Hdf : empty df = false).
    { destruct (empty df) eqn:E; [|reflexivity].
      rewrite (normalize_bookings_empty df E) in Eb. congruence. }
    assert (Hcdf : empty cdf = false).
    { destruct (empty cdf) eqn:E; [|reflexivity].
      rewrite (normalize_coupons_empty cdf E) in Ec. congruence. }
    repeat split; assumption.
Qed.

End Runs.

Lemma run_needs_token_and_data_witness :
  main iso8601 (fun _ => None) (Some "") bookings_down = Stopped [token_missing]
  /\ main iso8601 (fun _ => None) None multiple_choices = Stopped [token_missing].
Proof.
  split.
  - apply (run_needs_token_and_data iso8601 (fun _ => None) (Some "") bookings_down).
    reflexivity.
  - apply (run_needs_token_and_data iso8601 (fun _ => None) None bookings_down).
    reflexivity.
Defined.

(** ** The slot block *)

Lemma Forall2_map_self {A : Type} (R : A -> A -> Prop) (g : A -> A) (l : list A) :
  (forall a, R a (g a)) -> Forall2 R l (map g l).
Proof. intro H. induction l; simpl; constructor; auto. Qed.

Lemma keeps_other_cells_trans (l1 l2 l3 : list record) :
  Forall2 keeps_other_cells l1 l2 -> Forall2 keeps_other_cells l2 l3 ->
  Forall2 keeps_other_cells l1 l3.
Proof.
  intro H. revert l3. induction H as [|a b l1 l2 Hab _ IH]; intros l3 H23.
  - inversion H23. constructor.
  - inversion H23 as [|b' c l2' l3' Hbc H23']; subst. constructor.
    + intros col Hcol. rewrite (Hbc col Hcol). apply Hab. exact Hcol.
    + apply IH. exact H23'.
Qed.

Lemma slot_update_refl (df : DataFrame) : slot_update df df.
Proof.
  split; [|reflexivity].
  rewrite <- (map_id (rows df)) at 2. apply Forall2_map_self.
  intros r c _. reflexivity.
Qed.

Lemma slot_update_trans (df1 df2 df3 : DataFrame) :
  slot_update df1 df2 -> slot_update df2 df3 -> slot_update df1 df3.
Proof.
  intros [H12 C12] [H23 C23]. split.
  - eapply keeps_other_cells_trans; eassumption.
  - intros c Hc. rewrite (C23 c Hc). apply C12. exact Hc.
Qed.

Lemma slot_column_other (c c' : string) :
  slot_column c = true -> slot_column c' = false -> String.eqb c' c = false.
Proof.
  intros Hc Hc'. destruct (String.eqb_spec c' c) as [-> | Hne]; [|reflexivity].
  congruence.
Qed.

Lemma slot_update_assign (c : string) (f : record -> value) (df : DataFrame) :
  slot_column c = true -> slot_update df (assign c f df).
Proof.
  intro Hc. split.
  - rewrite rows_assign. apply Forall2_map_self. intros r c' Hc'.
    rewrite cell_set_field, (slot_column_other c c' Hc Hc'). reflexivity.
  - intros c' Hc'. rewrite has_column_assign, (slot_column_other c c' Hc Hc').
    reflexivity.
Qed.

Lemma slot_update_assign_raising (c : string) (f : record -> option value)
    (df df' : DataFrame) :
  slot_column c = true -> assign_raising c f df = Some df' -> slot_update df df'.
Proof.
  intros Hc H. split.
  - apply assign_raising_spec in H. destruct H as [_ HF].
    eapply Forall2_impl; [|exact HF]. simpl.
    intros r r' [v [_ ->]] c' Hc'.
    rewrite cell_set_field, (slot_column_other c c' Hc Hc'). reflexivity.
  - intros c' Hc'. rewrite (has_column_assign_raising _ c' _ _ _ H).
    rewrite (slot_column_other c c' Hc Hc'). reflexivity.
Qed.

Lemma slot_update_three (f1 f2 f3 : record -> value) (df : DataFrame) :
  slot_update df
    (assign "slot_description" f3
       (assign "slot_end_time" f2 (assign "slot_start_time" f1 df)))
  /\ has_slot_columns
       (assign "slot_description" f3
          (assign "slot_end_time" f2 (assign "slot_start_time" f1 df))) = true.
Proof.
  split.
  - eapply slot_update_trans; [|apply slot_update_assign; reflexivity].
    eapply slot_update_trans; apply slot_update_assign; reflexivity.
  - unfold has_slot_columns. rewrite !has_column_assign. simpl.
    rewrite ?orb_true_r. reflexivity.
Qed.

Section SlotBlock.

Variable parse_datetime : string -> option Z.

Lemma slot_embedded_update (df : DataFrame) :
  slot_update df (fst (slot_embedded df))
  /\ (snd (slot_embedded df) = true -> has_slot_columns (fst (slot_embedded df)) = true).
Proof.
  unfold slot_embedded.
  destruct (has_column "slot" df && (0 <? len df));
    [|split; [apply slot_update_refl | discriminate]].
  destruct (iloc0 "slot" df) as [s|];
    [|split; [apply slot_update_refl | discriminate]].
  destruct (is_dict s); [|split; [apply slot_update_refl | discriminate]].
  destruct (has_key "start_time" s && has_key "end_time" s);
    [|split; [apply slot_update_refl | discriminate]].
  simpl. split; [|intros _]; apply slot_update_three.
Qed.

Lemma slot_dotted_update (df : DataFrame) (found : bool) :
  slot_update df (fst (slot_dotted (df, found)))
  /\ (found = true -> slot_dotted (df, found) = (df, true))
  /\ (snd (slot_dotted (df, found)) = true -> found = false ->
      has_slot_columns (fst (slot_dotted (df, found))) = true).
Proof.
  unfold slot_dotted. destruct found; simpl.
  - split; [apply slot_update_refl|]. split; [reflexivity | discriminate].
  - destruct (has_column "slot.start_time" df && has_column "slot.end_time" df); simpl.
    + split; [apply slot_update_three|]. split; [discriminate|].
      intros _ _. apply slot_update_three.
    + split; [apply slot_update_refl|]. split; discriminate.
Qed.

Lemma slot_strict_update (df df1 : DataFrame) (found found1 : bool) :
  slot_strict parse_datetime (df, found) = Some (df1, found1) ->
  slot_update df df1
  /\ (found = true -> df1 = df /\ found1 = true)
  /\ (found1 = true -> found = false -> has_slot_columns df1 = true).
Proof.
  unfold slot_strict. destruct found; simpl.
  { intro H. injection H as <- <-.
    split; [apply slot_update_refl|]. split; [tauto | discriminate]. }
  destruct (has_column "slot" df).
  - destruct (iloc0 "slot" df) as [first|]; [|discriminate]. simpl.
    destruct (is_dict first).
    + destruct (assign_raising "slot_start_time" _ df) as [d1|] eqn:E1.
      * destruct (assign_raising "slot_end_time" _ d1) as [d2|] eqn:E2.
        -- intro H. injection H as <- <-.
           pose proof (slot_update_assign_raising "slot_start_time" _ _ _ eq_refl E1) as U1.
           pose proof (slot_update_assign_raising "slot_end_time" _ _ _ eq_refl E2) as U2.
           split; [|split; [discriminate|]].
           ++ eapply slot_update_trans; [exact U1|].
              eapply slot_update_trans; [exact U2|].
              apply slot_update_assign. reflexivity.
           ++ intros _ _. unfold has_slot_columns.
              rewrite !has_column_assign.
              rewrite (has_column_assign_raising _ "slot_start_time" _ _ _ E2).
              rewrite (has_column_assign_raising _ "slot_end_time" _ _ _ E2).
              rewrite (has_column_assign_raising _ "slot_start_time" _ _ _ E1).
              simpl. rewrite ?orb_true_r. reflexivity.
        -- intro H. injection H as <- <-.
           split; [|split; discriminate].
           apply (slot_update_assign_raising "slot_start_time" _ _ _ eq_refl E1).
      * intro H. injection H as <- <-.
        split; [apply slot_update_refl | split; discriminate].
    + intro H. injection H as <- <-.
      split; [apply slot_update_refl | split; discriminate].
  - intro H. injection H as <- <-.
    split; [apply slot_update_refl | split; discriminate].
Qed.

Lemma slot_direct_update (df : DataFrame) (found : bool) :
  slot_update df (fst (slot_direct (df, found)))
  /\ (found = true -> slot_direct (df, found) = (df, true))
  /\ (snd (slot_direct (df, found)) = true -> found = false ->
      has_slot_columns (fst (slot_direct (df, found))) = true).
Proof.
  unfold slot_direct. destruct found; simpl.
  - split; [apply slot_update_refl|]. split; [reflexivity | discriminate].
  - destruct (has_column "start_time" df && (has_column "end_time" df && true)); simpl.
    + split; [apply slot_update_three|]. split; [discriminate|].
      intros _ _. apply slot_update_three.
    + split; [apply slot_update_refl|]. split; discriminate.
Qed.

Lemma slot_strategies_update (df df1 : DataFrame) (found : bool) :
  slot_strategies parse_datetime df = Some (df1, found) ->
  slot_update df df1 /\ (found = true -> has_slot_columns df1 = true).
Proof.
  unfold slot_strategies.
  destruct (slot_embedded_update df) as [U1 H1].
  destruct (slot_embedded df) as [d1 f1]. simpl in U1, H1.
  destruct (slot_dotted_update d1 f1) as [U2 [K2 H2]].
  destruct (slot_dotted (d1, f1)) as [d2 f2]. simpl in U2, H2.
  destruct (slot_strict parse_datetime (d2, f2)) as [[d3 f3]|] eqn:E3;
    [|discriminate].
  destruct (slot_strict_update d2 d3 f2 f3 E3) as [U3 [K3 H3]].
  destruct (slot_direct_update d3 f3) as [U4 [K4 H4]].
  unfold bind. destruct (slot_direct (d3, f3)) as [d4 f4]. simpl in U4, H4.
  intro H. assert (Hd : d4 = df1 /\ f4 = found) by (split; congruence).
  destruct Hd as [<- <-]. clear H. split.
  - eapply slot_update_trans; [exact U1|].
    eapply slot_update_trans; [exact U2|].
    eapply slot_update_trans; [exact U3 | exact U4].
  - intro Hf. assert (Hd2 : f2 = true -> has_slot_columns d2 = true).
    { intro F2. destruct f1.
      - specialize (K2 eq_refl). injection K2 as -> _. apply H1. reflexivity.
      - apply H2; [exact F2 | reflexivity]. }
    assert (Hd3 : f3 = true -> has_slot_columns d3 = true).
    { intro F3. destruct f2.
      - destruct (K3 eq_refl) as [-> _]. apply Hd2. reflexivity.
      - apply H3; [exact F3 | reflexivity]. }
    destruct f3.
    + specialize (K4 eq_refl). injection K4 as -> _. apply Hd3. reflexivity.
    + apply H4; [exact Hf | reflexivity].
Qed.

Lemma resolve_slot_fields_update (df df' : DataFrame) (log : list message) :
  resolve_slot_fields parse_datetime df = (df', log) ->
  slot_update df df' /\ has_slot_columns df' = true
  /\ (log = [] \/ log = [slot_warning]).
Proof.
  intro H. unfold resolve_slot_fields in H.
  destruct (slot_strategies parse_datetime df) as [[df1 found]|] eqn:Es.
  - destruct (slot_strategies_update df df1 found Es) as [U Hcols].
    destruct found; simpl in H.
    + injection H as <- <-. split; [exact U|]. split; [auto | left; reflexivity].
    + destruct (slot_placeholder parse_datetime df1) as [df2|] eqn:Ep.
      * injection H as <- <-. unfold slot_placeholder in Ep.
        destruct (has_column "date_created" df1).
        -- destruct (assign_raising "slot_start_time" _ df1) as [d1|] eqn:E1;
             [|discriminate]. simpl in Ep.
           destruct (assign_raising "slot_end_time" _ d1) as [d2|] eqn:E2;
             [|discriminate]. simpl in Ep. injection Ep as <-.
           pose proof (slot_update_assign_raising "slot_start_time" _ _ _ eq_refl E1) as U1.
           pose proof (slot_update_assign_raising "slot_end_time" _ _ _ eq_refl E2) as U2.
           split; [|split; [|right; reflexivity]].
           ++ eapply slot_update_trans; [exact U|].
              eapply slot_update_trans; [exact U1|].
              eapply slot_update_trans; [exact U2|].
              apply slot_update_assign. reflexivity.
           ++ unfold has_slot_columns. rewrite !has_column_assign.
              rewrite (has_column_assign_raising _ "slot_start_time" _ _ _ E2).
              rewrite (has_column_assign_raising _ "slot_end_time" _ _ _ E2).
              rewrite (has_column_assign_raising _ "slot_start_time" _ _ _ E1).
              simpl. rewrite ?orb_true_r. reflexivity.
        -- simpl in Ep. injection Ep as <-.
           split; [|split; [apply slot_update_three | right; reflexivity]].
           eapply slot_update_trans; [exact U | apply slot_update_three].
      * injection H as <- <-. unfold slot_error_placeholder.
        split; [|split; [apply slot_update_three | right; reflexivity]].
        eapply slot_update_trans; [exact U | apply slot_update_three].
  - injection H as <- <-. unfold slot_error_placeholder.
    split; [apply slot_update_three|].
    split; [apply slot_update_three | left; reflexivity].
Qed.

(** X8.  The slot block never fails and never touches anything but its
    three columns: whatever the shape of the bookings table, the result has
    the columns [slot_start_time], [slot_end_time] and [slot_description],
    the same number of rows, every other cell and column as before, and at
    most the one warning about missing slot fields. *)
Theorem slot_block_adds_three_columns (df df' : DataFrame) (log : list message) :
  resolve_slot_fields parse_datetime df = (df', log) ->
  has_column "slot_start_time" df' = true
  /\ has_column "slot_end_time" df' = true
  /\ has_column "slot_description" df' = true
  /\ List.length (rows df') = List.length (rows df)
  /\ Forall2 keeps_other_cells (rows df) (rows df')
  /\ (forall c, slot_column c = false -> has_column c df' = has_column c df)
  /\ (log = [] \/ log = [slot_warning]).
Proof.
  intro H.
  destruct (resolve_slot_fields_update df df' log H) as [[HF Hc] [H3 Hlog]].
  unfold has_slot_columns in H3. apply andb_true_iff in H3.
  destruct H3 as [H3 Hd]. apply andb_true_iff in H3. destruct H3 as [Hs He].
  repeat split; try assumption.
  symmetry. apply (Forall2_length HF).
Qed.

(** X9.  The embedded slot wins: when the first booking's [slot] is an
    object with [start_time] and [end_time], the three columns are read
    from the embedded objects, row by row (null, and an empty description,
    where a row's slot is not an object), nothing is warned, and flat or
    bare slot columns are not consulted. *)
Theorem embedded_slot_takes_priority (df : DataFrame) (first : value) :
  has_column "slot" df = true ->
  iloc0 "slot" df = Some first ->
  is_dict first = true ->
  has_key "start_time" first = true ->
  has_key "end_time" first = true ->
  exists df',
    resolve_slot_fields parse_datetime df = (df', [])
    /\ column "slot_start_time" df' = map (slot_get "start_time") (rows df)
    /\ column "slot_end_time" df' = map (slot_get "end_time") (rows df)
    /\ column "slot_description" df' = map slot_description_of (rows df).
Proof.
  intros Hc Hi Hd Hs He.
  assert (Hlen : (0 <? len df) = true).
  { unfold iloc0 in Hi. unfold len. destruct (rows df); [discriminate|].
    simpl. reflexivity. }
  assert (Hstrat : slot_strategies parse_datetime df
                   = Some (assign "slot_description" slot_description_of
                             (assign "slot_end_time" (slot_get "end_time")
                                (assign "slot_start_time" (slot_get "start_time") df)),
                           true)).
  { unfold slot_strategies, slot_embedded.
    rewrite Hc, Hlen, Hi, Hd, Hs, He. reflexivity. }
  eexists. unfold resolve_slot_fields. rewrite Hstrat. simpl negb. cbv iota.
  split; [reflexivity|].
  unfold column. rewrite !rows_assign, !map_map.
  repeat split; apply map_ext; intro r; unfold slot_get, slot_description_of;
    rewrite !cell_set_field; simpl; rewrite ?cell_set_field; reflexivity.
Qed.

End SlotBlock.

Lemma slot_block_adds_three_columns_witness :
  exists df',
    fst (resolve_slot_fields iso8601 bookings_without_slot) = df'
    /\ has_column "slot_start_time" df' = true
    /\ List.length (rows df') = 2%nat.
Proof.
  destruct (resolve_slot_fields iso8601 bookings_without_slot) as [df' log] eqn:H.
  destruct (slot_block_adds_three_columns iso8601 _ _ _ H) as [Hs [_ [_ [Hlen _]]]].
  exists df'. split; [reflexivity|]. split; [exact Hs | exact Hlen].
Defined.

Lemma embedded_slot_takes_priority_witness :
  exists df',
    resolve_slot_fields iso8601 bookings_with_both_shapes = (df', [])
    /\ column "slot_start_time" df' = [VStr "2025-01-10T10:00:00"].
Proof.
  destruct (embedded_slot_takes_priority iso8601 bookings_with_both_shapes _
              eq_refl eq_refl eq_refl eq_refl eq_refl)
    as [df' [Hr [Hstart _]]].
  exists df'. split; [exact Hr | exact Hstart].
Defined.

(** ** Dates and durations *)

Section Durations.

Variable parse_datetime : string -> option Z.

(** Reading a date twice is reading it once. *)
Lemma to_datetime_is_idempotent (x y : value) :
  to_datetime parse_datetime x = Some y ->
  is_datetime y /\ to_datetime parse_datetime y = Some y.
Proof.
  destruct x; simpl; intro H; try discriminate.
  - injection H as <-. split; [exact I | reflexivity].
  - injection H as <-. split; [exact I | reflexivity].
  - destruct (parse_datetime s) as [t|]; [|discriminate]. simpl in H.
    injection H as <-. split; [exact I | reflexivity].
  - injection H as <-. split; [exact I | reflexivity].
Qed.

End Durations.

Lemma round_half_even_nearest (n d : Z) :
  0 < d -> 2 * Z.abs (n - round_half_even n d * d) <= d.
Proof.
  intro Hd. unfold round_half_even.
  pose proof (Z.div_mod n d ltac:(lia)) as Hdm.
  pose proof (Z.mod_pos_bound n d Hd) as Hr.
  set (q := n / d) in *. set (r := n mod d) in *.
  destruct (2 * r <? d) eqn:E1.
  - apply Z.ltb_lt in E1. replace (n - q * d) with r by lia. lia.
  - apply Z.ltb_ge in E1. destruct (d <? 2 * r) eqn:E2.
    + apply Z.ltb_lt in E2. replace (n - (q + 1) * d) with (r - d) by lia. lia.
    + apply Z.ltb_ge in E2. destruct (Z.even q).
      * replace (n - q * d) with r by lia. lia.
      * replace (n - (q + 1) * d) with (r - d) by lia. lia.
Qed.

Lemma round_half_even_exact (k d : Z) : 0 < d -> round_half_even (k * d) d = k.
Proof.
  intro Hd. unfold round_half_even.
  rewrite Z.div_mul by lia. rewrite Z.mod_mul by lia.
  destruct (2 * 0 <? d) eqn:E; [reflexivity | apply Z.ltb_ge in E; lia].
Qed.

Lemma np_round_slot_length (e s : Z) :
  np_round (slot_length_hours e s) = round_half_even (e - s) ns_per_hour.
Proof. reflexivity. Qed.

(** X10.  The slot length is the whole number of hours nearest to the
    duration, at most half an hour away from it, and exactly [k] for a slot
    of [k] hours; it is undefined exactly when the start or the end is not a
    Timestamp. *)
Theorem slot_length_is_nearest_hour (r : record) :
  (forall s e, cell r "slot_start_time" = VTime s ->
               cell r "slot_end_time" = VTime e ->
     exists n, slot_length r = Some n
               /\ 2 * Z.abs ((e - s) - n * ns_per_hour) <= ns_per_hour
               /\ (forall k, e = s + Timedelta_hours k -> n = k))
  /\ (slot_length r = None <->
      (forall s, cell r "slot_start_time" <> VTime s)
      \/ (forall e, cell r "slot_end_time" <> VTime e)).
Proof.
  unfold slot_length. split.
  - intros s e -> ->. eexists. split; [reflexivity|].
    rewrite np_round_slot_length. split.
    + apply round_half_even_nearest. reflexivity.
    + intros k ->. unfold Timedelta_hours.
      replace (s + k * ns_per_hour - s) with (k * ns_per_hour) by lia.
      apply round_half_even_exact. reflexivity.
  - destruct (cell r "slot_end_time") as [|b1|n1|s1|e|f1|l1];
      destruct (cell r "slot_start_time") as [|b0|n0|s0|s|f0|l0];
      split; try (intros _; (left; intros ? ?; discriminate)
                            || (right; intros ? ?; discriminate));
      try reflexivity; try discriminate.
    intros [H | H]; [exfalso; apply (H s) | exfalso; apply (H e)]; reflexivity.
Qed.

Lemma slot_length_is_nearest_hour_witness :
  slot_length [("slot_start_time", VTime 0);
               ("slot_end_time", VTime (Timedelta_hours 3))] = Some 3.
Proof.
  destruct (slot_length_is_nearest_hour
              [("slot_start_time", VTime 0);
               ("slot_end_time", VTime (Timedelta_hours 3))]) as [H _].
  destruct (H 0 (Timedelta_hours 3) eq_refl eq_refl) as [n [Hn [_ Hk]]].
  rewrite Hn. f_equal. apply Hk. reflexivity.
Defined.

(** ** Summary metrics *)


Lemma summary_spec (df slots_df : DataFrame) (log : list message) (s : Summary) :
  summary df slots_df = (log, Some s) ->
  exists latest,
    series_max (column "slot_start_time" df) = Some latest
    /\ log = (st_info ("Analys uppdaterad till: " ++ strftime_ymd latest)
              :: (if has_column "booked_seats" df then [] else [booked_seats_warning]))
    /\ total_bookings s = len df
    /\ (if has_column "booked_seats" df
        then sum_cells (column "booked_seats" df) = Some (total_booked_seats s)
        else total_booked_seats s = len df)
    /\ full_sauna_bookings s = full_sauna_count df
    /\ seats_in_full_bookings s = full_sauna_count df * 10
    /\ sum_cells (column "total_capacity" slots_df) = Some (total_capacity s)
    /\ sum_cells (column "used_seats" slots_df) = Some (total_used_seats s)
    /\ (total_capacity s <= 0 -> total_utilization s = 0%Q).
Proof.
  unfold summary, bindM, lift, tell, ret, full_sauna_count.
  destruct (series_max (column "slot_start_time" df)) as [latest|]; [|discriminate].
  destruct (has_column "booked_seats" df).
  - destruct (sum_cells (column "booked_seats" df)) as [tbs|]; [|discriminate].
    destruct (sum_cells (column "total_capacity" slots_df)) as [tc|]; [|discriminate].
    destruct (sum_cells (column "used_seats" slots_df)) as [tu|]; [|discriminate].
    destruct (0 <? tc) eqn:E.
    + destruct (true_div tu tc); [|discriminate].
      intro H. injection H as <- <-. exists latest. simpl.
      repeat split. apply Z.ltb_lt in E. lia.
    + intro H. injection H as <- <-. exists latest. simpl. repeat split.
  - destruct (sum_cells (column "total_capacity" slots_df)) as [tc|]; [|discriminate].
    destruct (sum_cells (column "used_seats" slots_df)) as [tu|]; [|discriminate].
    destruct (0 <? tc) eqn:E.
    + destruct (true_div tu tc); [|discriminate].
      intro H. injection H as <- <-. exists latest. simpl.
      repeat split. apply Z.ltb_lt in E. lia.
    + intro H. injection H as <- <-. exists latest. simpl. repeat split.
Qed.









(** ** Embedded bookings *)

Lemma count_fold_shift (items : list value) (acc : Z) :
  fold_left
    (fun total booking =>
       if is_dict booking && has_key "booked_seats" booking then
         match dict_get "booked_seats" booking with
         | VNum n => total + n
         | VBool b => total + Z.b2z b
         | _ => total
         end
       else total) items acc
  = acc + zsum (map counted_seats items).
Proof.
  revert acc. induction items as [|x items IH]; intro acc; simpl.
  - unfold zsum. simpl. lia.
  - rewrite IH. unfold counted_seats at 2.
    change (zsum (?a :: ?l)) with (a + zsum l).
    destruct (is_dict x && has_key "booked_seats" x); [|lia].
    destruct (dict_get "booked_seats" x); lia.
Qed.

(** X13.  [count_booked_seats] adds up the numeric seat counts of the
    embedded bookings and skips every entry that is not an object, lacks
    [booked_seats] or holds something that is not a number; it is 0 for an
    empty list and for anything that is not a list, it is additive over
    concatenated lists, and it is not negative when no counted entry is. *)
Theorem count_booked_seats_sums_valid_entries :
  (forall items, count_booked_seats (VList items) = zsum (map counted_seats items))
  /\ (forall x, (forall items, x <> VList items) -> count_booked_seats x = 0)
  /\ count_booked_seats (VList []) = 0
  /\ (forall a b,
        count_booked_seats (VList (a ++ b))
        = count_booked_seats (VList a) + count_booked_seats (VList b))
  /\ (forall x items,
        is_dict x && has_key "booked_seats" x = false ->
        count_booked_seats (VList (x :: items)) = count_booked_seats (VList items))
  /\ (forall items,
        (forall x, In x items -> 0 <= counted_seats x) ->
        0 <= count_booked_seats (VList items)).
Proof.
  assert (Hsum : forall items,
             count_booked_seats (VList items) = zsum (map counted_seats items)).
  { intro items. unfold count_booked_seats. rewrite count_fold_shift. lia. }
  split; [exact Hsum|]. split; [|split; [reflexivity|split; [|split]]].
  - intros x Hx. destruct x; try reflexivity. exfalso. apply (Hx items). reflexivity.
  - intros a b. rewrite !Hsum, map_app. unfold zsum.
    induction a as [|x a IH]; simpl; [reflexivity|].
    rewrite IH. lia.
  - intros x items Hx. rewrite !Hsum. simpl map.
    change (zsum (?a :: ?l)) with (a + zsum l).
    unfold counted_seats at 1. rewrite Hx. lia.
  - intros items Hpos. rewrite Hsum.
    induction items as [|x items IH]; [unfold zsum; simpl; lia|].
    simpl map. change (zsum (?a :: ?l)) with (a + zsum l).
    assert (0 <= counted_seats x) by (apply Hpos; left; reflexivity).
    assert (0 <= zsum (map counted_seats items))
      by (apply IH; intros y Hy; apply Hpos; right; exact Hy).
    lia.
Qed.

Lemma count_booked_seats_sums_valid_entries_witness :
  count_booked_seats
    (VList [VStr "7"; VDict [("booked_seats", VNum 3)];
            VDict [("booked_seats", VStr "2")]; VDict [("id", VNum 9)]]) = 3.
Proof.
  destruct count_booked_seats_sums_valid_entries as [_ [_ [_ [_ [Hskip _]]]]].
  rewrite Hskip by reflexivity. reflexivity.
Defined.

(** ** Monthly capacity and order *)

Lemma sum_cells_const (c : string) (n : Z) (rs : list record) :
  (forall r, In r rs -> cell r c = VNum n) ->
  sum_cells (map (fun r => cell r c) rs) = Some (Z.of_nat (List.length rs) * n).
Proof.
  induction rs as [|r rs IH]; intro H.
  - reflexivity.
  - change (map (fun r => cell r c) (r :: rs))
      with (cell r c :: map (fun r => cell r c) rs).
    change (sum_cells (?x :: ?xs))
      with (bind (sum_cells xs)
              (fun s => match x with
                        | VNum n => Some (n + s)
                        | VBool b => Some (Z.b2z b + s)
                        | VNull => Some s
                        | VStr _ | VTime _ | VDict _ | VList _ => None
                        end)).
    rewrite IH by (intros x Hx; apply H; right; exact Hx).
    rewrite (H r (or_introl eq_refl)). unfold bind. f_equal.
    change (List.length (r :: rs)) with (S (List.length rs)).
    rewrite Nat2Z.inj_succ. lia.
Qed.

Section MonthlyCapacity.

Variable parse_datetime : string -> option Z.
Variable parse_number : string -> option Z.

Lemma monthly_capacity
    (slots_df df : DataFrame) (log : list message) :
  process_slots parse_datetime slots_df = (log, Some df) ->
  forall row,
    In row (snd (fst (monthly_slots parse_datetime parse_number df))) ->
    MonthlySlots.total_capacity row
    = Z.of_nat (List.length
                  (group (slots_key row)
                     (rows (prepare_slots parse_datetime parse_number df)))) * 10
    /\ 10 <= MonthlySlots.total_capacity row
    /\ MonthlySlots.unused_seats row + MonthlySlots.used_seats row
       = MonthlySlots.total_capacity row.
Proof.
  intros Hp row Hin.
  destruct (monthly_slots_table parse_datetime parse_number df)
    as [table [Heq [Hfw _]]].
  rewrite Heq in Hin. simpl in Hin.
  destruct (Hfw row Hin) as [Hk [_ [_ [Hcap [_ [Hun _]]]]]].
  set (g := group (slots_key row)
              (rows (prepare_slots parse_datetime parse_number df))) in *.
  assert (Hten : forall r, In r g -> cell r "total_capacity" = VNum 10).
  { intros r Hr. apply in_group_iff in Hr. destruct Hr as [Hr _].
    destruct (prepared_slot_cells _ _ _ _ _ _ Hp Hr) as [_ [_ [Htc _]]].
    exact Htc. }
  rewrite (sum_cells_const "total_capacity" 10 g Hten) in Hcap.
  assert (Hc : MonthlySlots.total_capacity row = Z.of_nat (List.length g) * 10)
    by congruence.
  assert (Hlen : (0 < List.length g)%nat).
  { pose proof (group_nonempty _ _ Hk) as Hne. fold g in Hne.
    destruct g; [contradiction | simpl; lia]. }
  split; [exact Hc|]. split; lia.
Qed.

(** X14.  In [monthly_slots] the capacity of a month is ten seats for each
    slot of the month, so at least ten, whatever the slots table holds; and
    unused seats and used seats always add up to the capacity. *)
Theorem monthly_capacity_is_ten_per_slot
    (slots_df df : DataFrame) (log : list message) :
  process_slots parse_datetime slots_df = (log, Some df) ->
  forall row,
    In row (snd (fst (monthly_slots parse_datetime parse_number df))) ->
    MonthlySlots.total_capacity row
    = Z.of_nat (List.length
                  (group (slots_key row)
                     (rows (prepare_slots parse_datetime parse_number df)))) * 10
    /\ 10 <= MonthlySlots.total_capacity row
    /\ MonthlySlots.unused_seats row + MonthlySlots.used_seats row
       = MonthlySlots.total_capacity row.
Proof. apply monthly_capacity. Qed.

End MonthlyCapacity.

Lemma monthly_capacity_is_ten_per_slot_witness :
  exists df,
    snd (process_slots iso8601 january_slots) = Some df
    /\ forall row,
         In row (snd (fst (monthly_slots iso8601 (fun _ => None) df))) ->
         10 <= MonthlySlots.total_capacity row.
Proof.
  destruct (process_slots iso8601 january_slots) as [log [df|]] eqn:Hp;
    [|vm_compute in Hp; discriminate].
  exists df. split; [reflexivity|]. intros row Hin.
  apply (monthly_capacity_is_ten_per_slot iso8601 (fun _ => None)
           january_slots df log Hp row Hin).
Defined.

Lemma sorted_distinct {A B : Type} (R : A -> A -> Prop) (f : A -> B) (l : list A) :
  StronglySorted R l -> NoDup (map f l) ->
  StronglySorted (fun x y => R x y /\ f x <> f y) l.
Proof.
  induction 1 as [|a l Hs IH Hall]; intro Hnd; [constructor|].
  simpl in Hnd. apply NoDup_cons_iff in Hnd. destruct Hnd as [Hnin Hnd].
  constructor; [apply IH; exact Hnd|].
  apply Forall_forall. intros x Hx. rewrite Forall_forall in Hall.
  split; [apply Hall; exact Hx|].
  intro E. apply Hnin. rewrite E. apply in_map. exact Hx.
Qed.

Lemma StronglySorted_impl {A : Type} (R R' : A -> A -> Prop) (l : list A) :
  (forall x y, In x l -> In y l -> R x y -> R' x y) ->
  StronglySorted R l -> StronglySorted R' l.
Proof.
  intros H Hs. induction Hs as [|a l Hs IH Hall]; [constructor|].
  constructor.
  - apply IH. intros x y Hx Hy. apply H; right; assumption.
  - apply Forall_forall. intros x Hx. rewrite Forall_forall in Hall.
    apply H; [left; reflexivity | right; exact Hx | apply Hall; exact Hx].
Qed.

Lemma month_order_spec (a b : key) :
  1 <= snd a <= 12 -> 1 <= snd b <= 12 ->
  (fst a * 12 + snd a < fst b * 12 + snd b <-> key_lt a b).
Proof. intros Ha Hb. unfold key_lt. rewrite key_ltb_spec. lia. Qed.

Lemma chronological_table (df : DataFrame) (table : list MonthlyBookings.row) :
  monthly_bookings df = Some table ->
  (forall row, In row table -> 1 <= MonthlyBookings.month row <= 12) ->
  StronglySorted earlier_month table.
Proof.
  intros Ht Hm.
  pose proof (sorted_distinct _ booking_key table
                (monthly_bookings_sorted df table Ht)
                (monthly_bookings_NoDup df table Ht)) as Hs.
  eapply StronglySorted_impl; [|exact Hs].
  intros x y Hx Hy [Hle Hne]. unfold earlier_month.
  pose proof (Hm x Hx) as Hmx. pose proof (Hm y Hy) as Hmy.
  destruct (proj1 (monthly_bookings_in df table x Ht) Hx) as [_ [_ [_ [_ Hox]]]].
  destruct (proj1 (monthly_bookings_in df table y Ht) Hy) as [_ [_ [_ [_ Hoy]]]].
  unfold by_key in Hle. rewrite Hox, Hoy in Hle.
  apply month_order_spec; [exact Hmx | exact Hmy|].
  assert (Hneq : fst (booking_key x) * 12 + snd (booking_key x)
                 <> fst (booking_key y) * 12 + snd (booking_key y)).
  { intro E. apply Hne. unfold booking_key in *. simpl in *. f_equal; lia. }
  lia.
Qed.

(** X15.  For months between 1 and 12, [year * 12 + month] orders the
    periods as the calendar does; so a [monthly_bookings] table whose months
    are calendar months is in strictly chronological order, every month
    before the months that follow it. *)
Theorem month_order_is_chronological :
  (forall a b : key,
     1 <= snd a <= 12 -> 1 <= snd b <= 12 ->
     (fst a * 12 + snd a < fst b * 12 + snd b <-> key_lt a b))
  /\ forall df table,
       monthly_bookings df = Some table ->
       (forall row, In row table -> 1 <= MonthlyBookings.month row <= 12) ->
       StronglySorted earlier_month table.
Proof. split; [exact month_order_spec | exact chronological_table]. Qed.

Lemma month_order_is_chronological_witness :
  exists table,
    monthly_bookings bookings_around_the_boundary = Some table
    /\ StronglySorted earlier_month table.
Proof.
  destruct (monthly_bookings bookings_around_the_boundary) as [table|] eqn:Ht;
    [|vm_compute in Ht; discriminate].
  exists table. split; [reflexivity|].
  destruct month_order_is_chronological as [_ H].
  apply (H bookings_around_the_boundary table Ht).
  intros row Hin. vm_compute in Ht. injection Ht as <-. simpl in Hin.
  destruct Hin as [<- | [<- | []]]; simpl; lia.
Defined.

(** ** The enriched bookings table *)

Lemma float_cell_num_cell (x : option Z) : float_cell (num_cell x) = x.
Proof. destruct x; reflexivity. Qed.

Section ProcessedBookings.

Variable parse_datetime : string -> option Z.

Lemma to_datetime_datetime (x y : value) :
  to_datetime parse_datetime x = Some y -> is_datetime y.
Proof.
  destruct x; simpl; intro H; try discriminate;
    try (injection H as <-; exact I).
  destruct (parse_datetime s); [|discriminate]. simpl in H.
  injection H as <-. exact I.
Qed.

Lemma assign_raising_length (c : string) (f : record -> option value)
    (df df' : DataFrame) :
  assign_raising c f df = Some df' ->
  List.length (rows df') = List.length (rows df).
Proof.
  intro H. apply assign_raising_spec in H. destruct H as [_ HF].
  symmetry. apply (Forall2_length HF).
Qed.

Lemma process_bookings_shape (df df' : DataFrame) (log : list message) :
  process_bookings parse_datetime df = (log, Some df') ->
  exists d1 d2 d3 pm,
    List.length (rows d1) = List.length (rows df)
    /\ assign_raising "slot_start_time"
         (fun r => to_datetime parse_datetime (cell r "slot_start_time")) d1 = Some d2
    /\ assign_raising "slot_end_time"
         (fun r => to_datetime parse_datetime (cell r "slot_end_time")) d2 = Some d3
    /\ (forall r, In (pm r) payment_labels)
    /\ df' = assign "slot_length_category"
               (fun r => VStr (slot_length_category (float_cell (cell r "slot_length"))))
               (assign "slot_length" (fun r => num_cell (slot_length r))
                  (assign "payment_method" pm
                     (assign "hour_of_day"
                        (fun r => dt_field dt_hour (cell r "slot_start_time"))
                        (assign "year"
                           (fun r => dt_field dt_year (cell r "slot_start_time"))
                           (assign "month"
                              (fun r => dt_field dt_month (cell r "slot_start_time"))
                              d3))))).
Proof.
  unfold process_bookings, bindM, lift, ret, tell.
  destruct (if has_column "date_created" df then _ else Some df) as [d0|] eqn:E0;
    [|discriminate].
  destruct (resolve_slot_fields parse_datetime d0) as [d1 log1] eqn:E1.
  destruct (assign_raising "slot_start_time" _ d1) as [d2|] eqn:E2; [|discriminate].
  destruct (assign_raising "slot_end_time" _ d2) as [d3|] eqn:E3; [|discriminate].
  assert (Hlen : List.length (rows d1) = List.length (rows df)).
  { destruct (resolve_slot_fields_update parse_datetime d0 d1 log1 E1) as [[HF _] _].
    rewrite <- (Forall2_length HF).
    destruct (has_column "date_created" df).
    - apply (assign_raising_length _ _ _ _ E0).
    - injection E0 as <-. reflexivity. }
  match goal with
  | |- context [if has_column "coupon" ?d then _ else _] =>
      destruct (has_column "coupon" d)
  end.
  - intro H. injection H as _ <-.
    exists d1, d2, d3, (fun r => payment_method (cell r "coupon")).
    split; [exact Hlen|]. split; [exact E2|]. split; [exact E3|].
    split; [|reflexivity].
    intro r. unfold payment_method. destruct (negb (isnull (cell r "coupon")));
      simpl; tauto.
  - intro H. injection H as _ <-.
    exists d1, d2, d3, (fun _ => VStr "Unknown").
    split; [exact Hlen|]. split; [exact E2|]. split; [exact E3|].
    split; [|reflexivity]. intros _. simpl. tauto.
Qed.

Lemma processed_rows (df df' : DataFrame) (log : list message) :
  process_bookings parse_datetime df = (log, Some df') ->
  List.length (rows df') = List.length (rows df)
  /\ forall r, In r (rows df') ->
       is_datetime (cell r "slot_start_time")
       /\ is_datetime (cell r "slot_end_time")
       /\ cell r "year" = dt_field dt_year (cell r "slot_start_time")
       /\ cell r "month" = dt_field dt_month (cell r "slot_start_time")
       /\ cell r "hour_of_day" = dt_field dt_hour (cell r "slot_start_time")
       /\ In (cell r "payment_method") payment_labels
       /\ cell r "slot_length" = num_cell (slot_length r)
       /\ cell r "slot_length_category" = VStr (slot_length_category (slot_length r))
       /\ (cell r "slot_start_time" = VNull ->
           group_key r = None
           /\ cell r "slot_length_category" = VStr "3+ timmar").
Proof.
  intro H.
  destruct (process_bookings_shape df df' log H)
    as [d1 [d2 [d3 [pm [Hlen [E2 [E3 [Hpm ->]]]]]]]].
  split.
  { rewrite !rows_assign, !map_length_eq.
    rewrite (assign_raising_length _ _ _ _ E3), (assign_raising_length _ _ _ _ E2).
    exact Hlen. }
  intros r Hr.
  apply in_rows_assign in Hr. destruct Hr as [r8 [Hr ->]].
  apply in_rows_assign in Hr. destruct Hr as [r7 [Hr ->]].
  apply in_rows_assign in Hr. destruct Hr as [r6 [Hr ->]].
  apply in_rows_assign in Hr. destruct Hr as [r5 [Hr ->]].
  apply in_rows_assign in Hr. destruct Hr as [r4 [Hr ->]].
  apply in_rows_assign in Hr. destruct Hr as [r3 [Hr ->]].
  destruct (in_rows_assign_raising _ _ _ _ _ E3 Hr) as [r2 [v3 [Hr2 [Hv3 ->]]]].
  destruct (in_rows_assign_raising _ _ _ _ _ E2 Hr2) as [r1 [v2 [_ [Hv2 ->]]]].
  pose proof (to_datetime_datetime _ _ Hv2) as D2.
  pose proof (to_datetime_datetime _ _ Hv3) as D3.
  unfold group_key, slot_length.
  rewrite !cell_set_field. simpl.
  rewrite !float_cell_num_cell.
  split; [exact D2|]. split; [exact D3|].
  split; [reflexivity|]. split; [reflexivity|]. split; [reflexivity|].
  split; [apply Hpm|]. split; [reflexivity|]. split; [reflexivity|].
  intros ->. simpl. split; [reflexivity|].
  destruct v3; reflexivity.
Qed.

(** X16.  When the bookings block succeeds, the table keeps its rows and
    every row is enriched consistently: both slot times are Timestamps or
    NaT; year, month and hour are those of the start (missing when it is
    NaT); the payment method is one of the three labels; the slot length
    and its category are those of the two times.  A booking without start
    time falls into "3+ timmar" and into no (year, month) group. *)
Theorem processed_bookings_are_enriched (df df' : DataFrame) (log : list message) :
  process_bookings parse_datetime df = (log, Some df') ->
  List.length (rows df') = List.length (rows df)
  /\ forall r, In r (rows df') ->
       is_datetime (cell r "slot_start_time")
       /\ is_datetime (cell r "slot_end_time")
       /\ cell r "year" = dt_field dt_year (cell r "slot_start_time")
       /\ cell r "month" = dt_field dt_month (cell r "slot_start_time")
       /\ cell r "hour_of_day" = dt_field dt_hour (cell r "slot_start_time")
       /\ In (cell r "payment_method") payment_labels
       /\ cell r "slot_length" = num_cell (slot_length r)
       /\ cell r "slot_length_category" = VStr (slot_length_category (slot_length r))
       /\ (cell r "slot_start_time" = VNull ->
           group_key r = None
           /\ cell r "slot_length_category" = VStr "3+ timmar").
Proof. apply processed_rows. Qed.

End ProcessedBookings.

Lemma processed_bookings_are_enriched_witness :
  exists df',
    snd (process_bookings iso8601 raw_bookings) = Some df'
    /\ List.length (rows df') = 2%nat
    /\ forall r, In r (rows df') -> In (cell r "payment_method") payment_labels.
Proof.
  destruct (process_bookings iso8601 raw_bookings) as [log [df'|]] eqn:H;
    [|vm_compute in H; discriminate].
  destruct (processed_bookings_are_enriched iso8601 raw_bookings df' log H)
    as [Hlen Hrows].
  exists df'. split; [reflexivity|]. split; [exact Hlen|].
  intros r Hin. apply (Hrows r Hin).
Defined.

(** ** Calendar features *)

Lemma dt_hour_range (t : Z) : 0 <= dt_hour t <= 23.
Proof.
  unfold dt_hour.
  assert (Hd : ns_per_day = 24 * ns_per_hour) by reflexivity.
  assert (Hh : 0 < ns_per_hour) by reflexivity.
  pose proof (Z.mod_pos_bound t ns_per_day ltac:(reflexivity)) as Hm.
  split.
  - apply Z.div_pos; lia.
  - apply Z.lt_succ_r. apply Z.div_lt_upper_bound; lia.
Qed.

Lemma dt_month_range (t : Z) : 1 <= dt_month t <= 12.
Proof.
  unfold dt_month, civil_from_days. cbv zeta. cbn [fst snd].
  set (z' := t / ns_per_day + 719468).
  set (era := z' / 146097).
  set (doe := z' - era * 146097).
  assert (Hdoe : 0 <= doe <= 146096).
  { unfold doe, era. pose proof (Z.mod_pos_bound z' 146097 ltac:(lia)).
    pose proof (Z.div_mod z' 146097 ltac:(lia)). lia. }
  clearbody doe. clear z' era.
  set (yoe := (doe - doe / 1460 + doe / 36524 - doe / 146096) / 365).
  set (doy := doe - (365 * yoe + yoe / 4 - yoe / 100)).
  assert (Hdoy : 0 <= doy <= 365).
  { unfold doy, yoe. Z.to_euclidean_division_equations. lia. }
  clearbody doy.
  set (mp := (5 * doy + 2) / 153).
  assert (0 <= mp <= 11) by (unfold mp; Z.to_euclidean_division_equations; lia).
  destruct (mp <? 10) eqn:E; [apply Z.ltb_lt in E | apply Z.ltb_ge in E]; lia.
Qed.

Section Calendar.

Variable parse_datetime : string -> option Z.

(** X17.  In the enriched bookings table every month is missing or between
    1 and 12 and every hour is missing or between 0 and 23, missing exactly
    when the start time is; therefore the monthly table computed from it is
    in strictly chronological order. *)
Theorem calendar_features_in_range (df df' : DataFrame) (log : list message) :
  process_bookings parse_datetime df = (log, Some df') ->
  (forall r, In r (rows df') ->
     calendar_month (cell r "month")
     /\ hour_of_the_day (cell r "hour_of_day")
     /\ (cell r "month" = VNull <-> cell r "slot_start_time" = VNull)
     /\ (group_key r = None <-> cell r "slot_start_time" = VNull))
  /\ forall table,
       monthly_bookings df' = Some table -> StronglySorted earlier_month table.
Proof.
  intro H. destruct (processed_rows parse_datetime df df' log H) as [_ Hrows].
  assert (Hcells : forall r, In r (rows df') ->
            calendar_month (cell r "month")
            /\ hour_of_the_day (cell r "hour_of_day")
            /\ (cell r "month" = VNull <-> cell r "slot_start_time" = VNull)
            /\ (group_key r = None <-> cell r "slot_start_time" = VNull)).
  { intros r Hr.
    destruct (Hrows r Hr) as [Ds [_ [Hy [Hm [Hh _]]]]].
    unfold group_key. rewrite Hy, Hm, Hh.
    destruct (cell r "slot_start_time") as [|b|n|s|t|f|l]; simpl in Ds;
      try contradiction; simpl.
    - split; [left; reflexivity|]. split; [left; reflexivity|]. tauto.
    - split; [right; exists (dt_month t); split; [reflexivity | apply dt_month_range]|].
      split; [right; exists (dt_hour t); split; [reflexivity | apply dt_hour_range]|].
      split; split; discriminate. }
  split; [exact Hcells|].
  intros table Ht. apply (chronological_table df' table Ht).
  intros row Hin.
  destruct (proj1 (monthly_bookings_in df' table row Ht) Hin) as [Hk _].
  apply in_group_keys in Hk. destruct Hk as [r [Hr Hkey]].
  destruct (Hcells r Hr) as [Hmonth _].
  unfold group_key in Hkey.
  destruct (cell r "year") as [|b0|y|s0|t0|f0|l0]; try discriminate.
  destruct Hmonth as [Hn | [m [Hm Hrange]]]; rewrite ?Hn, ?Hm in Hkey;
    [discriminate|].
  assert (Hmm : (y, m) = booking_key row) by congruence.
  unfold booking_key in Hmm.
  assert (Hmonth : MonthlyBookings.month row = m) by congruence.
  rewrite Hmonth. exact Hrange.
Qed.

End Calendar.

Lemma calendar_features_in_range_witness :
  exists df' table,
    snd (process_bookings iso8601 raw_bookings) = Some df'
    /\ monthly_bookings df' = Some table
    /\ StronglySorted earlier_month table.
Proof.
  destruct (process_bookings iso8601 raw_bookings) as [log [df'|]] eqn:H;
    [|vm_compute in H; discriminate].
  destruct (monthly_bookings df') as [table|] eqn:Ht.
  - exists df', table. split; [reflexivity|]. split; [exact Ht|].
    destruct (calendar_features_in_range iso8601 raw_bookings df' log H) as [_ Hs].
    exact (Hs table Ht).
  - vm_compute in H. injection H as <- <-. vm_compute in Ht. discriminate.
Defined.

(** ** Slot capacity columns *)

Lemma assign_raising_some (c : string) (f : record -> option value) (df : DataFrame) :
  (forall r, In r (rows df) -> exists v, f r = Some v) ->
  exists df', assign_raising c f df = Some df'.
Proof.
  intro H. unfold assign_raising.
  destruct (mapM_some (fun r => v <- f r ;; Some (set_field c v r)) (rows df))
    as [rs ->].
  - intros r Hr. destruct (H r Hr) as [v ->]. simpl. eexists. reflexivity.
  - simpl. eexists. reflexivity.
Qed.

Section CapacityColumns.

Variable parse_datetime : string -> option Z.

Lemma slots_with_dates_length (slots_df df : DataFrame) :
  slots_with_dates parse_datetime slots_df = Some df ->
  List.length (rows df) = List.length (rows slots_df).
Proof.
  unfold slots_with_dates. destruct (has_column "start_time" slots_df).
  - destruct (assign_raising "start_time" _ slots_df) as [d|] eqn:E; [|discriminate].
    simpl. intro H. injection H as <-.
    rewrite !rows_assign, !map_length_eq.
    apply assign_raising_spec in E. destruct E as [_ HF].
    symmetry. apply (Forall2_length HF).
  - intro H. injection H as <-. reflexivity.
Qed.

(** X18.  The capacity block gives every slot the capacity 10 and a
    [used_seats] column, keeps the rows, and warns about missing
    [available_seats] exactly when that column is missing.  It succeeds
    whenever every [start_time] can be read as a date and every
    [available_seats] is a number or null; a failure shows no warning. *)
Theorem capacity_block_warns_when_column_missing (slots_df : DataFrame) :
  (forall log df,
     process_slots parse_datetime slots_df = (log, Some df) ->
     List.length (rows df) = List.length (rows slots_df)
     /\ has_column "total_capacity" df = true
     /\ has_column "used_seats" df = true
     /\ (In capacity_warning log <-> has_column "available_seats" slots_df = false))
  /\ (forall log, process_slots parse_datetime slots_df = (log, None) -> log = [])
  /\ ((forall r, In r (rows slots_df) ->
         exists y, to_datetime parse_datetime (cell r "start_time") = Some y) ->
      (forall r, In r (rows slots_df) -> is_numeric (cell r "available_seats")) ->
      exists log df, process_slots parse_datetime slots_df = (log, Some df)).
Proof.
  rewrite process_slots_eq. split; [|split].
  - intros log df.
    destruct (slots_with_dates parse_datetime slots_df) as [d|] eqn:E; [|discriminate].
    pose proof (slots_with_dates_length _ _ E) as Hlen. cbv zeta.
    destruct (has_column "available_seats" slots_df).
    + intro H. injection H as <- H.
      pose proof (assign_raising_spec _ _ _ _ H) as [_ HF].
      split; [rewrite <- (Forall2_length HF), rows_assign, map_length_eq; exact Hlen|].
      rewrite !(has_column_assign_raising _ _ _ _ _ H), !has_column_assign. simpl.
      split; [reflexivity|]. split; [reflexivity|].
      split; [intros [] | discriminate].
    + intro H. injection H as <- <-.
      split; [rewrite !rows_assign, !map_length_eq; exact Hlen|].
      rewrite !has_column_assign. simpl. rewrite ?orb_true_r.
      split; [reflexivity|]. split; [reflexivity|].
      split; [reflexivity | intros _; left; reflexivity].
  - intros log.
    destruct (slots_with_dates parse_datetime slots_df) as [d|].
    + cbv zeta. destruct (has_column "available_seats" slots_df).
      * intro H. injection H as <- _. reflexivity.
      * discriminate.
    + intro H. injection H as <-. reflexivity.
  - intros Hdates Hnum.
    assert (Hd : exists d, slots_with_dates parse_datetime slots_df = Some d).
    { unfold slots_with_dates. destruct (has_column "start_time" slots_df).
      - destruct (assign_raising_some "start_time"
                    (fun r => to_datetime parse_datetime (cell r "start_time"))
                    slots_df Hdates) as [d ->].
        simpl. eexists. reflexivity.
      - eexists. reflexivity. }
    destruct Hd as [d Hd]. rewrite Hd. cbv zeta.
    destruct (slots_with_dates_cells _ _ _ Hd) as [_ Hcells].
    destruct (has_column "available_seats" slots_df).
    + destruct (assign_raising_some "used_seats"
                  (fun r => ten_minus (cell r "available_seats"))
                  (assign "total_capacity" (fun _ => VNum 10) d)) as [df ->].
      * intros r Hr. apply in_rows_assign in Hr. destruct Hr as [r1 [Hr1 ->]].
        rewrite cell_set_field. simpl.
        destruct (Hcells r1 Hr1) as [r0 [Hin [-> _]]].
        specialize (Hnum r0 Hin).
        destruct (cell r0 "available_seats"); simpl in Hnum; try contradiction;
          eexists; reflexivity.
      * eexists. eexists. reflexivity.
    + eexists. eexists. reflexivity.
Qed.

End CapacityColumns.

Lemma capacity_block_warns_when_column_missing_witness :
  exists log df,
    process_slots iso8601 slots_with_a_gap = (log, Some df)
    /\ ~ In capacity_warning log.
Proof.
  destruct (capacity_block_warns_when_column_missing iso8601 slots_with_a_gap)
    as [Hok [_ Htotal]].
  destruct Htotal as [log [df H]].
  - intros r Hin. simpl in Hin.
    destruct Hin as [<- | [<- | []]]; eexists; reflexivity.
  - intros r Hin. simpl in Hin. destruct Hin as [<- | [<- | []]]; exact I.
  - exists log, df. split; [exact H|].
    destruct (Hok log df H) as [_ [_ [_ Hw]]].
    intro Hin. apply Hw in Hin. discriminate.
Defined.

(** ** The staff filter and the table constructor *)

Lemma prefix_spec (p s : string) :
  String.prefix p s = true <-> exists post, s = p ++ post.
Proof.
  revert s. induction p as [|a p IH]; intro s.
  - split; [intros _; exists s; reflexivity | intros _; destruct s; reflexivity].
  - destruct s as [|b s]; simpl.
    + split; [discriminate | intros [post H]; discriminate].
    + destruct (ascii_dec a b) as [-> | Hne].
      * split.
        -- intro H. apply IH in H. destruct H as [post H]. exists post. congruence.
        -- intros [post H]. apply IH. exists post. congruence.
      * split; [discriminate | intros [post H]; congruence].
Qed.

Lemma contains_cons (sub : string) (c : ascii) (s : string) :
  contains sub (String c s) = String.prefix sub (String c s) || contains sub s.
Proof. reflexivity. Qed.

Lemma contains_spec (sub s : string) :
  contains sub s = true <-> exists pre post, s = pre ++ sub ++ post.
Proof.
  induction s as [|c s IH].
  - change (contains sub "") with (String.prefix sub "" || false).
    rewrite orb_false_r. split.
    + intro H. apply prefix_spec in H. destruct H as [post H].
      exists "", post. exact H.
    + intros [pre [post H]]. apply prefix_spec.
      destruct pre; [exists post; exact H | discriminate].
  - rewrite contains_cons, orb_true_iff. split.
    + intros [H | H].
      * apply prefix_spec in H. destruct H as [post H]. exists "", post. exact H.
      * apply IH in H. destruct H as [pre [post H]].
        exists (String c pre), post. simpl. congruence.
    + intros [pre [post H]]. destruct pre as [|a pre]; simpl in H.
      * left. apply prefix_spec. exists post. exact H.
      * right. apply IH. exists pre, post. congruence.
Qed.

Lemma lower_ascii_idempotent (c : ascii) : lower_ascii (lower_ascii c) = lower_ascii c.
Proof.
  destruct c as [[] [] [] [] [] [] [] []]; reflexivity.
Qed.

Lemma lower_idempotent (s : string) : lower (lower s) = lower s.
Proof.
  induction s as [|c s IH]; simpl; [reflexivity|].
  rewrite lower_ascii_idempotent, IH. reflexivity.
Qed.

(** X19.  A coupon counts as staff exactly when its e-mail is a string
    whose lower-case form contains one of the five fragments somewhere,
    at the start, in the middle or at the end; the letter case of the
    address makes no difference. *)
Theorem staff_filter_matches_anywhere (r : record) :
  (is_staff r = true <->
   exists s frag pre post,
     cell r "user_email" = VStr s
     /\ In frag excluded_users
     /\ lower s = pre ++ frag ++ post)
  /\ (forall r' s,
        cell r "user_email" = VStr s ->
        cell r' "user_email" = VStr (lower s) ->
        is_staff r' = is_staff r).
Proof.
  split.
  - unfold is_staff, str_lower_contains.
    destruct (cell r "user_email") as [|b|n|s|t|f|l];
      try (split; [discriminate | intros [s [frag [pre [post [H _]]]]]; discriminate]).
    rewrite existsb_exists. split.
    + intros [frag [Hin Hc]]. apply contains_spec in Hc.
      destruct Hc as [pre [post Hc]]. exists s, frag, pre, post. tauto.
    + intros [s' [frag [pre [post [Hs [Hin Hc]]]]]]. injection Hs as <-.
      exists frag. split; [exact Hin|]. apply contains_spec.
      exists pre, post. exact Hc.
  - intros r' s Hs Hs'. unfold is_staff, str_lower_contains.
    rewrite Hs, Hs', lower_idempotent. reflexivity.
Qed.

Lemma staff_filter_matches_anywhere_witness :
  is_staff [("user_email", VStr "info+OSCAR@example.se")] = true.
Proof.
  destruct (staff_filter_matches_anywhere
              [("user_email", VStr "info+OSCAR@example.se")]) as [[_ H] _].
  apply H. exists "info+OSCAR@example.se", "oscar", "info+", "@example.se".
  split; [reflexivity|]. split; [simpl; tauto | reflexivity].
Defined.

Lemma add_column_in (c k : string) (cols : list string) :
  In c (add_column k cols) <-> c = k \/ In c cols.
Proof.
  unfold add_column. destruct (existsb (String.eqb k) cols) eqn:E.
  - split; [tauto|]. intros [-> | H]; [|exact H].
    apply existsb_exists in E. destruct E as [x [Hx Heq]].
    apply String.eqb_eq in Heq. subst x. exact Hx.
  - rewrite in_app_iff. simpl. intuition congruence.
Qed.

Lemma add_columns_in (c : string) (ks cols : list string) :
  In c (fold_left (fun cs k => add_column k cs) ks cols) <-> In c cols \/ In c ks.
Proof.
  revert cols. induction ks as [|k ks IH]; intro cols; simpl.
  - tauto.
  - rewrite IH, add_column_in. intuition congruence.
Qed.

Lemma pd_columns_in (c : string) (data : list record) (cols : list string) :
  In c (fold_left
          (fun cols r => fold_left (fun cs k => add_column k cs) (map fst r) cols)
          data cols)
  <-> In c cols \/ exists r, In r data /\ In c (map fst r).
Proof.
  revert cols. induction data as [|r data IH]; intro cols; simpl.
  - split; [tauto | intros [H | [r [[] _]]]; exact H].
  - rewrite IH, add_columns_in. split.
    + intros [[H | H] | [r' [Hin Hc]]].
      * left. exact H.
      * right. exists r. tauto.
      * right. exists r'. tauto.
    + intros [H | [r' [[<- | Hin] Hc]]].
      * left. left. exact H.
      * left. right. exact Hc.
      * right. exists r'. tauto.
Qed.

(** X20.  The table built from the records of a response has these records
    as rows, and a column for exactly the keys that occur in some record.
    It counts as empty, which stops the run, exactly when there is no
    record or no record has any field. *)
Theorem table_of_records (data : list record) :
  rows (pd_DataFrame data) = data
  /\ (forall c, has_column c (pd_DataFrame data) = true
                <-> exists r, In r data /\ In c (map fst r))
  /\ (empty (pd_DataFrame data) = true <-> forall r, In r data -> r = []).
Proof.
  assert (Hcol : forall c, In c (columns (pd_DataFrame data))
                           <-> exists r, In r data /\ In c (map fst r)).
  { intro c. unfold pd_DataFrame. simpl. rewrite pd_columns_in. simpl. tauto. }
  split; [reflexivity|]. split.
  - intro c. unfold has_column. rewrite existsb_exists, <- Hcol. split.
    + intros [x [Hx Heq]]. apply String.eqb_eq in Heq. subst x. exact Hx.
    + intro H. exists c. split; [exact H | apply String.eqb_refl].
  - unfold empty. change (rows (pd_DataFrame data)) with data.
    destruct data as [|r0 data'] eqn:Ed.
    + split; [intros _ r [] | reflexivity].
    + rewrite <- Ed in *. destruct (columns (pd_DataFrame data)) as [|c cols] eqn:Ec.
      * split; [|reflexivity]. intros _ r Hr.
        destruct r as [|[k v] r']; [reflexivity|]. exfalso.
        apply (proj2 (Hcol k)). exists ((k, v) :: r').
        split; [exact Hr | left; reflexivity].
      * split; [discriminate|]. intro Hall. exfalso.
        destruct (proj1 (Hcol c) (or_introl eq_refl)) as [r [Hr Hc]].
        rewrite (Hall r Hr) in Hc. contradiction.
Qed.

Lemma table_of_records_witness :
  empty (pd_DataFrame [[]; []]) = true.
Proof.
  destruct (table_of_records [[]; []]) as [_ [_ [_ H]]].
  apply H. intros r Hin. simpl in Hin. destruct Hin as [<- | [<- | []]]; reflexivity.
Defined.

(** ** A rendered page *)

Lemma fetch_nonempty_is_silent (http : network) (collection_name : string) :
  empty (fst (fetch_from_directus http collection_name)) = false ->
  snd (fetch_from_directus http collection_name) = [].
Proof.
  unfold fetch_from_directus.
  destruct (http collection_name (query_params collection_name))
    as [text | status reason [text | data]]; try discriminate.
  - destruct (raise_for_status status); discriminate.
  - destruct (raise_for_status status); [discriminate | reflexivity].
Qed.

Section RenderedPage.

Variable parse_datetime : string -> option Z.
Variable parse_number : string -> option Z.

Lemma process_bookings_log (df df' : DataFrame) (log : list message) :
  process_bookings parse_datetime df = (log, Some df') ->
  forall m, In m log -> is_error m = false.
Proof.
  unfold process_bookings, bindM, lift, ret, tell.
  destruct (if has_column "date_created" df then _ else Some df) as [d0|];
    [|discriminate].
  destruct (resolve_slot_fields parse_datetime d0) as [d1 log1] eqn:E1.
  destruct (resolve_slot_fields_update parse_datetime d0 d1 log1 E1) as [_ [_ Hl]].
  destruct (assign_raising "slot_start_time" _ d1) as [d2|]; [|discriminate].
  destruct (assign_raising "slot_end_time" _ d2) as [d3|]; [|discriminate].
  match goal with
  | |- context [if has_column "coupon" ?d then _ else _] =>
      destruct (has_column "coupon" d)
  end; intro H; injection H as <- _; intros m Hin;
    repeat (apply in_app_or in Hin; destruct Hin as [Hin | Hin]);
    simpl in Hin; try contradiction;
    try (destruct Hl as [-> | ->]; simpl in Hin;
         destruct Hin as [<- | []] || contradiction; reflexivity);
    try (destruct Hin as [<- | []]; reflexivity).
Qed.

Lemma process_coupons_log (coupons_df df' : DataFrame) (log : list message) :
  process_coupons parse_datetime coupons_df = (log, Some df') -> log = [].
Proof.
  unfold process_coupons, bindM, lift, ret.
  destruct (has_column "start_date" coupons_df).
  - destruct (assign_raising "start_date" _ coupons_df); [|discriminate].
    intro H. injection H as <- _. reflexivity.
  - intro H. injection H as <- _. reflexivity.
Qed.

Lemma process_slots_log (slots_df df' : DataFrame) (log : list message) :
  process_slots parse_datetime slots_df = (log, Some df') ->
  forall m, In m log -> is_error m = false.
Proof.
  rewrite process_slots_eq.
  destruct (slots_with_dates parse_datetime slots_df) as [d|]; [|discriminate].
  cbv zeta. destruct (has_column "available_seats" slots_df); intro H.
  - injection H as <- _. intros m [].
  - injection H as <- _. intros m [<- | []]. reflexivity.
Qed.

(** X21.  A page is only rendered from a consistent run: it shows
    warnings and notes but no error; the booking count is the number of
    rows of the bookings table; the monthly bookings are in strictly
    chronological order and start in December 2024; every month of the
    utilization table has a capacity of at least ten seats, split exactly
    into used and unused seats, starts in December 2024, and the table is
    sorted by [year * 12 + month]. *)
Theorem rendered_page_is_consistent
    (token : option string) (http : network) (log : list message) (page : Dashboard) :
  main parse_datetime parse_number token http = Rendered log page ->
  (forall m, In m log -> is_error m = false)
  /\ total_bookings (metrics page) = len (bookings page)
  /\ StronglySorted earlier_month (bookings_per_month page)
  /\ (forall row, In row (bookings_per_month page) ->
        ~ before_december_2024 (booking_key row))
  /\ (forall row, In row (slots_per_month page) ->
        10 <= MonthlySlots.total_capacity row
        /\ MonthlySlots.unused_seats row + MonthlySlots.used_seats row
           = MonthlySlots.total_capacity row
        /\ ~ before_december_2024 (slots_key row))
  /\ StronglySorted (by_key MonthlySlots.month_order) (slots_per_month page).
Proof.
  unfold main. destruct (token_set token); [|discriminate]. simpl negb. cbv iota.
  unfold load_bookings_data, load_coupons_data, load_slots_data.
  pose proof (fetch_nonempty_is_silent http "bookings") as S1.
  pose proof (fetch_nonempty_is_silent http "coupons") as S2.
  pose proof (fetch_nonempty_is_silent http "slots") as S3.
  destruct (fetch_from_directus http "bookings") as [df log1].
  destruct (fetch_from_directus http "coupons") as [cdf log2].
  destruct (fetch_from_directus http "slots") as [sdf log3].
  simpl fst in *. simpl snd in *.
  destruct (empty (normalize_bookings df)) eqn:Eb; [discriminate|].
  destruct (empty (normalize_coupons cdf)) eqn:Ec; [discriminate|].
  destruct (empty sdf) eqn:Es; [discriminate|]. simpl orb. cbv iota.
  assert (Hdf : empty df = false).
  { destruct (empty df) eqn:E; [|reflexivity].
    rewrite (normalize_bookings_empty df E) in Eb. congruence. }
  assert (Hcdf : empty cdf = false).
  { destruct (empty cdf) eqn:E; [|reflexivity].
    rewrite (normalize_coupons_empty cdf E) in Ec. congruence. }
  rewrite (S1 Hdf), (S2 Hcdf), (S3 eq_refl).
  unfold process, bindM.
  destruct (process_bookings parse_datetime (normalize_bookings df))
    as [l1 [b|]] eqn:E1; [|discriminate].
  destruct (process_coupons parse_datetime (normalize_coupons cdf))
    as [l2 [c|]] eqn:E2; [|discriminate].
  destruct (process_slots parse_datetime sdf) as [l3 [s|]] eqn:E3; [|discriminate].
  destruct (summary b s) as [l4 [m|]] eqn:E4; [|discriminate].
  unfold lift.
  destruct (monthly_bookings b) as [t|] eqn:E5; [|discriminate].
  destruct (monthly_slots_table parse_datetime parse_number s)
    as [ts [E6 [Hfw [_ [_ Hsorted]]]]].
  pose proof (monthly_capacity parse_datetime parse_number sdf s l3 E3) as Hcap.
  rewrite E6 in Hcap |- *. simpl in Hcap.
  destruct (overall_utilization_rate
              (prepare_slots parse_datetime parse_number s)) as [q|];
    [|discriminate].
  unfold ret. intro H. injection H as <- <-. simpl.
  destruct (summary_spec b s l4 m E4) as [latest [_ [Hl4 [Hn _]]]].
  split; [|split; [exact Hn|split; [|split; [|split; [|exact Hsorted]]]]].
  - intros msg Hin. rewrite (process_coupons_log _ _ _ E2) in Hin.
    rewrite ?app_nil_r in Hin. simpl in Hin.
    apply in_app_or in Hin. destruct Hin as [Hin | Hin];
      [apply (process_bookings_log _ _ _ E1 msg Hin)|].
    apply in_app_or in Hin. destruct Hin as [Hin | Hin];
      [apply (process_slots_log _ _ _ E3 msg Hin)|].
    rewrite Hl4 in Hin. destruct Hin as [<- | Hin]; [reflexivity|].
    destruct (has_column "booked_seats" b); simpl in Hin;
      [contradiction | destruct Hin as [<- | []]; reflexivity].
  - destruct (processed_rows parse_datetime _ b l1 E1) as [_ Hrows].
    apply (chronological_table b t E5). intros row Hin.
    destruct (proj1 (monthly_bookings_in b t row E5) Hin) as [Hk _].
    apply in_group_keys in Hk. destruct Hk as [r [Hr Hkey]].
    destruct (Hrows r Hr) as [Ds [_ [Hy [Hm _]]]].
    unfold group_key in Hkey. rewrite Hy, Hm in Hkey.
    destruct (cell r "slot_start_time") as [|b0|n0|s0|t0|f0|l0]; simpl in Hkey;
      try discriminate.
    assert (Hmm : (dt_year t0, dt_month t0) = booking_key row) by congruence.
    unfold booking_key in Hmm.
    assert (Hmonth : MonthlyBookings.month row = dt_month t0) by congruence.
    rewrite Hmonth. apply dt_month_range.
  - intros row Hin.
    destruct (proj1 (monthly_bookings_in b t row E5) Hin) as [_ [Hb _]].
    apply boundary_excludes_november. exact Hb.
  - intros row Hin. destruct (Hcap row Hin) as [_ [H10 Hsum]].
    split; [exact H10|]. split; [exact Hsum|].
    destruct (Hfw row Hin) as [_ [Hb _]].
    apply boundary_excludes_november. exact Hb.
Qed.

End RenderedPage.

Lemma rendered_page_is_consistent_witness :
  exists log page,
    main iso8601 (fun _ => None) (Some "token") small_server = Rendered log page
    /\ total_bookings (metrics page) = len (bookings page)
    /\ forall m, In m log -> is_error m = false.
Proof.
  destruct (main iso8601 (fun _ => None) (Some "token") small_server)
    as [log | log | log page] eqn:H;
    try (vm_compute in H; discriminate).
  destruct (rendered_page_is_consistent iso8601 (fun _ => None)
              (Some "token") small_server log page H) as [Hlog [Hn _]].
  exists log, page. split; [reflexivity|]. split; [exact Hn | exact Hlog].
Defined.
